(** * webcrawler: a shallow embedding of the crawl engine and its resilience layer

    The development follows the package layout:
      - [PyStr]          the Python string primitives the package relies on;
      - [Urllib]         the parts of [urllib.parse] used by [utils.py];
      - [Utils]          [utils.py]: [URLValidator], [LinkExtractor.extract_links],
                         [RobotsTxtParser];
      - [AntiDetection]  [anti_detection.py]: [ProxyRotator], [DelayManager],
                         [AntiDetectionConfig];
      - [Crawler]        [crawler.py]: construction, [crawl_page], [crawl],
                         [get_summary], proxy and delay management, the
                         robots gate;
      - [Cli]            [cli.py]: [validate_args];
      - [UserAgents]     [anti_detection.py]: [UserAgentRotator];
      - [Posixpath], [Reports]  [crawler.py]: statistics and [save_results];
      - [Sessions]       [SessionManager] and [_get_current_session];
      - [Fetching]       the [try] block of [crawl_page];
      - [Binary64]       [DelayManager] in binary64 arithmetic.

    Conventions.  Python [str] is [string] (code points below 256), [int] is
    [Z], [set] of [str] is [gset string], [list]/[deque] are [list].  A call
    that may raise returns a [Result].  A [float] is read as an exact
    rational [Q] where the code only orders, adds up or passes on times and
    delays; where a rounded value decides what the code does (the mean of
    the adaptive delay), it is the kernel's binary64 [float], in
    [Binary64]. *)

From Stdlib Require Import String Ascii List ZArith QArith Lia Lqa Bool DecimalString.
From Stdlib Require PrimFloat Uint63.
From stdpp Require Import base option list sets gmap strings.
Import ListNotations.

#[local] Open Scope string_scope.
#[local] Open Scope Z_scope.
#[local] Set Warnings "-clear-no-such-hyp".
#[local] Set Warnings "-inexact-float".

(** ** Exceptions (exceptions.py and the builtins that reach callers) *)

Inductive Exception : Type :=
  | ConfigurationError (msg : string)
  | InvalidURLError (msg : string)
  | CrawlerError (msg : string)
  | ValueError (msg : string)
  | AttributeError (msg : string)
  | StopIteration.

Inductive Result (A : Type) : Type :=
  | Ok (a : A)
  | Raise (e : Exception).
Arguments Ok {A} a.
Arguments Raise {A} e.

Definition bind {A B} (r : Result A) (k : A -> Result B) : Result B :=
  match r with
  | Ok a => k a
  | Raise e => Raise e
  end.

Notation "'try' x <- r ; k" := (bind r (fun x => k))
  (at level 10, x name, r at level 100, k at level 200).

Definition is_ConfigurationError {A} (r : Result A) : bool :=
  match r with Raise (ConfigurationError _) => true | _ => false end.

Definition is_InvalidURLError {A} (r : Result A) : bool :=
  match r with Raise (InvalidURLError _) => true | _ => false end.

Definition is_Ok {A} (r : Result A) : bool :=
  match r with Ok _ => true | Raise _ => false end.

(** ** Python string primitives *)

Module PyStr.

Definition code (c : ascii) : nat := nat_of_ascii c.

(** [str.isspace] on one character (code points below 256). *)
Definition isspace (c : ascii) : bool :=
  let n := code c in
  ((9 <=? n) && (n <=? 13) || (28 <=? n) && (n <=? 32)
   || (n =? 133) || (n =? 160))%nat.

Fixpoint lstrip (s : string) : string :=
  match s with
  | String c s' => if isspace c then lstrip s' else s
  | EmptyString => EmptyString
  end.

Fixpoint rstrip (s : string) : string :=
  match s with
  | String c s' =>
      match rstrip s' with
      | EmptyString => if isspace c then EmptyString else String c EmptyString
      | r => String c r
      end
  | EmptyString => EmptyString
  end.

(** [s.strip()] *)
Definition strip (s : string) : string := rstrip (lstrip s).

Definition lower_char (c : ascii) : ascii :=
  let n := code c in
  if ((65 <=? n) && (n <=? 90)
      || (192 <=? n) && (n <=? 222) && negb (n =? 215))%nat
  then ascii_of_nat (n + 32) else c.

(** [s.lower()] *)
Fixpoint lower (s : string) : string :=
  match s with
  | String c s' => String (lower_char c) (lower s')
  | EmptyString => EmptyString
  end.

(** [s.startswith(p)] *)
Definition startswith (s p : string) : bool := String.prefix p s.

(** [s.endswith(p)] *)
Fixpoint endswith (s p : string) : bool :=
  String.eqb s p
  || match s with
     | String _ s' => endswith s' p
     | EmptyString => false
     end.

(** [c in s] for a one-character [c] *)
Fixpoint contains (s : string) (c : ascii) : bool :=
  match s with
  | String d s' => Ascii.eqb c d || contains s' c
  | EmptyString => false
  end.

(** [p in s] for a string [p] *)
Fixpoint contains_str (s p : string) : bool :=
  String.prefix p s
  || match s with
     | String _ s' => contains_str s' p
     | EmptyString => false
     end.

(** [s.partition(c)]: the text before the first [c], and the text after
    it when there is one. *)
Fixpoint partition (s : string) (c : ascii) : string * option string :=
  match s with
  | String d s' =>
      if Ascii.eqb c d then (EmptyString, Some s')
      else let '(a, b) := partition s' c in (String d a, b)
  | EmptyString => (EmptyString, None)
  end.

(** [s.split(c, 1)] under the guard [c in s] used by its callers;
    without a separator the second component is empty. *)
Definition split1 (s : string) (c : ascii) : string * string :=
  let '(a, b) := partition s c in (a, default EmptyString b).

(** [s.split(c)] for a one-character separator. *)
Fixpoint split (s : string) (c : ascii) : list string :=
  match s with
  | String d s' =>
      if Ascii.eqb c d then EmptyString :: split s' c
      else match split s' c with
           | w :: ws => String d w :: ws
           | [] => [String d EmptyString]
           end
  | EmptyString => [EmptyString]
  end.

(** ['/'.join(parts)] and friends *)
Fixpoint join (sep : string) (parts : list string) : string :=
  match parts with
  | [] => EmptyString
  | [p] => p
  | p :: ps => p ++ sep ++ join sep ps
  end.

(** [s[:-1]] *)
Fixpoint drop_last (s : string) : string :=
  match s with
  | String c EmptyString => EmptyString
  | String c s' => String c (drop_last s')
  | EmptyString => EmptyString
  end.

(** Truthiness of a [str]. *)
Definition truthy (s : string) : bool := negb (String.eqb s EmptyString).

(** [s.replace(c, "")] for a one-character [c] *)
Fixpoint remove_char (s : string) (c : ascii) : string :=
  match s with
  | String d s' =>
      if Ascii.eqb c d then remove_char s' c else String d (remove_char s' c)
  | EmptyString => EmptyString
  end.

End PyStr.

(** ** urllib.parse

    [urljoin] and [urlparse] are library code ([from urllib.parse import
    urljoin, urlparse] in utils.py and crawler.py).  The definitions below
    follow CPython's [Lib/urllib/parse.py] (3.11/3.12) on [str] arguments:
    [urlsplit], [_splitnetloc], [_splitparams], [urlparse], [urlunsplit],
    [urlunparse] and [urljoin].  Two checks of [urlsplit] that only concern
    non-ASCII or bracketed hosts ([_checknetloc], [_check_bracketed_host])
    are left out; the unbalanced-bracket test that raises
    [ValueError("Invalid IPv6 URL")] is kept. *)

Module Urllib.

Record ParseResult : Type := mkParseResult {
  scheme : string;
  netloc : string;
  path : string;
  params : string;
  query : string;
  fragment : string
}.

Definition uses_relative : list string :=
  [""; "ftp"; "http"; "gopher"; "nntp"; "imap"; "wais"; "file"; "https";
   "shttp"; "mms"; "prospero"; "rtsp"; "rtspu"; "sftp"; "svn"; "svn+ssh";
   "ws"; "wss"].

Definition uses_netloc : list string :=
  [""; "ftp"; "http"; "gopher"; "nntp"; "telnet"; "imap"; "wais"; "file";
   "mms"; "https"; "shttp"; "snews"; "prospero"; "rtsp"; "rtspu"; "rsync";
   "svn"; "svn+ssh"; "sftp"; "nfs"; "git"; "git+ssh"; "ws"; "wss"].

Definition uses_params : list string :=
  [""; "ftp"; "hdl"; "prospero"; "http"; "imap"; "https"; "shttp"; "rtsp";
   "rtspu"; "sip"; "sips"; "mms"; "sftp"; "tel"].

Definition mem (s : string) (l : list string) : bool :=
  existsb (String.eqb s) l.

Definition is_ascii_alpha (c : ascii) : bool :=
  let n := PyStr.code c in
  ((65 <=? n) && (n <=? 90) || (97 <=? n) && (n <=? 122))%nat.

Definition is_digit (c : ascii) : bool :=
  let n := PyStr.code c in ((48 <=? n) && (n <=? 57))%nat.

(** [c in scheme_chars] *)
Definition is_scheme_char (c : ascii) : bool :=
  is_ascii_alpha c || is_digit c
  || Ascii.eqb c "+" || Ascii.eqb c "-" || Ascii.eqb c ".".

Fixpoint all_chars (f : ascii -> bool) (s : string) : bool :=
  match s with
  | String c s' => f c && all_chars f s'
  | EmptyString => true
  end.

(** [_WHATWG_C0_CONTROL_OR_SPACE] *)
Definition is_c0_or_space (c : ascii) : bool := (PyStr.code c <=? 32)%nat.

Fixpoint lstrip_c0 (s : string) : string :=
  match s with
  | String c s' => if is_c0_or_space c then lstrip_c0 s' else s
  | EmptyString => EmptyString
  end.

Fixpoint rstrip_c0 (s : string) : string :=
  match s with
  | String c s' =>
      match rstrip_c0 s' with
      | EmptyString =>
          if is_c0_or_space c then EmptyString else String c EmptyString
      | r => String c r
      end
  | EmptyString => EmptyString
  end.

(** [_UNSAFE_URL_BYTES_TO_REMOVE = ['\t', '\r', '\n']] *)
Definition remove_unsafe (s : string) : string :=
  PyStr.remove_char
    (PyStr.remove_char (PyStr.remove_char s (ascii_of_nat 9)) (ascii_of_nat 13))
    (ascii_of_nat 10).

(** [_splitnetloc(url, 2)] applied to the text after the leading ["//"]:
    the netloc runs up to the first of [/ ? #]. *)
Fixpoint splitnetloc (s : string) : string * string :=
  match s with
  | String c s' =>
      if Ascii.eqb c "/" || Ascii.eqb c "?" || Ascii.eqb c "#"
      then (EmptyString, s)
      else let '(n, r) := splitnetloc s' in (String c n, r)
  | EmptyString => (EmptyString, EmptyString)
  end.

(** The scheme test of [urlsplit]: [i = url.find(':')], [i > 0], the
    first character an ASCII letter and all of [url[:i]] scheme
    characters. *)
Definition split_scheme (url : string) : option (string * string) :=
  match PyStr.partition url ":" with
  | (String c0 σ, Some rest) =>
      if is_ascii_alpha c0 && all_chars is_scheme_char (String c0 σ)
      then Some (PyStr.lower (String c0 σ), rest)
      else None
  | _ => None
  end.

Definition urlsplit (url0 scheme0 : string)
  : Result (string * string * string * string * string) :=
  let url := remove_unsafe (lstrip_c0 url0) in
  let scheme := remove_unsafe (rstrip_c0 (lstrip_c0 scheme0)) in
  let '(scheme, url) :=
    match split_scheme url with
    | Some (sch, rest) => (sch, rest)
    | None => (scheme, url)
    end in
  let '(netloc, url) :=
    match url with
    | String "/" (String "/" rest) => splitnetloc rest
    | _ => (EmptyString, url)
    end in
  if xorb (PyStr.contains netloc "[") (PyStr.contains netloc "]")
  then Raise (ValueError "Invalid IPv6 URL")
  else
    let '(url, fragment) :=
      match PyStr.partition url "#" with
      | (a, Some b) => (a, b)
      | (a, None) => (a, EmptyString)
      end in
    let '(url, query) :=
      match PyStr.partition url "?" with
      | (a, Some b) => (a, b)
      | (a, None) => (a, EmptyString)
      end in
    Ok (scheme, netloc, url, query, fragment).

(** [_splitparams]: the first [;] of the last path segment. *)
Fixpoint splitparams (url : string) : string * string :=
  match url with
  | String c s' =>
      if PyStr.contains s' "/" then
        let '(a, b) := splitparams s' in (String c a, b)
      else if Ascii.eqb c "/" then
        let '(a, b) := PyStr.split1 s' ";" in (String c a, b)
      else PyStr.split1 url ";"
  | EmptyString => (EmptyString, EmptyString)
  end.

Definition urlparse_with (url scheme0 : string) : Result ParseResult :=
  try parts <- urlsplit url scheme0;
  let '(scheme, netloc, url, query, fragment) := parts in
  let '(url, params) :=
    if mem scheme uses_params && PyStr.contains url ";"
    then splitparams url else (url, EmptyString) in
  Ok (mkParseResult scheme netloc url params query fragment).

(** [urlparse(url)] *)
Definition urlparse (url : string) : Result ParseResult :=
  urlparse_with url EmptyString.

Definition urlunsplit (scheme netloc url query fragment : string) : string :=
  let url :=
    if PyStr.truthy netloc
       || (PyStr.truthy scheme && mem scheme uses_netloc
           && negb (String.prefix "//" url))
    then
      let url :=
        if PyStr.truthy url && negb (String.prefix "/" url)
        then "/" ++ url else url in
      "//" ++ netloc ++ url
    else url in
  let url := if PyStr.truthy scheme then scheme ++ ":" ++ url else url in
  let url := if PyStr.truthy query then url ++ "?" ++ query else url in
  if PyStr.truthy fragment then url ++ "#" ++ fragment else url.

Definition urlunparse (p : ParseResult) : string :=
  let url :=
    if PyStr.truthy (params p) then path p ++ ";" ++ params p else path p in
  urlunsplit (scheme p) (netloc p) url (query p) (fragment p).

(** [segments[1:-1] = filter(None, segments[1:-1])] *)
Definition filter_inner (segments : list string) : list string :=
  match segments with
  | [] => []
  | [a] => [a]
  | a :: rest =>
      (a :: List.filter PyStr.truthy (removelast rest)
         ++ [List.last rest ""])%list
  end.

(** The [for seg in segments] loop of [urljoin]; [resolved_path] is kept
    reversed so that [pop] and [append] act on the head. *)
Fixpoint resolve (segments rev_resolved : list string) : list string :=
  match segments with
  | [] => rev rev_resolved
  | seg :: segs =>
      if String.eqb seg ".." then resolve segs (tail rev_resolved)
      else if String.eqb seg "." then resolve segs rev_resolved
      else resolve segs (seg :: rev_resolved)
  end.

(** [urljoin(base, url)] *)
Definition urljoin (base url : string) : Result string :=
  if negb (PyStr.truthy base) then Ok url
  else if negb (PyStr.truthy url) then Ok base
  else
    try b <- urlparse_with base EmptyString;
    try u <- urlparse_with url (scheme b);
    if negb (String.eqb (scheme u) (scheme b))
       || negb (mem (scheme u) uses_relative)
    then Ok url
    else if mem (scheme u) uses_netloc && PyStr.truthy (netloc u)
    then Ok (urlunparse u)
    else
      let netloc' :=
        if mem (scheme u) uses_netloc then netloc b else netloc u in
      if negb (PyStr.truthy (path u)) && negb (PyStr.truthy (params u))
      then
        let query' := if PyStr.truthy (query u) then query u else query b in
        Ok (urlunparse (mkParseResult (scheme u) netloc' (path b) (params b)
                                      query' (fragment u)))
      else
        let base_parts := PyStr.split (path b) "/" in
        let base_parts :=
          if String.eqb (List.last base_parts "") "" then base_parts
          else removelast base_parts in
        let segments :=
          if String.prefix "/" (path u) then PyStr.split (path u) "/"
          else filter_inner (base_parts ++ PyStr.split (path u) "/")%list in
        let resolved := resolve segments [] in
        let resolved :=
          let l := List.last segments "" in
          if String.eqb l "." || String.eqb l ".." then (resolved ++ [""])%list
          else resolved in
        let joined := PyStr.join "/" resolved in
        let path' := if PyStr.truthy joined then joined else "/" in
        Ok (urlunparse (mkParseResult (scheme u) netloc' path' (params u)
                                      (query u) (fragment u))).

End Urllib.

(** ** Floats

    Python floats are read as exact rationals: the delay policy and the
    crawl-delay directive only add, scale, average and compare them. *)

Definition Qltb (a b : Q) : bool := negb (Qle_bool b a).

(** [max(a, b)]: the first of the largest arguments. *)
Definition Qmax2 (a b : Q) : Q := if Qltb a b then b else a.

(** [str(e)] of a raised exception. *)
Definition str_exc (e : Exception) : string :=
  match e with
  | ConfigurationError m | InvalidURLError m | CrawlerError m
  | ValueError m | AttributeError m => m
  | StopIteration => ""
  end.

(** ** utils.py *)

Module Utils.

(** *** URLValidator.normalize_url *)

(** The body of the [try] block once [urlparse] has returned. *)
Definition rebuild (parsed : Urllib.ParseResult) : string :=
  (* normalized = f"{parsed.scheme}://{parsed.netloc}{parsed.path}" *)
  let normalized :=
    Urllib.scheme parsed ++ "://" ++ Urllib.netloc parsed
    ++ Urllib.path parsed in
  (* if parsed.query: normalized += f"?{parsed.query}" *)
  let normalized :=
    if PyStr.truthy (Urllib.query parsed)
    then normalized ++ "?" ++ Urllib.query parsed else normalized in
  (* if normalized.endswith('/') and len(parsed.path) > 1:
         normalized = normalized[:-1] *)
  if PyStr.endswith normalized "/"
     && (1 <? Z.of_nat (String.length (Urllib.path parsed)))
  then PyStr.drop_last normalized
  else normalized.

Definition normalize_url (url base_url : string) : Result string :=
  let body :=
    try absolute_url <- Urllib.urljoin base_url url;
    try parsed <- Urllib.urlparse absolute_url;
    Ok (rebuild parsed) in
  match body with
  | Ok normalized => Ok normalized
  | Raise e =>
      Raise (InvalidURLError
               ("Cannot normalize URL '" ++ url ++ "': " ++ str_exc e))
  end.

(** *** RobotsTxtParser *)

Record RobotsTxtParser : Type := mkRobotsTxtParser {
  user_agent : string;
  disallowed_paths : gset string;
  crawl_delay : Q
}.

Section Robots.

(** [float(value)]: [None] stands for [ValueError]. *)
Variable py_float : string -> option Q.

(** Loop state of [_parse_robots_txt]: the two locals and [self]. *)
Record ParseState : Type := mkParseState {
  current_user_agent : option string;
  applies_to_us : bool;
  self : RobotsTxtParser
}.

(** One iteration of [for line in content.split('\n')]. *)
Definition parse_line (st : ParseState) (line : string) : ParseState :=
  let line := PyStr.strip line in
  if negb (PyStr.truthy line) || PyStr.startswith line "#" then st
  else if PyStr.contains line ":" then
    let '(directive, value) := PyStr.split1 line ":" in
    let directive := PyStr.lower (PyStr.strip directive) in
    let value := PyStr.strip value in
    if String.eqb directive "user-agent" then
      let ua := PyStr.lower value in
      mkParseState (Some ua)
        (String.eqb ua "*" || String.eqb ua (user_agent (self st)))
        (self st)
    else if applies_to_us st then
      if String.eqb directive "disallow" then
        if PyStr.truthy value then
          mkParseState (current_user_agent st) (applies_to_us st)
            (mkRobotsTxtParser (user_agent (self st))
               ({[ value ]} ∪ disallowed_paths (self st))
               (crawl_delay (self st)))
        else st
      else if String.eqb directive "crawl-delay" then
        match py_float value with
        | Some f =>
            mkParseState (current_user_agent st) (applies_to_us st)
              (mkRobotsTxtParser (user_agent (self st))
                 (disallowed_paths (self st))
                 (Qmax2 (crawl_delay (self st)) f))
        | None => st
        end
      else st
    else st
  else st.

Definition _parse_robots_txt (p : RobotsTxtParser) (content : string)
  : RobotsTxtParser :=
  self (fold_left parse_line (PyStr.split content (ascii_of_nat 10))
          (mkParseState None false p)).

(** [RobotsTxtParser(robots_txt_content, user_agent)] *)
Definition RobotsTxtParser_init (robots_txt_content ua : string)
  : RobotsTxtParser :=
  _parse_robots_txt (mkRobotsTxtParser (PyStr.lower ua) ∅ 0%Q)
    robots_txt_content.

End Robots.

(** [can_crawl]: the loop returns [False] at the first matching prefix. *)
Definition can_crawl (p : RobotsTxtParser) (url_path : string) : bool :=
  forallb (fun disallowed => negb (PyStr.startswith url_path disallowed))
    (elements (disallowed_paths p)).

(** *** URLValidator.is_valid_url *)

Record URLValidator : Type := mkURLValidator {
  allowed_domains : gset string
}.

(** [URLValidator(allowed_domains)]: [allowed_domains or set()] *)
Definition URLValidator_init (allowed : option (gset string)) : URLValidator :=
  mkURLValidator (default ∅ allowed).

Definition SKIP_EXTENSIONS : list string :=
  [".pdf"; ".jpg"; ".jpeg"; ".png"; ".gif"; ".svg"; ".ico";
   ".zip"; ".rar"; ".7z"; ".tar"; ".gz";
   ".exe"; ".msi"; ".dmg"; ".deb"; ".rpm";
   ".doc"; ".docx"; ".xls"; ".xlsx"; ".ppt"; ".pptx";
   ".mp3"; ".mp4"; ".avi"; ".mov"; ".wmv"; ".flv";
   ".css"; ".js"; ".json"; ".xml"; ".rss"].

Definition VALID_SCHEMES : list string := ["http"; "https"].

(** The regular expressions of [skip_patterns] are of two shapes: a
    literal text ([r'/admin/']) and an escaped literal followed by [$]
    ([r'\.php$']). *)
Inductive Pattern : Type :=
  | Literal (text : string)
  | LiteralAtEnd (text : string).

Definition skip_patterns : list Pattern :=
  [Literal "/admin/"; Literal "/login"; Literal "/logout";
   Literal "/register"; Literal "/api/";
   LiteralAtEnd ".php"; LiteralAtEnd ".asp"; LiteralAtEnd ".jsp"].

(** Truthiness of [re.search(pattern, s)].  Without [re.MULTILINE], [$]
    matches at the end of the string and just before a newline that ends
    the string. *)
Definition re_search (pattern : Pattern) (s : string) : bool :=
  match pattern with
  | Literal text => PyStr.contains_str s text
  | LiteralAtEnd text =>
      PyStr.endswith s text
      || PyStr.endswith s (text ++ String (ascii_of_nat 10) EmptyString)
  end.

Definition is_valid_url (v : URLValidator) (url : string) : bool :=
  match Urllib.urlparse url with
  | Raise _ => false  (* except Exception: return False *)
  | Ok parsed =>
      (* Must have scheme and netloc *)
      if negb (PyStr.truthy (Urllib.scheme parsed))
         || negb (PyStr.truthy (Urllib.netloc parsed)) then false
      (* Only HTTP/HTTPS *)
      else if negb (Urllib.mem (Urllib.scheme parsed) VALID_SCHEMES) then false
      (* Check domain restrictions *)
      else if negb (bool_decide (allowed_domains v = ∅))
              && negb (bool_decide (Urllib.netloc parsed ∈ allowed_domains v))
      then false
      (* Skip unwanted file extensions *)
      else if existsb (PyStr.endswith (PyStr.lower (Urllib.path parsed)))
                SKIP_EXTENSIONS then false
      (* Skip certain patterns *)
      else if existsb (fun pattern => re_search pattern url) skip_patterns
      then false
      else true
  end.

(** *** LinkExtractor.extract_links *)

Section Links.

(** [BeautifulSoup(html_content, 'html.parser')] followed by
    [soup.find_all('a', href=True)] is library code: the [href] values of
    the anchors in document order, or the exception the parser raised. *)
Variable find_hrefs : string -> Result (list string).

(** The [for link in soup.find_all('a', href=True)] loop.  An
    [InvalidURLError] skips the link; any other exception leaves the
    loop with the links gathered so far ([except Exception: pass]). *)
Fixpoint links_loop (v : URLValidator) (base_url : string)
    (hrefs links : list string) : list string :=
  match hrefs with
  | [] => links
  | href :: rest =>
      let href := PyStr.strip href in
      if negb (PyStr.truthy href) || PyStr.startswith href "#"
      then links_loop v base_url rest links
      else
        match normalize_url href base_url with
        | Ok normalized_url =>
            if is_valid_url v normalized_url
            then links_loop v base_url rest (links ++ [normalized_url])%list
            else links_loop v base_url rest links
        | Raise (InvalidURLError _) => links_loop v base_url rest links
        | Raise _ => links
        end
  end.

(** Remove duplicates while preserving order. *)
Fixpoint unique_loop (links : list string) (seen : gset string)
    (unique_links : list string) : list string :=
  match links with
  | [] => unique_links
  | link :: rest =>
      if decide (link ∈ seen) then unique_loop rest seen unique_links
      else unique_loop rest ({[ link ]} ∪ seen) (unique_links ++ [link])%list
  end.

Definition extract_links (v : URLValidator) (html_content base_url : string)
  : list string :=
  let links :=
    match find_hrefs html_content with
    | Ok hrefs => links_loop v base_url hrefs []
    | Raise _ => []
    end in
  unique_loop links ∅ [].

End Links.

End Utils.

(** ** The outside world

    A proxy is a [Dict[str, str]]; the code only compares proxies ([==]) and
    renders them ([str(proxy)]), so both are taken as an interface. *)

Class ProxyDict : Type := {
  Proxy : Type;
  proxy_eqb : Proxy -> Proxy -> bool;
  proxy_str : Proxy -> string
}.

(** Clock, sleeping, randomness and the liveness probe of a proxy
    ([requests.get("http://httpbin.org/ip", proxies=proxy)] answering 200). *)
Class Runtime `{ProxyDict} : Type := {
  World : Type;
  time_time : World -> Q * World;
  time_sleep : Q -> World -> World;
  random_uniform : Q -> Q -> World -> Q * World;
  probe_proxy : Proxy -> Q -> World -> bool * World
}.

(** ** anti_detection.py *)

Module AntiDetection.

(** *** itertools.cycle

    A cycle over a list that is not mutated while the cycle is alive
    (the rotator makes a fresh cycle whenever it changes its pool): the
    pending elements in order; [next] yields the head and moves it to
    the back. *)
Definition Cycle (A : Type) : Type := list A.

Definition cycle {A} (l : list A) : Cycle A := l.

Definition next {A} (c : Cycle A) : Result (A * Cycle A) :=
  match c with
  | x :: c' => Ok (x, (c' ++ [x])%list)
  | [] => Raise StopIteration
  end.

Section WithRuntime.

Context `{Runtime}.

(** *** ProxyRotator *)

Record ProxyRotator : Type := mkProxyRotator {
  proxies : list Proxy;
  timeout : Q;
  _iterator : option (Cycle Proxy);
  _failed_proxies : gset string
}.

(** The loop of [_validate_proxies]. *)
Fixpoint validate_loop (ps : list Proxy) (t : Q) (w : World)
  : list Proxy * World :=
  match ps with
  | [] => ([], w)
  | proxy :: ps' =>
      let '(alive, w) := probe_proxy proxy t w in
      let '(valid, w) := validate_loop ps' t w in
      (if alive then proxy :: valid else valid, w)
  end.

Definition _validate_proxies (r : ProxyRotator) (w : World)
  : ProxyRotator * World :=
  let '(valid_proxies, w) := validate_loop (proxies r) (timeout r) w in
  (mkProxyRotator valid_proxies (timeout r)
     (match valid_proxies with [] => None | _ => Some (cycle valid_proxies) end)
     (_failed_proxies r), w).

(** [ProxyRotator(proxies, validate_on_init, timeout)] *)
Definition ProxyRotator_init (ps : option (list Proxy))
    (validate_on_init : bool) (t : Q) (w : World) : ProxyRotator * World :=
  let ps := default [] ps in
  let r :=
    mkProxyRotator ps t
      (match ps with [] => None | _ => Some (cycle ps) end) ∅ in
  match ps with
  | _ :: _ => if validate_on_init then _validate_proxies r w else (r, w)
  | [] => (r, w)
  end.

(** [while attempts < max_attempts]: [n] is [max_attempts - attempts]. *)
Fixpoint get_next_loop (n : nat) (it : Cycle Proxy) (failed : gset string)
  : Result (option Proxy * Cycle Proxy) :=
  match n with
  | O => Ok (None, it)
  | S n' =>
      try px <- next it;
      let '(proxy, it) := px in
      let proxy_key := proxy_str proxy in
      if decide (proxy_key ∈ failed) then get_next_loop n' it failed
      else Ok (Some proxy, it)
  end.

Definition get_next (r : ProxyRotator)
  : Result (option Proxy * ProxyRotator) :=
  match proxies r, _iterator r with
  | [], _ | _, None => Ok (None, r)
  | _ :: _, Some it =>
      let max_attempts := length (proxies r) in
      try found <- get_next_loop max_attempts it (_failed_proxies r);
      match found with
      | (Some proxy, it) =>
          Ok (Some proxy,
              mkProxyRotator (proxies r) (timeout r) (Some it)
                (_failed_proxies r))
      | (None, it) =>
          (* All proxies failed, reset failed list and try again *)
          try px <- next it;
          let '(proxy, it) := px in
          Ok (Some proxy,
              mkProxyRotator (proxies r) (timeout r) (Some it) ∅)
      end
  end.

Definition mark_failed (r : ProxyRotator) (proxy : Proxy) : ProxyRotator :=
  mkProxyRotator (proxies r) (timeout r) (_iterator r)
    ({[ proxy_str proxy ]} ∪ _failed_proxies r).

Definition add_proxy (r : ProxyRotator) (proxy : Proxy) (validate : bool)
    (w : World) : bool * ProxyRotator * World :=
  let '(ok, w) :=
    if validate then probe_proxy proxy (timeout r) w else (true, w) in
  if negb ok then (false, r, w)
  else if existsb (proxy_eqb proxy) (proxies r) then (false, r, w)
  else
    let ps := (proxies r ++ [proxy])%list in
    (true,
     mkProxyRotator ps (timeout r) (Some (cycle ps)) (_failed_proxies r),
     w).

Definition has_proxies (r : ProxyRotator) : bool :=
  (0 <? length (proxies r))%nat.

(** *** DelayManager *)

Record DelayManager : Type := mkDelayManager {
  base_delay : Q;
  strategy : string;
  _request_count : Z;
  _response_times : list Q;
  _last_request_time : Q
}.

(** [DelayManager(base_delay, strategy)] *)
Definition DelayManager_init (base : Q) (strat : string) : DelayManager :=
  mkDelayManager base strat 0 [] 0%Q.

(** [sum(xs) / len(xs)], as an exact quotient; the rounded one of the
    code is [Binary64.mean]. *)
Definition mean (xs : list Q) : Q :=
  (fold_left Qplus xs 0 / inject_Z (Z.of_nat (length xs)))%Q.

Definition _calculate_adaptive_delay (dm : DelayManager)
    (response_time : option Q) : Q * DelayManager :=
  let times :=
    match response_time with
    | Some rt =>
        let times := (_response_times dm ++ [rt])%list in
        (* Keep only last 10 response times *)
        if (10 <? length times)%nat then tail times else times
    | None => _response_times dm
    end in
  let dm :=
    mkDelayManager (base_delay dm) (strategy dm) (_request_count dm)
      times (_last_request_time dm) in
  match times with
  | [] => (base_delay dm, dm)
  | _ =>
      let avg_response_time := mean times in
      if Qltb 3 avg_response_time then ((base_delay dm * 2)%Q, dm)
      else if Qltb 1 avg_response_time then ((base_delay dm * (3 # 2))%Q, dm)
      else (base_delay dm, dm)
  end.

(** The [if]/[elif] chain of [wait] that picks the target delay. *)
Definition target_delay (dm : DelayManager) (response_time : option Q)
    (w : World) : Q * DelayManager * World :=
  if String.eqb (strategy dm) "fixed" then (base_delay dm, dm, w)
  else if String.eqb (strategy dm) "random" then
    let '(d, w) :=
      random_uniform (base_delay dm * (1 # 2))%Q
                     (base_delay dm * (3 # 2))%Q w in
    (d, dm, w)
  else if String.eqb (strategy dm) "exponential" then
    ((base_delay dm
      * Qpower (3 # 2) (Z.min (_request_count dm / 10) 5))%Q, dm, w)
  else if String.eqb (strategy dm) "adaptive" then
    let '(d, dm) := _calculate_adaptive_delay dm response_time in
    (d, dm, w)
  else (base_delay dm, dm, w).

Definition wait (dm : DelayManager) (response_time : option Q) (w : World)
  : DelayManager * World :=
  let '(current_time, w) := time_time w in
  let '(delay, dm, w) := target_delay dm response_time w in
  (* Ensure minimum time has passed since last request *)
  let time_since_last := (current_time - _last_request_time dm)%Q in
  let actual_delay := Qmax2 0 (delay - time_since_last)%Q in
  let w := if Qltb 0 actual_delay then time_sleep actual_delay w else w in
  let '(now, w) := time_time w in
  (mkDelayManager (base_delay dm) (strategy dm) (_request_count dm + 1)
     (_response_times dm) now, w).

Definition reset (dm : DelayManager) : DelayManager :=
  mkDelayManager (base_delay dm) (strategy dm) 0 [] 0%Q.

End WithRuntime.

(** *** AntiDetectionConfig *)

Record AntiDetectionConfig : Type := mkAntiDetectionConfig {
  enable_user_agent_rotation : bool;
  enable_proxy_rotation : bool;
  enable_header_randomization : bool;
  enable_adaptive_delays : bool;
  min_delay : Q;
  max_delay : Q;
  delay_strategy : string;
  session_rotation_interval : Z;
  max_retries : Z;
  cfg_timeout : Q;
  verify_ssl : bool
}.

Definition valid_strategies : list string :=
  ["fixed"; "random"; "exponential"; "adaptive"].

Definition AntiDetectionConfig_validate (c : AntiDetectionConfig)
  : Result unit :=
  if existsb (String.eqb (delay_strategy c)) valid_strategies then Ok tt
  else Raise (ValueError
    "Invalid delay strategy. Must be one of: ['fixed', 'random', 'exponential', 'adaptive']").

(** [AntiDetectionConfig(...)] *)
Definition AntiDetectionConfig_init
    (ua_rotation proxy_rotation header_randomization adaptive : bool)
    (min_d max_d : Q) (strat : string) (rotation_interval retries : Z)
    (t : Q) (ssl : bool) : Result AntiDetectionConfig :=
  let min_d := Qmax2 0 min_d in
  let c :=
    mkAntiDetectionConfig ua_rotation proxy_rotation header_randomization
      adaptive min_d (Qmax2 min_d max_d) strat (Z.max 1 rotation_interval)
      (Z.max 0 retries) (Qmax2 1 t) ssl in
  try _ <- AntiDetectionConfig_validate c;
  Ok c.

End AntiDetection.

(** ** crawler.py *)

Module Crawler.

Import AntiDetection.

(** *** Page records *)

(** [page_data]: the dictionary built by [crawl_page]. *)
Record PageData : Type := mkPageData {
  url : string;
  title : string;
  meta_description : string;
  links : list string;
  status_code : option Z;
  error : option string;
  timestamp : Q;
  content_type : option string;
  content_length : option Z;
  response_time : option Q;
  user_agent_used : string;
  proxy_used : option string;
  retry_count : Z
}.

(** The ways the [try] block of [crawl_page] sets [page_data['error']]. *)
Inductive Failure : Type :=
  | BlockedByRobots
  | AllProxiesFailed
  | NoResponse
  | NonHtmlContent (content_type : string)
  | HttpStatus (status_code : Z)
  | RequestTimeout
  | ConnectionFailure (detail : string)
  | RequestFailure (detail : string)
  | UnexpectedFailure (detail : string).

(** [str(n)] for an [int]. *)
Definition str_int (n : Z) : string := NilZero.string_of_int (Z.to_int n).

(** [str(e)[:100]] *)
Definition first100 (s : string) : string := String.substring 0 100 s.

Definition error_message (f : Failure) : string :=
  match f with
  | BlockedByRobots => "Blocked by robots.txt"
  | AllProxiesFailed => "All proxies failed"
  | NoResponse => "Failed to get response after retries"
  | NonHtmlContent ct => "Non-HTML content: " ++ ct
  | HttpStatus code => "HTTP " ++ str_int code
  | RequestTimeout => "Request timeout"
  | ConnectionFailure e => "Connection error: " ++ first100 e
  | RequestFailure e => "Request error: " ++ first100 e
  | UnexpectedFailure e => "Unexpected error: " ++ first100 e
  end.

(** What the [try] block of [crawl_page] writes into [page_data]. *)
Record Fetched : Type := mkFetched {
  f_title : string;
  f_meta_description : string;
  f_links : list string;
  f_status_code : option Z;
  f_failure : option Failure;
  f_content_type : option string;
  f_content_length : option Z;
  f_response_time : option Q;
  f_user_agent_used : string;
  f_proxy_used : option string;
  f_retry_count : Z
}.

(** Outcome of the [try] block: it ran to its end (every [Exception] is
    turned into an error string), or a [KeyboardInterrupt] went through
    it, possibly after the response time was recorded. *)
Inductive Attempt : Type :=
  | Completed (f : Fetched)
  | Interrupted (response_time : option Q).

(** The [try] block of [crawl_page] (robots gate, session and proxy
    selection, the GET with its retries, extraction) and session cleanup
    run against the network. *)
Class Transport `{Runtime} : Type := {
  fetch_page : string -> World -> Attempt * World;
  close_all_sessions : World -> World
}.

Section WithTransport.

Context `{Transport}.

(** *** WebCrawler *)

(** The fields of [self] read or written by the code below; the user
    agent rotator, the session manager and the robots cache are only
    used inside [fetch_page]. *)
Record WebCrawler : Type := mkWebCrawler {
  seed_url : string;
  max_depth : Z;
  delay : Q;
  max_pages : Z;
  same_domain_only : bool;
  respect_robots_txt : bool;
  user_agent : string;
  timeout : Q;
  verify_ssl : bool;
  anti_detection_config : AntiDetectionConfig;
  visited_urls : gset string;
  crawled_data : list PageData;
  url_queue : list (string * Z);
  base_domain : string;
  proxy_rotator : option ProxyRotator;
  delay_manager : DelayManager;
  _request_count : Z;
  _session_id : Z
}.

Definition with_url_queue (c : WebCrawler) (q : list (string * Z)) :=
  mkWebCrawler (seed_url c) (max_depth c) (delay c) (max_pages c)
    (same_domain_only c) (respect_robots_txt c) (user_agent c) (timeout c)
    (verify_ssl c) (anti_detection_config c) (visited_urls c)
    (crawled_data c) q (base_domain c) (proxy_rotator c)
    (delay_manager c) (_request_count c) (_session_id c).

Definition with_visited_urls (c : WebCrawler) (v : gset string) :=
  mkWebCrawler (seed_url c) (max_depth c) (delay c) (max_pages c)
    (same_domain_only c) (respect_robots_txt c) (user_agent c) (timeout c)
    (verify_ssl c) (anti_detection_config c) v
    (crawled_data c) (url_queue c) (base_domain c) (proxy_rotator c)
    (delay_manager c) (_request_count c) (_session_id c).

Definition with_crawled_data (c : WebCrawler) (d : list PageData) :=
  mkWebCrawler (seed_url c) (max_depth c) (delay c) (max_pages c)
    (same_domain_only c) (respect_robots_txt c) (user_agent c) (timeout c)
    (verify_ssl c) (anti_detection_config c) (visited_urls c)
    d (url_queue c) (base_domain c) (proxy_rotator c)
    (delay_manager c) (_request_count c) (_session_id c).

Definition with_delay_manager (c : WebCrawler) (dm : DelayManager) :=
  mkWebCrawler (seed_url c) (max_depth c) (delay c) (max_pages c)
    (same_domain_only c) (respect_robots_txt c) (user_agent c) (timeout c)
    (verify_ssl c) (anti_detection_config c) (visited_urls c)
    (crawled_data c) (url_queue c) (base_domain c) (proxy_rotator c)
    dm (_request_count c) (_session_id c).

Definition with_request_count (c : WebCrawler) (n : Z) :=
  mkWebCrawler (seed_url c) (max_depth c) (delay c) (max_pages c)
    (same_domain_only c) (respect_robots_txt c) (user_agent c) (timeout c)
    (verify_ssl c) (anti_detection_config c) (visited_urls c)
    (crawled_data c) (url_queue c) (base_domain c) (proxy_rotator c)
    (delay_manager c) n (_session_id c).

(** *** Construction *)

(** The parameters of [WebCrawler.__init__]. *)
Record InitArgs : Type := mkInitArgs {
  a_seed_url : string;
  a_max_depth : Z;
  a_delay : Q;
  a_max_pages : Z;
  a_same_domain_only : bool;
  a_respect_robots_txt : bool;
  a_user_agent : string;
  a_enable_anti_detection : bool;
  a_enable_user_agent_rotation : bool;
  a_enable_proxy_rotation : bool;
  a_enable_header_randomization : bool;
  a_delay_strategy : string;
  a_min_delay : Q;
  a_max_delay : Q;
  a_session_rotation_interval : Z;
  a_proxy_list : option (list Proxy);
  a_validate_proxies : bool;
  a_max_retries : Z;
  a_timeout : Q;
  a_verify_ssl : bool;
  a_custom_user_agents : option (list string);
  a_random_user_agent_rotation : bool
}.

(** [WebCrawler(seed_url)] with every other parameter at its default. *)
Definition default_args (seed : string) : InitArgs :=
  mkInitArgs seed 3 1 100 true true "WebCrawler/0.0.1 (Anti-Detection)"
    false false false false "fixed" 1 5 50 None true 3 30 true None true.

(** [_validate_config], on the four attributes it reads. *)
Definition _validate_config (seed : string) (depth : Z) (d : Q) (pages : Z)
  : Result unit :=
  if negb (PyStr.truthy seed) then
    Raise (ConfigurationError "Seed URL cannot be empty")
  else if depth <? 0 then
    Raise (ConfigurationError "Max depth cannot be negative")
  else if Qltb d 0 then
    Raise (ConfigurationError "Delay cannot be negative")
  else if pages <=? 0 then
    Raise (ConfigurationError "Max pages must be positive")
  else if negb (PyStr.startswith seed "http://"
                || PyStr.startswith seed "https://") then
    Raise (ConfigurationError ("Invalid seed URL scheme: " ++ seed))
  else Ok tt.

(** [bool(proxy_list)] *)
Definition has_proxy_list (pl : option (list Proxy)) : bool :=
  match pl with
  | Some (_ :: _) => true
  | _ => false
  end.

(** [WebCrawler.__init__]: the exception raised, or the new object,
    together with the world after the proxy probes. *)
Definition WebCrawler_init (a : InitArgs) (w : World)
  : Result WebCrawler * World :=
  (* Configure anti-detection features *)
  let ua_rotation :=
    if a_enable_anti_detection a then true
    else a_enable_user_agent_rotation a in
  let header_randomization :=
    if a_enable_anti_detection a then true
    else a_enable_header_randomization a in
  let strat :=
    if a_enable_anti_detection a then
      if String.eqb (a_delay_strategy a) "fixed" then "adaptive"
      else a_delay_strategy a
    else a_delay_strategy a in
  match
    AntiDetectionConfig_init ua_rotation
      (a_enable_proxy_rotation a && has_proxy_list (a_proxy_list a))
      header_randomization (String.eqb strat "adaptive")
      (a_min_delay a) (a_max_delay a) strat
      (a_session_rotation_interval a) (a_max_retries a) (a_timeout a)
      (a_verify_ssl a)
  with
  | Raise e => (Raise e, w)
  | Ok config =>
  (* Validate configuration before proceeding *)
  match
    _validate_config (a_seed_url a) (a_max_depth a) (a_delay a)
      (a_max_pages a)
  with
  | Raise e => (Raise e, w)
  | Ok _ =>
  (* self.base_domain = urlparse(seed_url).netloc *)
  match Urllib.urlparse (a_seed_url a) with
  | Raise e => (Raise e, w)
  | Ok parsed =>
  (* _setup_anti_detection_components *)
  if enable_proxy_rotation config && has_proxy_list (a_proxy_list a) then
    let '(_, w) :=
      ProxyRotator_init (a_proxy_list a) (a_validate_proxies a)
        (a_timeout a) w in
    (* self.logger.info(...) runs before _setup_logging() *)
    (Raise (AttributeError
              "'WebCrawler' object has no attribute 'logger'"), w)
  else
    (Ok (mkWebCrawler (a_seed_url a) (a_max_depth a) (a_delay a)
           (a_max_pages a) (a_same_domain_only a)
           (a_respect_robots_txt a) (a_user_agent a) (a_timeout a)
           (a_verify_ssl a) config
           ∅ [] [(a_seed_url a, 0)]
           (Urllib.netloc parsed) None
           (DelayManager_init (a_delay a) (delay_strategy config))
           0 0), w)
  end end end.

(** *** crawl_page *)

(** Truthiness of [page_data['response_time']]. *)
Definition truthy_time (rt : option Q) : option Q :=
  match rt with
  | Some t => if Qeq_bool t 0 then None else Some t
  | None => None
  end.

(** [crawl_page(url)]: the page record ([None] when a
    [KeyboardInterrupt] leaves the method), the updated [self] and the
    world.  The [finally] block runs in both cases. *)
Definition crawl_page (c : WebCrawler) (u : string) (w : World)
  : option PageData * WebCrawler * World :=
  let '(start_time, w) := time_time w in
  let '(attempt, w) := fetch_page u w in
  let rt :=
    match attempt with
    | Completed f => f_response_time f
    | Interrupted rt => rt
    end in
  (* finally: *)
  let c := with_request_count c (_request_count c + 1) in
  let '(dm, w) := wait (delay_manager c) (truthy_time rt) w in
  let c := with_delay_manager c dm in
  match attempt with
  | Completed f =>
      (Some (mkPageData u (f_title f) (f_meta_description f) (f_links f)
               (f_status_code f) (option_map error_message (f_failure f))
               start_time (f_content_type f) (f_content_length f)
               (f_response_time f) (f_user_agent_used f) (f_proxy_used f)
               (f_retry_count f)), c, w)
  | Interrupted _ => (None, c, w)
  end.

(** *** crawl *)

(** Truthiness of [page_data['error']]. *)
Definition has_error (p : PageData) : bool :=
  match error p with
  | Some msg => PyStr.truthy msg
  | None => false
  end.

(** What one pass through the [while] body did with the dequeued
    entry. *)
Inductive Event : Type :=
  | SkippedVisited (current_url : string) (depth : Z)
  | SkippedDepth (current_url : string) (depth : Z)
  | Crawled (current_url : string) (depth : Z) (page_data : PageData)
  | Cancelled (current_url : string) (depth : Z).

(** [self], the world and the two counters local to [crawl]. *)
Record Loop : Type := mkLoop {
  self : WebCrawler;
  world : World;
  pages_crawled : Z;
  consecutive_failures : Z
}.

Definition max_consecutive_failures : Z := 10.

(** [while self.url_queue and pages_crawled < self.max_pages] *)
Definition loop_cond (st : Loop) : bool :=
  match url_queue (self st) with
  | [] => false
  | _ :: _ => pages_crawled st <? max_pages (self st)
  end.

(** [for link in page_data['links']: if link not in self.visited_urls:
    self.url_queue.append((link, depth + 1))] *)
Definition enqueue_links (c : WebCrawler) (ls : list string) (depth : Z)
  : WebCrawler :=
  with_url_queue c
    (url_queue c
     ++ map (fun link => (link, depth + 1))
          (List.filter (fun link => bool_decide (link ∉ visited_urls c)) ls))%list.

(** [if page_data.get('status_code') == 429:
    self.delay_manager.base_delay *= 1.5] *)
Definition handle_rate_limit (c : WebCrawler) (p : PageData) : WebCrawler :=
  match status_code p with
  | Some code =>
      if code =? 429 then
        let dm := delay_manager c in
        with_delay_manager c
          (mkDelayManager (base_delay dm * (3 # 2))%Q (strategy dm)
             (AntiDetection._request_count dm) (_response_times dm)
             (_last_request_time dm))
      else c
  | None => c
  end.

(** One pass through the body of the [while] loop.  The boolean tells
    whether the loop goes on ([continue] or the end of the body) or is
    left ([break], or [KeyboardInterrupt] caught around the loop). *)
Definition loop_body (st : Loop) : Event * bool * Loop :=
  match url_queue (self st) with
  | [] => (SkippedVisited "" 0, false, st)  (* excluded by [loop_cond] *)
  | (current_url, depth) :: rest =>
      (* current_url, depth = self.url_queue.popleft() *)
      let c := with_url_queue (self st) rest in
      (* Skip already visited URLs *)
      if decide (current_url ∈ visited_urls c) then
        (SkippedVisited current_url depth, true,
         mkLoop c (world st) (pages_crawled st) (consecutive_failures st))
      (* Skip if depth limit exceeded *)
      else if max_depth c <? depth then
        (SkippedDepth current_url depth, true,
         mkLoop c (world st) (pages_crawled st) (consecutive_failures st))
      else
        (* Mark URL as visited *)
        let c := with_visited_urls c ({[ current_url ]} ∪ visited_urls c) in
        match crawl_page c current_url (world st) with
        | (None, c, w) =>
            (Cancelled current_url depth, false,
             mkLoop c w (pages_crawled st) (consecutive_failures st))
        | (Some page_data, c, w) =>
            let c := with_crawled_data c (crawled_data c ++ [page_data])%list in
            let pages := pages_crawled st + 1 in
            if has_error page_data then
              let failures := consecutive_failures st + 1 in
              if max_consecutive_failures <=? failures then
                (Crawled current_url depth page_data, false,
                 mkLoop c w pages failures)
              else
                (Crawled current_url depth page_data, true,
                 mkLoop (handle_rate_limit c page_data) w pages failures)
            else
              let c :=
                if (depth <? max_depth c)
                   && match links page_data with [] => false | _ => true end
                then enqueue_links c (links page_data) depth
                else c in
              (Crawled current_url depth page_data, true,
               mkLoop (handle_rate_limit c page_data) w pages 0)
        end
  end.

(** The [while] loop, with the events of its passes.  [None]: the fuel
    ran out before the loop was left. *)
Fixpoint crawl_loop (fuel : nat) (st : Loop) : option (list Event * Loop) :=
  if negb (loop_cond st) then Some ([], st)
  else
    match fuel with
    | O => None
    | S fuel' =>
        let '(ev, continue, st') := loop_body st in
        if continue then
          match crawl_loop fuel' st' with
          | Some (evs, st'') => Some (ev :: evs, st'')
          | None => None
          end
        else Some ([ev], st')
    end.

(** [crawl()]: the returned list, [self] and the world afterwards.  No
    operation of the loop as modelled raises, so the [except Exception]
    branch that wraps failures in [CrawlerError] is never entered. *)
Definition crawl (fuel : nat) (c : WebCrawler) (w : World)
  : option (list PageData * WebCrawler * World) :=
  match crawl_loop fuel (mkLoop c w 0 0) with
  | Some (_, st) =>
      (* finally: self.session_manager.close_all_sessions() *)
      let w := close_all_sessions (world st) in
      Some (crawled_data (self st), self st, w)
  | None => None
  end.

(** *** get_summary *)

Record Summary : Type := mkSummary {
  total_pages_crawled : Z;
  successful_pages : Z;
  failed_pages : Z;
  total_links_found : Z;
  unique_urls_discovered : Z;
  domains_found : Z;
  max_depth_reached : Z
}.

(** [[p for p in self.crawled_data if not p['error']]] *)
Definition successful (data : list PageData) : list PageData :=
  List.filter (fun p => negb (has_error p)) data.

(** [len(xs)] *)
Definition len {A} (xs : list A) : Z := Z.of_nat (length xs).

(** [max((0,) + tuple(len([...]) - 1 for p in ... if not p['error']))] *)
Definition max_depth_expr (data : list PageData) : Z :=
  fold_left Z.max
    (map (fun _ : PageData => len (successful data) - 1) (successful data))
    0.

(** The loop filling [domains_found]. *)
Fixpoint collect_domains (data : list PageData) (found : gset string)
  : Result (gset string) :=
  match data with
  | [] => Ok found
  | page :: data' =>
      if negb (has_error page) then
        try parsed <- Urllib.urlparse (url page);
        collect_domains data' ({[ Urllib.netloc parsed ]} ∪ found)
      else collect_domains data' found
  end.

Definition get_summary (c : WebCrawler) : Result Summary :=
  let total_pages := len (crawled_data c) in
  let successful_pages := len (successful (crawled_data c)) in
  let total_links :=
    fold_left Z.add (map (fun p => len (links p)) (crawled_data c)) 0 in
  try domains <- collect_domains (crawled_data c) ∅;
  Ok (mkSummary total_pages successful_pages
        (total_pages - successful_pages) total_links
        (Z.of_nat (size (visited_urls c)))
        (Z.of_nat (size domains))
        (max_depth_expr (crawled_data c))).

(** [get_failed_urls] and [get_successful_urls] *)
Definition get_failed_urls (c : WebCrawler) : list PageData :=
  List.filter has_error (crawled_data c).

Definition get_successful_urls (c : WebCrawler) : list PageData :=
  successful (crawled_data c).

(** *** Proxy pool and delay management *)

Definition with_proxy_rotator (c : WebCrawler) (r : option ProxyRotator) :=
  mkWebCrawler (seed_url c) (max_depth c) (delay c) (max_pages c)
    (same_domain_only c) (respect_robots_txt c) (user_agent c) (timeout c)
    (verify_ssl c) (anti_detection_config c) (visited_urls c)
    (crawled_data c) (url_queue c) (base_domain c) r
    (delay_manager c) (_request_count c) (_session_id c).

(** [_get_current_proxy] *)
Definition _get_current_proxy (c : WebCrawler)
  : Result (option Proxy * WebCrawler) :=
  match proxy_rotator c with
  | Some r =>
      if enable_proxy_rotation (anti_detection_config c) then
        try found <- get_next r;
        let '(proxy, r) := found in
        Ok (proxy, with_proxy_rotator c (Some r))
      else Ok (None, c)
  | None => Ok (None, c)
  end.

(** [add_proxy(proxy, validate)] *)
Definition add_proxy (c : WebCrawler) (proxy : Proxy) (validate : bool)
    (w : World) : bool * WebCrawler * World :=
  match proxy_rotator c with
  | None => (false, c, w)
  | Some r =>
      let '(success, r, w) := AntiDetection.add_proxy r proxy validate w in
      (success, with_proxy_rotator c (Some r), w)
  end.

(** [update_delay_strategy(strategy, base_delay)] *)
Definition update_delay_strategy (c : WebCrawler) (new_strategy : string)
    (new_base_delay : option Q) : Result WebCrawler :=
  if negb (existsb (String.eqb new_strategy)
             ["fixed"; "random"; "exponential"; "adaptive"]) then
    Raise (ValueError ("Invalid delay strategy: " ++ new_strategy))
  else
    let dm := delay_manager c in
    Ok (with_delay_manager c
          (mkDelayManager (default (base_delay dm) new_base_delay)
             new_strategy (AntiDetection._request_count dm)
             (_response_times dm) (_last_request_time dm))).

(** The dictionary [get_proxy_health] returns: the one-key form without a
    rotator, the five-key form with one. *)
Inductive ProxyHealth : Type :=
  | RotationDisabled
  | PoolHealth (total_proxies healthy_proxies failed_proxies : Z)
      (health_percentage : Q).

Definition get_proxy_health (c : WebCrawler) : ProxyHealth :=
  match proxy_rotator c with
  | None => RotationDisabled
  | Some r =>
      let total_proxies := len (proxies r) in
      let failed_proxies := Z.of_nat (size (_failed_proxies r)) in
      PoolHealth total_proxies (total_proxies - failed_proxies) failed_proxies
        (if 0 <? total_proxies
         then (inject_Z (total_proxies - failed_proxies)
               / inject_Z total_proxies * 100)%Q
         else 0%Q)
  end.

(** *** The robots gate *)

(** A [requests.Response], as far as [_get_robots_txt] reads it. *)
Record Response : Type := mkResponse {
  r_status_code : Z;
  r_text : string
}.

Definition RobotsCache : Type := gmap string (option Utils.RobotsTxtParser).

Section RobotsGate.

(** A [requests.Session] and its [get(url, timeout=5)]; [float] as used
    by the robots parser. *)
Variable Session : Type.
Variable session_get : Session -> string -> World -> Result Response * World.
Variable py_float : string -> option Q.

(** [self.session]: [__init__] sets no attribute of that name (sessions
    are kept by [self.session_manager] and handed out by
    [_get_current_session]) and the class defines none, so the lookup
    raises [AttributeError]. *)
Definition self_session (c : WebCrawler) : Result Session :=
  Raise (AttributeError "'WebCrawler' object has no attribute 'session'").

Definition _get_robots_txt (c : WebCrawler) (robots_cache : RobotsCache)
    (domain : string) (w : World)
  : option Utils.RobotsTxtParser * RobotsCache * World :=
  match robots_cache !! domain with
  | Some cached => (cached, robots_cache, w)
  | None =>
      let '(fetched, w) :=
        match self_session c with
        | Raise e => (Raise e, w)
        | Ok session =>
            let robots_url := "https://" ++ domain ++ "/robots.txt" in
            let '(response, w) := session_get session robots_url w in
            (try response <- response;
             if r_status_code response =? 200 then
               Ok (Some (Utils.RobotsTxtParser_init py_float
                           (r_text response) (user_agent c)))
             else Ok None, w)
        end in
      match fetched with
      | Ok (Some parser) =>
          (Some parser, <[ domain := Some parser ]> robots_cache, w)
      | Ok None | Raise _ =>
          (* Cache empty result to avoid repeated requests *)
          (None, <[ domain := None ]> robots_cache, w)
      end
  end.

Definition _can_crawl_url (c : WebCrawler) (robots_cache : RobotsCache)
    (u : string) (w : World) : Result bool * RobotsCache * World :=
  if negb (respect_robots_txt c) then (Ok true, robots_cache, w)
  else
    match Urllib.urlparse u with
    | Raise e => (Raise e, robots_cache, w)
    | Ok parsed =>
        let '(robots_parser, robots_cache, w) :=
          _get_robots_txt c robots_cache (Urllib.netloc parsed) w in
        match robots_parser with
        | Some parser =>
            (Ok (Utils.can_crawl parser (Urllib.path parsed)), robots_cache, w)
        | None => (Ok true, robots_cache, w)
        end
    end.

End RobotsGate.

End WithTransport.

End Crawler.

(** ** cli.py *)

Module Cli.

(** [validate_args(args)] on the four attributes it reads: the error
    message, or [None]. *)
Definition validate_args (url : string) (max_depth max_pages : Z) (delay : Q)
  : option string :=
  if max_depth <? 0 then Some "Max depth cannot be negative"
  else if max_pages <=? 0 then Some "Max pages must be positive"
  else if Qltb delay 0 then Some "Delay cannot be negative"
  else if negb (PyStr.startswith url "http://"
                || PyStr.startswith url "https://") then
    Some "URL must start with http:// or https://"
  else None.

End Cli.

(** ** anti_detection.py: UserAgentRotator *)

Module UserAgents.

(** *** itertools.cycle over a list that changes

    [UserAgentRotator] makes one cycle over [self.user_agents] when it is
    built and changes the list in place afterwards.  As in CPython, the
    cycle reads the list by position during its first pass, saves each
    element it yields, and repeats the saved elements once the list is
    exhausted; it never looks at the list again.  [position] is the index
    of the list iterator, [None] once it is exhausted; [index] is the
    position in [saved]. *)
Record LiveCycle (A : Type) : Type := mkLiveCycle {
  position : option nat;
  saved : list A;
  index : nat
}.
Arguments mkLiveCycle {A} position saved index.
Arguments position {A} l.
Arguments saved {A} l.
Arguments index {A} l.

(** [itertools.cycle(l)] *)
Definition cycle {A} : LiveCycle A := mkLiveCycle (Some 0%nat) [] 0%nat.

(** The second phase of [next]: [saved[index]], the index wrapping
    around. *)
Definition next_saved {A} (sv : list A) (i : nat) : Result A * LiveCycle A :=
  match sv !! i with
  | Some item =>
      (Ok item,
       mkLiveCycle None sv (if (S i <? length sv)%nat then S i else 0%nat))
  | None => (Raise StopIteration, mkLiveCycle None sv i)
  end.

(** [next(it)] for a cycle over the list that is now [l]. *)
Definition next {A} (l : list A) (it : LiveCycle A) : Result A * LiveCycle A :=
  match position it with
  | Some i =>
      match l !! i with
      | Some item =>
          (Ok item, mkLiveCycle (Some (S i)) (saved it ++ [item])%list (index it))
      | None => next_saved (saved it) (index it)
      end
  | None => next_saved (saved it) (index it)
  end.

(** *** UserAgentRotator *)

Definition _get_default_user_agents : list string :=
  [ (* Chrome on Windows *)
    "Mozilla/5.0 (Windows NT 10.0; Win64; x64) AppleWebKit/537.36 (KHTML, like Gecko) Chrome/118.0.0.0 Safari/537.36";
    "Mozilla/5.0 (Windows NT 10.0; Win64; x64) AppleWebKit/537.36 (KHTML, like Gecko) Chrome/117.0.0.0 Safari/537.36";
    "Mozilla/5.0 (Windows NT 10.0; Win64; x64) AppleWebKit/537.36 (KHTML, like Gecko) Chrome/116.0.0.0 Safari/537.36";
    (* Firefox on Windows *)
    "Mozilla/5.0 (Windows NT 10.0; Win64; x64; rv:109.0) Gecko/20100101 Firefox/118.0";
    "Mozilla/5.0 (Windows NT 10.0; Win64; x64; rv:109.0) Gecko/20100101 Firefox/117.0";
    "Mozilla/5.0 (Windows NT 10.0; Win64; x64; rv:109.0) Gecko/20100101 Firefox/116.0";
    (* Safari on macOS *)
    "Mozilla/5.0 (Macintosh; Intel Mac OS X 10_15_7) AppleWebKit/605.1.15 (KHTML, like Gecko) Version/17.0 Safari/605.1.15";
    "Mozilla/5.0 (Macintosh; Intel Mac OS X 10_15_7) AppleWebKit/605.1.15 (KHTML, like Gecko) Version/16.6 Safari/605.1.15";
    (* Chrome on macOS *)
    "Mozilla/5.0 (Macintosh; Intel Mac OS X 10_15_7) AppleWebKit/537.36 (KHTML, like Gecko) Chrome/118.0.0.0 Safari/537.36";
    "Mozilla/5.0 (Macintosh; Intel Mac OS X 10_15_7) AppleWebKit/537.36 (KHTML, like Gecko) Chrome/117.0.0.0 Safari/537.36";
    (* Chrome on Linux *)
    "Mozilla/5.0 (X11; Linux x86_64) AppleWebKit/537.36 (KHTML, like Gecko) Chrome/118.0.0.0 Safari/537.36";
    "Mozilla/5.0 (X11; Linux x86_64) AppleWebKit/537.36 (KHTML, like Gecko) Chrome/117.0.0.0 Safari/537.36";
    (* Firefox on Linux *)
    "Mozilla/5.0 (X11; Linux x86_64; rv:109.0) Gecko/20100101 Firefox/118.0";
    "Mozilla/5.0 (X11; Linux x86_64; rv:109.0) Gecko/20100101 Firefox/117.0";
    (* Edge on Windows *)
    "Mozilla/5.0 (Windows NT 10.0; Win64; x64) AppleWebKit/537.36 (KHTML, like Gecko) Chrome/118.0.0.0 Safari/537.36 Edg/118.0.2088.46";
    "Mozilla/5.0 (Windows NT 10.0; Win64; x64) AppleWebKit/537.36 (KHTML, like Gecko) Chrome/117.0.0.0 Safari/537.36 Edg/117.0.2045.47";
    (* Mobile user agents *)
    "Mozilla/5.0 (iPhone; CPU iPhone OS 17_0 like Mac OS X) AppleWebKit/605.1.15 (KHTML, like Gecko) Version/17.0 Mobile/15E148 Safari/604.1";
    "Mozilla/5.0 (Android 13; Mobile; rv:109.0) Gecko/118.0 Firefox/118.0";
    "Mozilla/5.0 (Linux; Android 13; SM-G991B) AppleWebKit/537.36 (KHTML, like Gecko) Chrome/118.0.0.0 Mobile Safari/537.36" ].

Record UserAgentRotator : Type := mkUserAgentRotator {
  user_agents : list string;
  random_rotation : bool;
  _iterator : LiveCycle string
}.

(** [UserAgentRotator(user_agents, random_rotation)]:
    [user_agents or self._get_default_user_agents()] *)
Definition UserAgentRotator_init (uas : option (list string))
    (random : bool) : UserAgentRotator :=
  let uas :=
    match uas with
    | Some (ua :: rest) => ua :: rest
    | _ => _get_default_user_agents
    end in
  mkUserAgentRotator uas random cycle.

Section Choice.

Context `{Runtime}.

(** [random.choice(seq)]: an element, or the exception raised for an
    empty sequence. *)
Variable random_choice : list string -> World -> Result string * World.

Definition get_next (r : UserAgentRotator) (w : World)
  : Result string * UserAgentRotator * World :=
  if random_rotation r then
    let '(ua, w) := random_choice (user_agents r) w in (ua, r, w)
  else
    let '(ua, it) := next (user_agents r) (_iterator r) in
    (ua, mkUserAgentRotator (user_agents r) (random_rotation r) it, w).

End Choice.

Definition add_user_agent (r : UserAgentRotator) (user_agent : string)
  : UserAgentRotator :=
  if existsb (String.eqb user_agent) (user_agents r) then r
  else mkUserAgentRotator (user_agents r ++ [user_agent])%list
         (random_rotation r) (_iterator r).

(** [l.remove(x)]: without the first [x], or [None] for [ValueError]. *)
Fixpoint list_remove (x : string) (l : list string) : option (list string) :=
  match l with
  | [] => None
  | y :: l' =>
      if String.eqb y x then Some l'
      else option_map (cons y) (list_remove x l')
  end.

Definition remove_user_agent (r : UserAgentRotator) (user_agent : string)
  : bool * UserAgentRotator :=
  match list_remove user_agent (user_agents r) with
  | Some l => (true, mkUserAgentRotator l (random_rotation r) (_iterator r))
  | None => (false, r)
  end.

End UserAgents.

(** ** posixpath

    [os.path.join], [os.path.normpath] and [os.path.abspath] on POSIX, as
    [save_results] uses them (CPython's [Lib/posixpath.py]). *)

Module Posixpath.

(** [join(a, p)] *)
Definition join (a p : string) : string :=
  if PyStr.startswith p "/" then p
  else if negb (PyStr.truthy a) || PyStr.endswith a "/" then a ++ p
  else a ++ "/" ++ p.

(** One pass of the [for comp in comps] loop of [normpath]. *)
Definition norm_step (initial_slashes : nat) (new_comps : list string)
    (comp : string) : list string :=
  if String.eqb comp "" || String.eqb comp "." then new_comps
  else if negb (String.eqb comp "..")
          || ((initial_slashes =? 0)%nat
              && match new_comps with [] => true | _ => false end)
          || match new_comps with
             | [] => false
             | _ => String.eqb (List.last new_comps "") ".."
             end
  then (new_comps ++ [comp])%list
  else removelast new_comps.

Definition normpath (path : string) : string :=
  if String.eqb path "" then "."
  else
    let initial_slashes :=
      if PyStr.startswith path "/" then
        if PyStr.startswith path "//" && negb (PyStr.startswith path "///")
        then 2%nat else 1%nat
      else 0%nat in
    let comps := PyStr.split path "/" in
    let new_comps := fold_left (norm_step initial_slashes) comps [] in
    let path := PyStr.join "/" new_comps in
    let path :=
      match initial_slashes with
      | O => path
      | 1%nat => "/" ++ path
      | _ => "//" ++ path
      end in
    if PyStr.truthy path then path else ".".

(** [abspath(path)] with [cwd] the value of [os.getcwd()] *)
Definition abspath (cwd path : string) : string :=
  if PyStr.startswith path "/" then normpath path
  else normpath (join cwd path).

End Posixpath.

(** ** crawler.py: statistics and saving *)

Module Reports.

Import AntiDetection.

Record UserAgentStats : Type := mkUserAgentStats {
  total_available : Z;
  rotation_strategy : string
}.

Record ProxyStats : Type := mkProxyStats {
  total_proxies : Z;
  failed_proxies : Z;
  success_rate : Q
}.

Record ResponseTimeStats : Type := mkResponseTimeStats {
  average : Q;
  min : Q;
  max : Q;
  total_samples : Z
}.

(** The dictionary [get_anti_detection_stats] returns; the three optional
    keys are [None] when absent.  [to_dict()] copies the eleven attributes
    of the configuration. *)
Record Stats : Type := mkStats {
  total_requests : Z;
  session_rotations : Z;
  anti_detection_config : AntiDetectionConfig;
  user_agents : option UserAgentStats;
  proxy_stats : option ProxyStats;
  response_times : option ResponseTimeStats
}.

(** [min(xs)] and [max(xs)]: the first of the smallest, of the largest. *)
Definition py_min (x : Q) (xs : list Q) : Q :=
  fold_left (fun m y => if Qltb y m then y else m) xs x.

Definition py_max (x : Q) (xs : list Q) : Q :=
  fold_left (fun m y => if Qltb m y then y else m) xs x.

Section WithTransport.

Context `{Crawler.Transport}.

(** [[p.get('response_time') for p in self.crawled_data
      if p.get('response_time')]] *)
Definition sampled_response_times (data : list Crawler.PageData) : list Q :=
  omap (fun p => Crawler.truthy_time (Crawler.response_time p)) data.

(** [sum(xs) / len(xs)] of the sampled response times: the interpreter
    rounds the sum and the quotient ([Binary64.mean]); over rationals the
    value is taken as given. *)
Variable float_mean : list Q -> Q.

(** [get_anti_detection_stats()]; [rotator] is [self.user_agent_rotator]. *)
Definition get_anti_detection_stats (c : Crawler.WebCrawler)
    (rotator : option UserAgents.UserAgentRotator) : Stats :=
  mkStats (Crawler._request_count c) (Crawler._session_id c)
    (Crawler.anti_detection_config c)
    (option_map
       (fun r =>
          mkUserAgentStats (Crawler.len (UserAgents.user_agents r))
            (if UserAgents.random_rotation r then "random" else "sequential"))
       rotator)
    (option_map
       (fun r =>
          let total := Crawler.len (proxies r) in
          let failed := Z.of_nat (size (_failed_proxies r)) in
          mkProxyStats total failed
            (match proxies r with
             | [] => 0%Q
             | _ => (inject_Z (total - failed) / inject_Z total)%Q
             end))
       (Crawler.proxy_rotator c))
    (match sampled_response_times (Crawler.crawled_data c) with
     | [] => None
     | t :: ts =>
         Some (mkResponseTimeStats (float_mean (t :: ts)) (py_min t ts)
                 (py_max t ts)
                 (Crawler.len (t :: ts)))
     end).

(** [os.getcwd()], and [with open(path, 'w', encoding='utf-8') as f:
    json.dump(self.crawled_data, f, indent=indent, ensure_ascii=False)]. *)
Variable getcwd : World -> string.
Variable write_json :
  string -> list Crawler.PageData -> Z -> World -> Result unit * World.

Definition save_results (c : Crawler.WebCrawler) (filename : string)
    (indent : Z) (w : World) : Result unit * World :=
  let '(outcome, w) :=
    let base_dir := getcwd w in
    let full_path :=
      Posixpath.abspath (getcwd w)
        (Posixpath.normpath (Posixpath.join base_dir filename)) in
    if negb (PyStr.startswith full_path base_dir) then
      (Raise (CrawlerError
                ("Invalid output filename: " ++ filename
                 ++ " (path traversal is not allowed)")), w)
    else write_json full_path (Crawler.crawled_data c) indent w in
  match outcome with
  | Ok _ => (Ok tt, w)
  | Raise e => (Raise (CrawlerError ("Failed to save results: " ++ str_exc e)), w)
  end.

End WithTransport.

End Reports.

(** ** Sessions (anti_detection.py: SessionManager, generate_random_headers;
    crawler.py: _get_current_session) *)

Module Sessions.

Import AntiDetection.

(** [session.headers] is requests' [CaseInsensitiveDict]: a key is looked
    up by its lower-case form. *)
Definition Headers : Type := gmap string string.

Definition header_set (h : Headers) (key value : string) : Headers :=
  <[ PyStr.lower key := value ]> h.

Definition header_get (h : Headers) (key : string) : option string :=
  h !! PyStr.lower key.

(** [headers.update(d)] *)
Definition header_update (h : Headers) (d : list (string * string)) : Headers :=
  fold_left (fun h kv => header_set h (fst kv) (snd kv)) d h.

(** [Retry(total, backoff_factor, status_forcelist,
    allowed_methods=["HEAD", "GET", "OPTIONS"])] mounted for both schemes. *)
Record Retry : Type := mkRetry {
  total : Z;
  backoff_factor : Q;
  status_forcelist : list Z
}.

(** A [requests.Session], as far as the package configures it. *)
Record Session : Type := mkSession {
  headers : Headers;
  verify : bool;
  timeout : option Q;
  retry_strategy : option Retry
}.

(** [self._sessions] is a [dict]: entries in insertion order. *)
Record SessionManager : Type := mkSessionManager {
  max_retries : Z;
  sm_backoff_factor : Q;
  sm_status_forcelist : list Z;
  _sessions : list (string * Session)
}.

(** [SessionManager(max_retries, backoff_factor, status_forcelist)]:
    [status_forcelist or [429, 500, 502, 503, 504]] *)
Definition SessionManager_init (retries : Z) (backoff : Q)
    (forcelist : option (list Z)) : SessionManager :=
  mkSessionManager retries backoff
    (match forcelist with
     | Some (code :: codes) => code :: codes
     | _ => [429; 500; 502; 503; 504]
     end) [].

(** [d.get(key)], [d[key] = value] and [del d[key]] on such a dict. *)
Fixpoint dict_get {V} (d : list (string * V)) (key : string) : option V :=
  match d with
  | [] => None
  | (k, v) :: d' => if String.eqb k key then Some v else dict_get d' key
  end.

Fixpoint dict_set {V} (d : list (string * V)) (key : string) (value : V)
  : list (string * V) :=
  match d with
  | [] => [(key, value)]
  | (k, v) :: d' =>
      if String.eqb k key then (k, value) :: d'
      else (k, v) :: dict_set d' key value
  end.

Fixpoint dict_del {V} (d : list (string * V)) (key : string)
  : list (string * V) :=
  match d with
  | [] => []
  | (k, v) :: d' =>
      if String.eqb k key then d' else (k, v) :: dict_del d' key
  end.

(** Computations that draw random numbers and act on the world, and may
    raise. *)
Definition Action `{Runtime} (A : Type) : Type := World -> Result A * World.

Definition ret `{Runtime} {A} (a : A) : Action A := fun w => (Ok a, w).

Definition and_then `{Runtime} {A B} (m : Action A) (k : A -> Action B)
  : Action B :=
  fun w =>
    match m w with
    | (Ok a, w) => k a w
    | (Raise e, w) => (Raise e, w)
    end.

Notation "'run' x <- m ; k" := (and_then m (fun x => k))
  (at level 10, x name, m at level 100, k at level 200).

Section WithRequests.

Context `{Crawler.Transport}.

(** [requests.Session()], [session.close()], [random.choice(seq)] and
    [random.random()]. *)
Variable requests_Session : Session.
Variable session_close : Session -> World -> World.
Variable random_choice : list string -> World -> Result string * World.
Variable random_random : World -> Q * World.

(** [get_session(session_id)]: the session kept under that id, made and
    stored first when there is none. *)
Definition get_session (sm : SessionManager) (session_id : string)
  : Session * SessionManager :=
  match dict_get (_sessions sm) session_id with
  | Some session => (session, sm)
  | None =>
      let session :=
        mkSession
          (header_update (headers requests_Session)
             [("Accept",
               "text/html,application/xhtml+xml,application/xml;q=0.9,image/webp,*/*;q=0.8");
              ("Accept-Language", "en-US,en;q=0.5");
              ("Accept-Encoding", "gzip, deflate");
              ("Connection", "keep-alive");
              ("Upgrade-Insecure-Requests", "1")])
          (verify requests_Session) (timeout requests_Session)
          (Some (mkRetry (max_retries sm) (sm_backoff_factor sm)
                   (sm_status_forcelist sm))) in
      (session,
       mkSessionManager (max_retries sm) (sm_backoff_factor sm)
         (sm_status_forcelist sm)
         (dict_set (_sessions sm) session_id session))
  end.

Definition close_session (sm : SessionManager) (session_id : string)
    (w : World) : SessionManager * World :=
  match dict_get (_sessions sm) session_id with
  | Some session =>
      (mkSessionManager (max_retries sm) (sm_backoff_factor sm)
         (sm_status_forcelist sm) (dict_del (_sessions sm) session_id),
       session_close session w)
  | None => (sm, w)
  end.

Definition close_all_sessions (sm : SessionManager) (w : World)
  : SessionManager * World :=
  (mkSessionManager (max_retries sm) (sm_backoff_factor sm)
     (sm_status_forcelist sm) [],
   fold_left (fun w entry => session_close (snd entry) w) (_sessions sm) w).

(** [generate_random_headers()]: the dictionary as the list of its
    entries, in insertion order. *)
Definition generate_random_headers : Action (list (string * string)) :=
  run accept <- random_choice
    ["text/html,application/xhtml+xml,application/xml;q=0.9,image/webp,*/*;q=0.8";
     "text/html,application/xhtml+xml,application/xml;q=0.9,*/*;q=0.8";
     "text/html,application/xhtml+xml,application/xml;q=0.9,image/avif,image/webp,*/*;q=0.8"];
  run accept_language <- random_choice
    ["en-US,en;q=0.9"; "en-US,en;q=0.8"; "en-GB,en;q=0.9"; "en-US,en;q=0.5"];
  run dnt <- random_choice ["1"; "0"];
  let headers :=
    [("Accept", accept); ("Accept-Language", accept_language);
     ("Accept-Encoding", "gzip, deflate, br"); ("DNT", dnt);
     ("Connection", "keep-alive"); ("Upgrade-Insecure-Requests", "1")] in
  (* Randomly add some optional headers *)
  run headers <-
    (fun w =>
       let '(x, w) := random_random w in
       if Qltb x (3 # 10)
       then (Ok (headers ++ [("Cache-Control", "max-age=0")])%list, w)
       else (Ok headers, w));
  fun w =>
    let '(x, w) := random_random w in
    if Qltb x (2 # 10) then
      (run dest <- random_choice ["document"; "empty"];
       run mode <- random_choice ["navigate"; "cors"];
       run site <- random_choice ["none"; "same-origin"];
       ret (headers ++ [("Sec-Fetch-Dest", dest); ("Sec-Fetch-Mode", mode);
                        ("Sec-Fetch-Site", site)])%list) w
    else (Ok headers, w).

(** [f"session_{self._session_id}"] *)
Definition session_name (session_id : Z) : string :=
  "session_" ++ Crawler.str_int session_id.

Definition with_session_id (c : Crawler.WebCrawler) (n : Z) :=
  Crawler.mkWebCrawler (Crawler.seed_url c) (Crawler.max_depth c)
    (Crawler.delay c) (Crawler.max_pages c) (Crawler.same_domain_only c)
    (Crawler.respect_robots_txt c) (Crawler.user_agent c) (Crawler.timeout c)
    (Crawler.verify_ssl c) (Crawler.anti_detection_config c)
    (Crawler.visited_urls c) (Crawler.crawled_data c) (Crawler.url_queue c)
    (Crawler.base_domain c) (Crawler.proxy_rotator c)
    (Crawler.delay_manager c) (Crawler._request_count c) n.

(** The state [_get_current_session] works on: [self], its session
    manager and its user agent rotator. *)
Record Client : Type := mkClient {
  crawler : Crawler.WebCrawler;
  session_manager : SessionManager;
  user_agent_rotator : option UserAgents.UserAgentRotator
}.

(** [session.verify = ...; session.timeout = ...; session.headers[...] = ...]
    act on the object kept by the manager. *)
Definition store (cl : Client) (session_id : string) (session : Session)
  : Client :=
  let sm := session_manager cl in
  mkClient (crawler cl)
    (mkSessionManager (max_retries sm) (sm_backoff_factor sm)
       (sm_status_forcelist sm) (dict_set (_sessions sm) session_id session))
    (user_agent_rotator cl).

(** [_get_current_session()]: the id under which the manager keeps the
    returned session, and the state afterwards. *)
Definition _get_current_session (cl : Client) (w : World)
  : Result string * Client * World :=
  let c := crawler cl in
  let config := Crawler.anti_detection_config c in
  (* Rotate session if interval reached *)
  let '(cl, w) :=
    if (0 <? Crawler._request_count c)
       && (Crawler._request_count c mod session_rotation_interval config =? 0)
    then
      let '(sm, w) :=
        close_session (session_manager cl)
          (session_name (Crawler._session_id c)) w in
      (mkClient (with_session_id c (Crawler._session_id c + 1)) sm
         (user_agent_rotator cl), w)
    else (cl, w) in
  let name := session_name (Crawler._session_id (crawler cl)) in
  let '(session, sm) := get_session (session_manager cl) name in
  let cl := mkClient (crawler cl) sm (user_agent_rotator cl) in
  (* Update session configuration *)
  let session :=
    mkSession (headers session) (AntiDetection.verify_ssl config)
      (Some (cfg_timeout config)) (retry_strategy session) in
  let cl := store cl name session in
  (* Set user agent *)
  let '(current_ua, cl, w) :=
    match user_agent_rotator cl with
    | Some rotator =>
        let '(ua, rotator, w) :=
          UserAgents.get_next random_choice rotator w in
        (ua, mkClient (crawler cl) (session_manager cl) (Some rotator), w)
    | None => (Ok (Crawler.user_agent c), cl, w)
    end in
  match current_ua with
  | Raise e => (Raise e, cl, w)
  | Ok current_ua =>
      let session :=
        mkSession (header_set (headers session) "User-Agent" current_ua)
          (verify session) (timeout session) (retry_strategy session) in
      let cl := store cl name session in
      (* Add randomized headers if enabled *)
      if enable_header_randomization config then
        match generate_random_headers w with
        | (Raise e, w) => (Raise e, cl, w)
        | (Ok random_headers, w) =>
            let session :=
              mkSession (header_update (headers session) random_headers)
                (verify session) (timeout session) (retry_strategy session) in
            (Ok name, store cl name session, w)
        end
      else (Ok name, cl, w)
  end.

End WithRequests.

End Sessions.

(** ** crawler.py: the [try] block of [crawl_page] *)

Module Fetching.

Import AntiDetection.

(** What [session.get] may raise, by the [except] clause that takes it:
    the three classes the retry loop catches ([ProxyError] and
    [ConnectTimeout] are [ConnectionError]s, [ConnectTimeout] is also a
    [Timeout]), any other [Timeout], any other [RequestException], any
    other [Exception], and [KeyboardInterrupt]. *)
Inductive RequestError : Type :=
  | ProxyError (msg : string)
  | ConnectTimeout (msg : string)
  | ConnectionError (msg : string)
  | Timeout (msg : string)
  | RequestException (msg : string)
  | OtherException (msg : string)
  | KeyboardInterrupt.

(** [except (ProxyError, ConnectTimeout, ConnectionError)] *)
Definition caught_for_retry (e : RequestError) : bool :=
  match e with
  | ProxyError _ | ConnectTimeout _ | ConnectionError _ => true
  | _ => false
  end.

(** A response, as far as [crawl_page] reads it: [status_code],
    [headers.get('content-type')], [len(content)] and [text]. *)
Record HttpResponse : Type := mkHttpResponse {
  status_code : Z;
  content_type : option string;
  content_length : Z;
  text : string
}.

(** How the [for proxy_retry in range(max_proxy_retries)] loop ends. *)
Inductive LoopOutcome : Type :=
  | Answered (response : HttpResponse) (response_time : Q)
  | NoAnswer
  | NoProxyLeft
  | Raised (e : RequestError)
  | RotatorRaised (e : Exception).

Section WithNetwork.

Context `{Runtime}.

(** The libraries and the network: [requests], [random], BeautifulSoup,
    [float], truthiness of a proxy dictionary. *)
Variable requests_Session : Sessions.Session.
Variable session_close : Sessions.Session -> World -> World.
Variable random_choice : list string -> World -> Result string * World.
Variable random_random : World -> Q * World.
Variable robots_get :
  Sessions.Session -> string -> World -> Result Crawler.Response * World.
Variable py_float : string -> option Q.
Variable proxy_truthy : Proxy -> bool.
Variable http_get :
  Sessions.Session -> string -> option Proxy -> Q -> bool -> World ->
  (HttpResponse + RequestError) * World.
Variable find_hrefs : string -> Result (list string).
Variable extract_title : string -> string.
Variable extract_meta_description : string -> string.

(** The locals the loop changes, [self.proxy_rotator], and the proxies of
    the requests sent so far. *)
Record LoopState : Type := mkLoopState {
  current_proxy : option Proxy;
  rotator : option ProxyRotator;
  retry_count : Z;
  requests : list (option Proxy)
}.

(** [bool(current_proxy)] *)
Definition truthy_proxy (proxy : option Proxy) : bool :=
  match proxy with
  | Some p => proxy_truthy p
  | None => false
  end.

Fixpoint request_loop (tries : nat) (session : Sessions.Session)
    (u : string) (config : AntiDetectionConfig) (st : LoopState) (w : World)
  : LoopOutcome * LoopState * World :=
  match tries with
  | O => (NoAnswer, st, w)
  | S tries' =>
      let '(request_start, w) := time_time w in
      let '(outcome, w) :=
        http_get session u (current_proxy st) (cfg_timeout config)
          (verify_ssl config) w in
      let st :=
        mkLoopState (current_proxy st) (rotator st) (retry_count st)
          (requests st ++ [current_proxy st])%list in
      match outcome with
      | inl response =>
          let '(now, w) := time_time w in
          (Answered response (now - request_start)%Q, st, w)
      | inr e =>
          if caught_for_retry e then
            match current_proxy st, rotator st with
            | Some proxy, Some r =>
                if proxy_truthy proxy then
                  let r := mark_failed r proxy in
                  match get_next r with
                  | Raise ex =>
                      (RotatorRaised ex,
                       mkLoopState (current_proxy st) (Some r)
                         (retry_count st) (requests st), w)
                  | Ok (next_proxy, r) =>
                      let st :=
                        mkLoopState next_proxy (Some r) (retry_count st + 1)
                          (requests st) in
                      match next_proxy with
                      | None => (NoProxyLeft, st, w)
                      | Some _ => request_loop tries' session u config st w
                      end
                  end
                else (Raised e, st, w)
            | _, _ => (Raised e, st, w)
            end
          else (Raised e, st, w)
      end
  end.

(** The objects [crawl_page] works on besides the network: [self] with
    its session manager and user agent rotator, and the robots cache. *)
Record Fetcher : Type := mkFetcher {
  client : Sessions.Client;
  robots_cache : Crawler.RobotsCache
}.

(** [page_data] as initialised, with an error. *)
Definition blank (failure : Crawler.Failure) : Crawler.Fetched :=
  Crawler.mkFetched "" "" [] None (Some failure) None None None "" None 0.

(** [self.url_validator]: [URLValidator({self.base_domain} if
    same_domain_only else None)] *)
Definition url_validator (c : Crawler.WebCrawler) : Utils.URLValidator :=
  Utils.URLValidator_init
    (if Crawler.same_domain_only c then Some {[ Crawler.base_domain c ]}
     else None).

(** The [except] clause that takes an exception which left the loop. *)
Definition failure_of (e : RequestError) : option Crawler.Failure :=
  match e with
  | ConnectTimeout _ | Timeout _ => Some Crawler.RequestTimeout
  | ProxyError msg | ConnectionError msg => Some (Crawler.ConnectionFailure msg)
  | RequestException msg => Some (Crawler.RequestFailure msg)
  | OtherException msg => Some (Crawler.UnexpectedFailure msg)
  | KeyboardInterrupt => None
  end.

(** What the block leaves in [page_data] once the loop is over: the
    processing of the response, or the [except] clause that applies. *)
Definition outcome_record (c : Crawler.WebCrawler) (u : string)
    (user_agent_used : string) (proxy_used : option string)
    (retries : Z) (outcome : LoopOutcome) : Crawler.Attempt :=
  let failed (failure : Crawler.Failure) :=
    Crawler.Completed
      (Crawler.mkFetched "" "" [] None (Some failure) None None None
         user_agent_used proxy_used retries) in
  match outcome with
  | NoProxyLeft => failed Crawler.AllProxiesFailed
  | NoAnswer => failed Crawler.NoResponse
  | RotatorRaised e => failed (Crawler.UnexpectedFailure (str_exc e))
  | Raised e =>
      match failure_of e with
      | Some failure => failed failure
      | None => Crawler.Interrupted None
      end
  | Answered response response_time =>
      (* Process successful response *)
      let header := default "" (content_type response) in
      let page (title meta : string) (links : list string)
          (failure : option Crawler.Failure) :=
        Crawler.Completed
          (Crawler.mkFetched title meta links (Some (status_code response))
             failure (Some header) (Some (content_length response))
             (Some response_time) user_agent_used proxy_used retries) in
      if status_code response =? 200 then
        if PyStr.contains_str (PyStr.lower header) "text/html" then
          page (extract_title (text response))
            (extract_meta_description (text response))
            (Utils.extract_links find_hrefs (url_validator c)
               (text response) u)
            None
        else page "" "" [] (Some (Crawler.NonHtmlContent (PyStr.lower header)))
      else page "" "" [] (Some (Crawler.HttpStatus (status_code response)))
  end.

(** The [try] block of [crawl_page(url)]: what it leaves in [page_data],
    the objects afterwards, the proxies of the requests it sent, and the
    world. *)
Definition attempt (f : Fetcher) (u : string) (w : World)
  : Crawler.Attempt * Fetcher * list (option Proxy) * World :=
  let cl := client f in
  let c := Sessions.crawler cl in
  let config := Crawler.anti_detection_config c in
  (* Check robots.txt compliance *)
  let '(allowed, cache, w) :=
    Crawler._can_crawl_url Sessions.Session robots_get py_float c
      (robots_cache f) u w in
  match allowed with
  | Raise e =>
      (Crawler.Completed (blank (Crawler.UnexpectedFailure (str_exc e))),
       mkFetcher cl cache, [], w)
  | Ok false =>
      (Crawler.Completed (blank Crawler.BlockedByRobots),
       mkFetcher cl cache, [], w)
  | Ok true =>
  (* Get configured session and proxy *)
  let '(name, cl, w) :=
    Sessions._get_current_session requests_Session session_close
      random_choice random_random cl w in
  match name with
  | Raise e =>
      (Crawler.Completed (blank (Crawler.UnexpectedFailure (str_exc e))),
       mkFetcher cl cache, [], w)
  | Ok name =>
  let session :=
    default requests_Session
      (Sessions.dict_get (Sessions._sessions (Sessions.session_manager cl))
         name) in
  match Crawler._get_current_proxy (Sessions.crawler cl) with
  | Raise e =>
      (Crawler.Completed (blank (Crawler.UnexpectedFailure (str_exc e))),
       mkFetcher cl cache, [], w)
  | Ok (proxy, c) =>
  let user_agent_used :=
    default "" (Sessions.header_get (Sessions.headers session) "User-Agent") in
  let proxy_used :=
    if truthy_proxy proxy then option_map proxy_str proxy else None in
  (* Make request with retry logic *)
  let max_proxy_retries := if truthy_proxy proxy then 3%nat else 1%nat in
  let '(outcome, st, w) :=
    request_loop max_proxy_retries session u config
      (mkLoopState proxy (Crawler.proxy_rotator c) 0 []) w in
  (outcome_record c u user_agent_used proxy_used (retry_count st) outcome,
   mkFetcher
     (Sessions.mkClient (Crawler.with_proxy_rotator c (rotator st))
        (Sessions.session_manager cl) (Sessions.user_agent_rotator cl))
     cache,
   requests st, w)
  end end end.

End WithNetwork.

End Fetching.

(** ** anti_detection.py: the delay manager in binary64

    Python's [float] is IEEE 754 binary64, the kernel's [float].  Where
    the code compares a computed mean with a threshold, rounding decides
    the branch, so the delay manager is given here with the arithmetic
    of the code. *)

Module Binary64.

Import PrimFloat.
#[local] Open Scope float_scope.

Record DelayManager : Type := mkDelayManager {
  base_delay : float;
  strategy : string;
  _request_count : Z;
  _response_times : list float;
  _last_request_time : float
}.

(** [DelayManager(base_delay, strategy)] *)
Definition DelayManager_init (base : float) (strat : string) : DelayManager :=
  mkDelayManager base strat 0 [] 0.

(** [sum(xs)] of floats: from the integer 0, adding from left to right. *)
Definition sum (xs : list float) : float := fold_left PrimFloat.add xs 0.

(** [float(n)] of the integer a [len] returns. *)
Definition of_len (n : nat) : float :=
  PrimFloat.of_uint63 (Uint63.of_Z (Z.of_nat n)).

(** [sum(xs) / len(xs)] *)
Definition mean (xs : list float) : float := sum xs / of_len (length xs).

Definition _calculate_adaptive_delay (dm : DelayManager)
    (response_time : option float) : float * DelayManager :=
  let times :=
    match response_time with
    | Some rt =>
        let times := (_response_times dm ++ [rt])%list in
        (* Keep only last 10 response times *)
        if (10 <? length times)%nat then tail times else times
    | None => _response_times dm
    end in
  let dm :=
    mkDelayManager (base_delay dm) (strategy dm) (_request_count dm)
      times (_last_request_time dm) in
  match times with
  | [] => (base_delay dm, dm)
  | _ =>
      let avg_response_time := mean times in
      (* Adjust delay based on average response time *)
      if 3 <? avg_response_time then (base_delay dm * 2, dm)
      else if 1 <? avg_response_time then (base_delay dm * 1.5, dm)
      else (base_delay dm, dm)
  end.

Section WithClock.

(** [time.time], [time.sleep], [random.uniform], and [x ** n] for an
    integer [n]. *)
Variable World : Type.
Variable time_time : World -> float * World.
Variable time_sleep : float -> World -> World.
Variable random_uniform : float -> float -> World -> float * World.
Variable float_pow : float -> Z -> float.

(** The [if]/[elif] chain of [wait] that picks the target delay. *)
Definition target_delay (dm : DelayManager) (response_time : option float)
    (w : World) : float * DelayManager * World :=
  if String.eqb (strategy dm) "fixed" then (base_delay dm, dm, w)
  else if String.eqb (strategy dm) "random" then
    let '(d, w) :=
      random_uniform (base_delay dm * 0.5) (base_delay dm * 1.5) w in
    (d, dm, w)
  else if String.eqb (strategy dm) "exponential" then
    (base_delay dm * float_pow 1.5 (Z.min (_request_count dm / 10) 5), dm, w)
  else if String.eqb (strategy dm) "adaptive" then
    let '(d, dm) := _calculate_adaptive_delay dm response_time in
    (d, dm, w)
  else (base_delay dm, dm, w).

Definition wait (dm : DelayManager) (response_time : option float) (w : World)
  : DelayManager * World :=
  let '(current_time, w) := time_time w in
  let '(delay, dm, w) := target_delay dm response_time w in
  (* Ensure minimum time has passed since last request *)
  let time_since_last := current_time - _last_request_time dm in
  (* max(0, x) is x when x > 0 and 0 otherwise *)
  let actual_delay :=
    if 0 <? delay - time_since_last then delay - time_since_last else 0 in
  let w := if 0 <? actual_delay then time_sleep actual_delay w else w in
  let '(now, w) := time_time w in
  (mkDelayManager (base_delay dm) (strategy dm) (_request_count dm + 1)%Z
     (_response_times dm) now, w).

End WithClock.

End Binary64.

(** ** Specification vocabulary *)

(** [path] starts with [p]. *)
Definition starts_with (path p : string) : Prop := exists rest, path = p ++ rest.

(** The [error] field of a page record is unset ([None]). *)
Definition error_unset (p : Crawler.PageData) : bool :=
match Crawler.error p with
| None => true
| Some _ => false
end.

(** No page record carries the empty string as its error; every record
    written by [crawl_page] is of this kind. *)
Definition errors_nonempty (data : list Crawler.PageData) : Prop :=
Forall (fun p => Crawler.error p <> Some "") data.

(** The [n] newest samples of a window (the newest is last). *)
Definition newest {A : Type} (n : nat) (samples : list A) : list A :=
skipn (length samples - n) samples.

(** The window after a call given [response_time]: the sample, when there
    is one, joins the window and the ten newest samples stay. *)
Definition window_after (window : list PrimFloat.float)
    (response_time : option PrimFloat.float) : list PrimFloat.float :=
match response_time with
| Some rt => newest 10 (window ++ [rt])%list
| None => window
end.

(** [x > threshold] as Python compares floats. *)
Definition exceeds (x threshold : PrimFloat.float) : Prop :=
PrimFloat.ltb threshold x = true.

(** Successive [wait] calls, each given one response-time sample. *)
Fixpoint fed {World : Type}
    (time_time : World -> PrimFloat.float * World)
    (time_sleep : PrimFloat.float -> World -> World)
    (random_uniform :
       PrimFloat.float -> PrimFloat.float -> World -> PrimFloat.float * World)
    (float_pow : PrimFloat.float -> Z -> PrimFloat.float)
    (dm : Binary64.DelayManager) (samples : list PrimFloat.float) (w : World)
  : Binary64.DelayManager * World :=
match samples with
| [] => (dm, w)
| rt :: rest =>
    let '(dm, w) :=
      Binary64.wait World time_time time_sleep random_uniform float_pow
        dm (Some rt) w in
    fed time_time time_sleep random_uniform float_pow dm rest w
end.

(** The page records and the frontier entries of the passes that fetched. *)
Fixpoint crawled_pages (evs : list Crawler.Event) : list Crawler.PageData :=
match evs with
| [] => []
| Crawler.Crawled _ _ page :: evs' => page :: crawled_pages evs'
| _ :: evs' => crawled_pages evs'
end.

Fixpoint crawled_entries (evs : list Crawler.Event) : list (string * Z) :=
match evs with
| [] => []
| Crawler.Crawled u d _ :: evs' => (u, d) :: crawled_entries evs'
| _ :: evs' => crawled_entries evs'
end.

(** The frontier entries a successful fetch of [u] at depth [d] adds:
    its links not yet visited, one level down, unless [d] is the last
    level. *)
Definition discovered `{ProxyDict} (c : Crawler.WebCrawler) (u : string)
    (d : Z) (page : Crawler.PageData) : list (string * Z) :=
if d <? Crawler.max_depth c then
  map (fun link => (link, d + 1))
    (List.filter
       (fun link => bool_decide (link ∉ {[ u ]} ∪ Crawler.visited_urls c))
       (Crawler.links page))
else [].

(** The consecutive-failure counter after the given pages, from [k]. *)
Fixpoint streak (k : Z) (pages : list Crawler.PageData) : Z :=
match pages with
| [] => k
| p :: pages' => streak (if Crawler.has_error p then k + 1 else 0) pages'
end.

(** What a run of the loop from [st] to [st'] with events [evs] did. *)
Definition run_facts `{Crawler.Transport} (st : Crawler.Loop)
    (evs : list Crawler.Event) (st' : Crawler.Loop) : Prop :=
let c := Crawler.self st in
let c' := Crawler.self st' in
Crawler.crawled_data c' = (Crawler.crawled_data c ++ crawled_pages evs)%list
/\ map Crawler.url (crawled_pages evs) = map fst (crawled_entries evs)
/\ NoDup (map fst (crawled_entries evs))
/\ (forall u, u ∈ map fst (crawled_entries evs) ->
      (u ∉ Crawler.visited_urls c) /\ u ∈ Crawler.visited_urls c')
/\ Crawler.visited_urls c ⊆ Crawler.visited_urls c'
/\ Crawler.max_depth c' = Crawler.max_depth c
/\ Crawler.max_pages c' = Crawler.max_pages c
/\ Forall (fun e => snd e <= Crawler.max_depth c) (crawled_entries evs)
/\ Crawler.pages_crawled st'
   = Crawler.pages_crawled st + Crawler.len (crawled_pages evs)
/\ Crawler.consecutive_failures st'
   = streak (Crawler.consecutive_failures st) (crawled_pages evs)
/\ (forall pre p post,
      crawled_pages evs = (pre ++ p :: post)%list -> post <> [] ->
      streak (Crawler.consecutive_failures st) (pre ++ [p]) < 10)
/\ errors_nonempty (crawled_pages evs).

(** The rotator's iterator cycles over its pool: with a non-empty pool
    there is an iterator, and it holds the members of the pool.  The
    constructor, [_validate_proxies] and [add_proxy] set both together. *)
Definition rotator_in_sync `{ProxyDict} (r : AntiDetection.ProxyRotator) : Prop :=
match AntiDetection.proxies r with
| [] => True
| _ :: _ =>
    exists it, AntiDetection._iterator r = Some it
               /\ it ≡ₚ AntiDetection.proxies r
end.

(** Every member of the pool is marked failed. *)
Definition all_failed `{ProxyDict} (r : AntiDetection.ProxyRotator) : Prop :=
forall p, In p (AntiDetection.proxies r) ->
          proxy_str p ∈ AntiDetection._failed_proxies r.

(** [delay_strategy] is one of the four known names. *)
Definition recognized_strategy (strat : string) : Prop :=
In strat AntiDetection.valid_strategies.

(** One of the five tests of [WebCrawler._validate_config] fails. *)
Definition fails_basic_checks `{ProxyDict} (a : Crawler.InitArgs) : Prop :=
Crawler.a_seed_url a = ""
\/ Crawler.a_max_depth a < 0
\/ (Crawler.a_delay a < 0)%Q
\/ Crawler.a_max_pages a <= 0
\/ ~ (starts_with (Crawler.a_seed_url a) "http://"
      \/ starts_with (Crawler.a_seed_url a) "https://").

(** Proxy rotation is asked for and a non-empty proxy list is given. *)
Definition proxy_rotation_in_effect `{ProxyDict} (a : Crawler.InitArgs) : bool :=
Crawler.a_enable_proxy_rotation a && Crawler.has_proxy_list (Crawler.a_proxy_list a).

(** Depths that never decrease along the list. *)
Fixpoint nondecreasing (ds : list Z) : Prop :=
match ds with
| [] => True
| d :: ds' => Forall (fun d' => d <= d') ds' /\ nondecreasing ds'
end.

(** A frontier in level order: every entry lies at the level of each
    earlier entry or one level below it, never above. *)
Fixpoint level_order (q : list (string * Z)) : Prop :=
match q with
| [] => True
| e :: q' =>
    Forall (fun e' => snd e <= snd e' <= snd e + 1) q' /\ level_order q'
end.

(** The URLs whose fetch was cut short by an interrupt. *)
Fixpoint cancelled_urls (evs : list Crawler.Event) : list string :=
match evs with
| [] => []
| Crawler.Cancelled u _ :: evs' => u :: cancelled_urls evs'
| _ :: evs' => cancelled_urls evs'
end.

(** The entries a run dropped because of their depth. *)
Fixpoint depth_skips (evs : list Crawler.Event) : list (string * Z) :=
match evs with
| [] => []
| Crawler.SkippedDepth u d :: evs' => (u, d) :: depth_skips evs'
| _ :: evs' => depth_skips evs'
end.

(** The record reports status 429. *)
Definition rate_limited (p : Crawler.PageData) : bool :=
match Crawler.status_code p with
| Some code => code =? 429
| None => false
end.

(** The base delay after [k] rate-limit escalations. *)
Definition escalated (base : Q) (k : nat) : Q :=
Nat.iter k (fun b => (b * (3 # 2))%Q) base.

(** How many records report status 429. *)
Definition rate_limit_count (pages : list Crawler.PageData) : nat :=
length (List.filter rate_limited pages).

(** The link one [href] of a page contributes to [extract_links]: the
    normalised form of the stripped [href], when it is neither empty nor a
    page-internal anchor, normalises and passes [is_valid_url]. *)
Definition link_of (v : Utils.URLValidator) (base_url href : string)
  : option string :=
match Utils.normalize_url (PyStr.strip href) base_url with
| Ok normalized =>
    if PyStr.truthy (PyStr.strip href)
       && negb (PyStr.startswith (PyStr.strip href) "#")
       && Utils.is_valid_url v normalized
    then Some normalized else None
| Raise _ => None
end.

(** [n] calls of [get_next] in a row: what they returned, and the rotator
    afterwards. *)
Fixpoint get_next_n `{Runtime} (n : nat) (r : AntiDetection.ProxyRotator)
  : Result (list (option Proxy) * AntiDetection.ProxyRotator) :=
match n with
| O => Ok ([], r)
| S n' =>
    try found <- AntiDetection.get_next r;
    try more <- get_next_n n' (snd found);
    Ok (fst found :: fst more, snd more)
end.

(** Only members of the pool are marked failed (the crawler marks the
    proxy it got from [get_next]). *)
Definition marks_within_pool `{ProxyDict} (r : AntiDetection.ProxyRotator)
  : Prop :=
forall key, key ∈ AntiDetection._failed_proxies r ->
            exists p, p ∈ AntiDetection.proxies r /\ proxy_str p = key.

(** No robots.txt was ever fetched: every cached entry is [None]. *)
Definition nothing_fetched (robots_cache : Crawler.RobotsCache) : Prop :=
forall domain entry, robots_cache !! domain = Some entry -> entry = None.

(** What a crawler was configured with: the attributes that [__init__]
    sets from its arguments and the strategy of the delay manager. *)
Definition settings `{Runtime} (c : Crawler.WebCrawler) :=
(Crawler.seed_url c, Crawler.max_depth c, Crawler.delay c,
 Crawler.max_pages c, Crawler.same_domain_only c,
 Crawler.respect_robots_txt c, Crawler.user_agent c, Crawler.timeout c,
 Crawler.verify_ssl c, Crawler.anti_detection_config c,
 Crawler.base_domain c,
 AntiDetection.strategy (Crawler.delay_manager c)).

(** [n] calls of [UserAgentRotator.get_next] in a row: what they returned
    or raised, then the rotator and the world. *)
Fixpoint get_next_agents `{Runtime}
    (random_choice : list string -> World -> Result string * World)
    (n : nat) (r : UserAgents.UserAgentRotator) (w : World)
  : list (Result string) * UserAgents.UserAgentRotator * World :=
match n with
| O => ([], r, w)
| S n' =>
    let '(ua, r, w) := UserAgents.get_next random_choice r w in
    let '(uas, r, w) := get_next_agents random_choice n' r w in
    (ua :: uas, r, w)
end.

(** A path component that is a plain name: not empty, not [.] or [..],
    without a slash. *)
Definition is_name (comp : string) : bool :=
negb (String.eqb comp "") && negb (String.eqb comp ".")
&& negb (String.eqb comp "..") && negb (PyStr.contains comp "/").

(** The manager keeps no session, or only the one named [name]. *)
Definition keeps_at_most (sm : Sessions.SessionManager) (name : string) : Prop :=
map fst (Sessions._sessions sm) = [] \/ map fst (Sessions._sessions sm) = [name].

(** [_get_current_session] starts a new session: the request count is a
    positive multiple of the rotation interval. *)
Definition rotation_due `{Runtime} (c : Crawler.WebCrawler) : bool :=
(0 <? Crawler._request_count c)
&& (Crawler._request_count c
    mod AntiDetection.session_rotation_interval (Crawler.anti_detection_config c)
    =? 0).

(** The rotator of the retry loop is in step with its pool, which is not
    empty when a proxy is in use. *)
Definition in_step `{Runtime} (st : Fetching.LoopState) : Prop :=
forall r, Fetching.rotator st = Some r ->
          rotator_in_sync r
          /\ (Fetching.current_proxy st <> None -> AntiDetection.proxies r <> []).

(** ** Fixtures used to run the definitions on concrete inputs *)

Module Fixtures.

Definition newline : string := String (ascii_of_nat 10) EmptyString.

(** A robots.txt with one rule for every agent. *)
Definition robots_private : string :=
  "User-agent: *" ++ newline ++ "Disallow: /private".

(** Proxies as the command line builds them: one address for both
    schemes. *)
Definition address_proxy : ProxyDict :=
{| Proxy := string;
   proxy_eqb := String.eqb;
   proxy_str := fun a => "{'http': '" ++ a ++ "', 'https': '" ++ a ++ "'}" |}.

(** A simulated clock: the world is the current time; sleeping advances
    it, probes succeed, [uniform] returns its lower bound. *)
Definition sim_runtime : @Runtime address_proxy :=
{| World := Q;
   time_time := fun w => (w, w);
   time_sleep := fun d w => (w + d)%Q;
   random_uniform := fun a b w => (a, w);
   probe_proxy := fun _ _ w => (true, w) |}.

(** A static site: what fetching each URL yields. *)
Definition site_transport (site : string -> Crawler.Attempt)
  : @Crawler.Transport address_proxy sim_runtime :=
{| Crawler.fetch_page := fun u w => (site u, w);
   Crawler.close_all_sessions := fun w => w |}.

Definition default_user_agent : string := "WebCrawler/0.0.1 (Anti-Detection)".

(** A 200 text/html answer with the given links. *)
Definition html_page (ls : list string) : Crawler.Attempt :=
Crawler.Completed
  (Crawler.mkFetched "Test" "" ls (Some 200) None (Some "text/html")
     (Some 57) (Some (1 # 10)%Q) default_user_agent None 0).

(** An answer with a status other than 200. *)
Definition status_page (code : Z) : Crawler.Attempt :=
Crawler.Completed
  (Crawler.mkFetched "" "" [] (Some code) (Some (Crawler.HttpStatus code))
     (Some "text/html") (Some 0) (Some (1 # 10)%Q) default_user_agent None 0).

Definition url_a : string := "https://example.com".
Definition url_b : string := "https://example.com/b".
Definition url_c : string := "https://example.com/c".

(** The seed links to two pages, which link back. *)
Definition small_site (u : string) : Crawler.Attempt :=
if String.eqb u url_a then html_page [url_b; url_c]
else if String.eqb u url_b then html_page [url_a; url_c]
else if String.eqb u url_c then html_page [url_a; url_b; "https://example.com/d"]
else status_page 404.

(** The seed links to twelve pages that all answer 500. *)
Definition broken_links : list string :=
map (fun n => "https://example.com/p" ++ Crawler.str_int n)
  [1; 2; 3; 4; 5; 6; 7; 8; 9; 10; 11; 12].

Definition broken_site (u : string) : Crawler.Attempt :=
if String.eqb u url_a then html_page broken_links else status_page 500.

(** The object [WebCrawler("https://example.com")] builds. *)
Definition example_crawler : @Crawler.WebCrawler address_proxy :=
Crawler.mkWebCrawler url_a 3 1 100 true true default_user_agent 30 true
  (AntiDetection.mkAntiDetectionConfig false false false false 1 5 "fixed"
     50 3 30 true)
  ∅ [] [(url_a, 0)] "example.com" None
  (AntiDetection.DelayManager_init 1 "fixed") 0 0.

(** [WebCrawler("https://example.com", delay_strategy="bogus")] *)
Definition bogus_strategy_args : @Crawler.InitArgs address_proxy :=
Crawler.mkInitArgs url_a 3 1 100 true true default_user_agent
  false false false false "bogus" 1 5 50 None true 3 30 true None true.

(** [WebCrawler("https://example.com", enable_proxy_rotation=True,
    proxy_list=[{'http': 'http://proxy1:8080', 'https': 'http://proxy1:8080'}])] *)
Definition proxy_args : @Crawler.InitArgs address_proxy :=
Crawler.mkInitArgs url_a 3 1 100 true true default_user_agent
  false false true false "fixed" 1 5 50
  (Some [("http://proxy1:8080" : @Proxy address_proxy)]) true
  3 30 true None true.

(** [WebCrawler("invalid-url")], [WebCrawler("https://example.com",
    max_depth=-1)] and [WebCrawler("https://example.com", max_pages=0)] of
    the package's tests. *)
Definition invalid_url_args : @Crawler.InitArgs address_proxy :=
Crawler.mkInitArgs "invalid-url" 3 1 100 true true default_user_agent
  false false false false "fixed" 1 5 50 None true 3 30 true None true.

Definition negative_depth_args : @Crawler.InitArgs address_proxy :=
Crawler.mkInitArgs url_a (-1) 1 100 true true default_user_agent
  false false false false "fixed" 1 5 50 None true 3 30 true None true.

Definition zero_pages_args : @Crawler.InitArgs address_proxy :=
Crawler.mkInitArgs url_a 3 1 0 true true default_user_agent
  false false false false "fixed" 1 5 50 None true 3 30 true None true.

(** A rotator over two proxies, both marked failed. *)
Definition proxy1 : @Proxy address_proxy := "http://proxy1:8080".
Definition proxy2 : @Proxy address_proxy := "http://proxy2:8080".

Definition exhausted_rotator : @AntiDetection.ProxyRotator address_proxy :=
AntiDetection.mark_failed
  (AntiDetection.mark_failed
     (fst (@AntiDetection.ProxyRotator_init address_proxy sim_runtime
             (Some [proxy1; proxy2]) false 10 0%Q))
     proxy1)
  proxy2.

(** The end-to-end scenario: depth limit 1 and a budget of 10 pages on
    [small_site]. *)
Definition scenario_crawler : @Crawler.WebCrawler address_proxy :=
Crawler.mkWebCrawler url_a 1 1 10 true true default_user_agent 30 true
  (AntiDetection.mkAntiDetectionConfig false false false false 1 5 "fixed"
     50 3 30 true)
  ∅ [] [(url_a, 0)] "example.com" None
  (AntiDetection.DelayManager_init 1 "fixed") 0 0.

(** A loop state whose next frontier entry lies beyond the depth limit of
    [scenario_crawler]. *)
Definition too_deep_state : @Crawler.Loop address_proxy sim_runtime :=
Crawler.mkLoop
  (Crawler.with_url_queue scenario_crawler
     [("https://example.com/deep", 2); (url_b, 1)])
  (0%Q : @World address_proxy sim_runtime) 0 0.

(** A loop state after nine failures in a row, with two entries queued. *)
Definition nine_failures_state : @Crawler.Loop address_proxy sim_runtime :=
Crawler.mkLoop
  (Crawler.with_url_queue example_crawler
     [("https://example.com/p10", 1); ("https://example.com/p11", 1)])
  (0%Q : @World address_proxy sim_runtime) 9 9.

(** The loop state [crawl] starts from on the scenario. *)
Definition scenario_state : @Crawler.Loop address_proxy sim_runtime :=
Crawler.mkLoop scenario_crawler (0%Q : @World address_proxy sim_runtime) 0 0.

(** The two records of the package's own summary test. *)
Definition summary_data : list Crawler.PageData :=
[ Crawler.mkPageData url_a "" "" ["link1"; "link2"] None None 0 None None
    None "" None 0;
  Crawler.mkPageData "https://example.com/page2" "" "" [] None
    (Some "Connection error") 0 None None None "" None 0 ].

(** A crawler with proxy rotation over [exhausted_rotator], before its
    first page, and a network that refuses every connection. *)
Definition proxied_fetcher : @Fetching.Fetcher address_proxy :=
Fetching.mkFetcher
  (Sessions.mkClient
     (Crawler.mkWebCrawler url_a 3 1 100 true true default_user_agent 30 true
        (AntiDetection.mkAntiDetectionConfig false true false false 1 5
           "fixed" 50 3 30 true)
        ∅ [] [(url_a, 0)] "example.com" (Some exhausted_rotator)
        (AntiDetection.DelayManager_init 1 "fixed") 0 0)
     (Sessions.SessionManager_init 3 (3 # 10) None) None)
  ∅.

Definition refusing_network (session : Sessions.Session) (u : string)
    (proxy : option (@Proxy address_proxy)) (t : Q) (verify : bool)
    (w : @World address_proxy sim_runtime)
  : (Fetching.HttpResponse + Fetching.RequestError)
    * @World address_proxy sim_runtime :=
(inr (Fetching.ProxyError "Cannot connect to proxy."), w).

End Fixtures.

(** * Properties *)

(** ** Strings *)

Lemma startswith_spec (s p : string) :
  PyStr.startswith s p = true <-> starts_with s p.
Proof.
  unfold PyStr.startswith, starts_with. revert s.
  induction p as [|a p IH]; intros s.
  - split; [intros _; exists s; reflexivity | intros _; now destruct s].
  - destruct s as [|b s]; simpl.
    + split; [discriminate | intros [r Hr]; discriminate].
    + destruct (ascii_dec a b) as [->|Hne].
      * rewrite IH. split; intros [r Hr]; exists r.
        -- now rewrite Hr.
        -- now injection Hr.
      * split; [discriminate | intros [r Hr]; injection Hr; congruence].
Qed.

(** ** Robots gating (utils.py) *)

Lemma can_crawl_true_iff (p : Utils.RobotsTxtParser) (path : string) :
  Utils.can_crawl p path = true <->
  forall d, d ∈ Utils.disallowed_paths p -> ~ starts_with path d.
Proof.
  unfold Utils.can_crawl. rewrite forallb_forall. split.
  - intros Hall d Hd Hpre.
    apply startswith_spec in Hpre.
    specialize (Hall d). rewrite Hpre in Hall.
    assert (In d (elements (Utils.disallowed_paths p))) as Hin
      by (apply list_elem_of_In, elem_of_elements, Hd).
    specialize (Hall Hin). discriminate.
  - intros Hno d Hin.
    apply list_elem_of_In, elem_of_elements in Hin.
    destruct (PyStr.startswith path d) eqn:E; [|reflexivity].
    apply startswith_spec in E. now apply Hno in E.
Qed.

(** C6.  For the rule set parsed from any robots.txt (any [float] parser, any
    content, any user agent) and any path, [can_crawl] answers true exactly
    when the path starts with none of the recorded disallowed prefixes; a
    recorded [/private] always blocks [/private/page]; and the file
    [User-agent: *] / [Disallow: /private] records exactly that prefix,
    blocks [/private/page] and permits [/public/page]. *)
Theorem C6_can_crawl_iff_no_disallowed_prefix :
  (forall (py_float : string -> option Q) (content ua path : string),
     let rules := Utils.RobotsTxtParser_init py_float content ua in
     Utils.can_crawl rules path = true <->
     (forall d, d ∈ Utils.disallowed_paths rules -> ~ starts_with path d))
  /\ (forall rules : Utils.RobotsTxtParser,
        "/private" ∈ Utils.disallowed_paths rules ->
        Utils.can_crawl rules "/private/page" = false)
  /\ (forall (py_float : string -> option Q) (ua : string),
        let rules :=
          Utils.RobotsTxtParser_init py_float Fixtures.robots_private ua in
        Utils.disallowed_paths rules = {[ "/private" ]}
        /\ Utils.can_crawl rules "/private/page" = false
        /\ Utils.can_crawl rules "/public/page" = true).
Proof.
  split; [|split].
  - intros py_float content ua path rules. apply can_crawl_true_iff.
  - intros rules Hin.
    destruct (Utils.can_crawl rules "/private/page") eqn:E; [|reflexivity].
    exfalso. rewrite can_crawl_true_iff in E.
    apply (E _ Hin). now exists "/page".
  - intros py_float ua rules.
    assert (Utils.disallowed_paths rules = {[ "/private" ]}) as Hset.
    { subst rules. vm_compute. reflexivity. }
    split; [exact Hset|].
    unfold Utils.can_crawl. rewrite Hset, elements_singleton.
    split; reflexivity.
Qed.

(** ** URL normalisation (utils.py) *)

Lemma append_nonempty (a b : string) : b <> "" -> a ++ b <> "".
Proof. destruct a; simpl; [auto | discriminate]. Qed.

Lemma endswith_app (a b suffix : string) :
  b <> "" -> String.length suffix = 1%nat ->
  PyStr.endswith (a ++ b) suffix = PyStr.endswith b suffix.
Proof.
  intros Hb Hs. induction a as [|c a IH]; [reflexivity|].
  change (PyStr.endswith (String c a ++ b) suffix)
    with ((String c (a ++ b) =? suffix)%string
          || PyStr.endswith (a ++ b) suffix).
  rewrite IH.
  replace (String c (a ++ b) =? suffix)%string with false; [reflexivity|].
  symmetry. apply String.eqb_neq. intros <-.
  cbn in Hs. injection Hs as Hs.
  apply (append_nonempty a b Hb). now destruct (a ++ b).
Qed.

Lemma drop_last_app (a b : string) :
  b <> "" -> PyStr.drop_last (a ++ b) = a ++ PyStr.drop_last b.
Proof.
  intros Hb. induction a as [|c a IH]; [reflexivity|].
  change (String c a ++ b) with (String c (a ++ b)).
  change (String c a ++ PyStr.drop_last b)
    with (String c (a ++ PyStr.drop_last b)).
  rewrite <- IH.
  destruct (a ++ b) eqn:E; [|reflexivity].
  now apply append_nonempty in E.
Qed.

Lemma truthy_nonempty (s : string) : PyStr.truthy s = true <-> s <> "".
Proof.
  unfold PyStr.truthy. rewrite negb_true_iff. apply String.eqb_neq.
Qed.

Lemma append_assoc (a b c : string) : (a ++ b) ++ c = a ++ (b ++ c).
Proof.
  induction a as [|x a IH]; [reflexivity|].
  change (String x ((a ++ b) ++ c) = String x (a ++ b ++ c)).
  now rewrite IH.
Qed.

(** With a query, the slash test and the cut both act on the query. *)
Lemma rebuild_with_query (p : Urllib.ParseResult) :
  Urllib.query p <> "" ->
  Utils.rebuild p =
    Urllib.scheme p ++ "://" ++ Urllib.netloc p ++ Urllib.path p ++ "?"
    ++ (if PyStr.endswith (Urllib.query p) "/"
           && (1 <? Z.of_nat (String.length (Urllib.path p)))
        then PyStr.drop_last (Urllib.query p) else Urllib.query p).
Proof.
  intros Hq. unfold Utils.rebuild.
  rewrite (proj2 (truthy_nonempty _) Hq).
  set (front := Urllib.scheme p ++ "://" ++ Urllib.netloc p ++ Urllib.path p).
  replace (Urllib.scheme p ++ "://" ++ Urllib.netloc p ++ Urllib.path p ++ "?"
           ++ _) with (front ++ "?" ++
             (if PyStr.endswith (Urllib.query p) "/"
                 && (1 <? Z.of_nat (String.length (Urllib.path p)))
              then PyStr.drop_last (Urllib.query p) else Urllib.query p)).
  2:{ unfold front. now rewrite !append_assoc. }
  replace (front ++ "?" ++ Urllib.query p)
    with ((front ++ "?") ++ Urllib.query p) by apply append_assoc.
  rewrite endswith_app by (auto || reflexivity).
  destruct (_ && _); [|now rewrite append_assoc].
  rewrite drop_last_app by auto. now rewrite append_assoc.
Qed.

(** Without a query and with a path longer than one character, the slash
    test and the cut act on the path. *)
Lemma rebuild_without_query (p : Urllib.ParseResult) :
  Urllib.query p = "" ->
  (1 < String.length (Urllib.path p))%nat ->
  Utils.rebuild p =
    Urllib.scheme p ++ "://" ++ Urllib.netloc p
    ++ (if PyStr.endswith (Urllib.path p) "/"
        then PyStr.drop_last (Urllib.path p) else Urllib.path p).
Proof.
  intros Hq Hlen. unfold Utils.rebuild. rewrite Hq. cbn [PyStr.truthy String.eqb negb].
  assert (Urllib.path p <> "") as Hp by (intros E; rewrite E in Hlen; cbn in Hlen; lia).
  replace (Urllib.scheme p ++ "://" ++ Urllib.netloc p ++ Urllib.path p)
    with ((Urllib.scheme p ++ "://" ++ Urllib.netloc p) ++ Urllib.path p)
    by now rewrite !append_assoc.
  rewrite endswith_app by (auto || reflexivity).
  replace (1 <? Z.of_nat (String.length (Urllib.path p))) with true
    by (symmetry; apply Z.ltb_lt; lia).
  rewrite andb_true_r.
  destruct (PyStr.endswith _ _).
  - rewrite drop_last_app by auto. now rewrite !append_assoc.
  - now rewrite !append_assoc.
Qed.

Lemma rebuild_prefix (p : Urllib.ParseResult) :
  starts_with (Utils.rebuild p)
    (Urllib.scheme p ++ "://" ++ Urllib.netloc p).
Proof.
  assert (forall x, Urllib.scheme p ++ "://" ++ Urllib.netloc p ++ x =
                    (Urllib.scheme p ++ "://" ++ Urllib.netloc p) ++ x) as Hassoc
    by (intros x; now rewrite !append_assoc).
  destruct (string_dec (Urllib.query p) "") as [Hq|Hq].
  - destruct (le_lt_dec (String.length (Urllib.path p)) 1) as [Hlen|Hlen].
    + unfold Utils.rebuild. rewrite Hq.
      cbn [PyStr.truthy String.eqb negb].
      replace (1 <? Z.of_nat (String.length (Urllib.path p))) with false
        by (symmetry; apply Z.ltb_ge; lia).
      rewrite andb_false_r, Hassoc. now eexists.
    + rewrite rebuild_without_query, Hassoc by assumption. now eexists.
  - rewrite rebuild_with_query, Hassoc by assumption. now eexists.
Qed.



(** C8, where the code departs from the claim: the trailing-slash test is
    made on the rebuilt string after the query was appended.  A query that
    ends in a slash loses it, and a path that ends in a slash keeps it when
    a query follows. *)
Theorem C8_trailing_slash_is_cut_from_the_query :
  Utils.normalize_url "/search?q=a/" "https://example.com/"
    = Ok "https://example.com/search?q=a"
  /\ Utils.normalize_url "https://example.com/search?q=a/" ""
     = Ok "https://example.com/search?q=a"
  /\ Utils.normalize_url "/dir/?x=1" "https://example.com/"
     = Ok "https://example.com/dir/?x=1"
  /\ Utils.normalize_url "/dir/" "https://example.com/"
     = Ok "https://example.com/dir"
  /\ (forall parsed : Urllib.ParseResult,
        Urllib.query parsed <> "" ->
        Utils.rebuild parsed =
          Urllib.scheme parsed ++ "://" ++ Urllib.netloc parsed
          ++ Urllib.path parsed ++ "?"
          ++ (if PyStr.endswith (Urllib.query parsed) "/"
                 && (1 <? Z.of_nat (String.length (Urllib.path parsed)))
              then PyStr.drop_last (Urllib.query parsed)
              else Urllib.query parsed)).
Proof.
  repeat split; try reflexivity. apply rebuild_with_query.
Qed.


(** ** Summary statistics (crawler.py) *)

Lemma fold_max_const (k : Z) {A} (l : list A) (a : Z) :
  fold_left Z.max (map (fun _ => k) l) a =
  match l with [] => a | _ => Z.max a k end.
Proof.
  revert a. induction l as [|x l IH]; intros a; [reflexivity|].
  cbn [map fold_left]. rewrite IH. destruct l; [reflexivity|]. lia.
Qed.

Lemma max_depth_expr_spec (data : list Crawler.PageData) :
  Crawler.max_depth_expr data =
  Z.max 0 (Crawler.len (Crawler.successful data) - 1).
Proof.
  unfold Crawler.max_depth_expr. rewrite fold_max_const.
  destruct (Crawler.successful data); [reflexivity|]. reflexivity.
Qed.

Lemma successful_is_unset (data : list Crawler.PageData) :
  errors_nonempty data ->
  Crawler.successful data = List.filter error_unset data.
Proof.
  unfold Crawler.successful. induction 1 as [|p data Hp _ IH]; [reflexivity|].
  cbn [List.filter]. rewrite IH.
  replace (negb (Crawler.has_error p)) with (error_unset p); [reflexivity|].
  unfold error_unset, Crawler.has_error.
  destruct (Crawler.error p) as [msg|]; [|reflexivity].
  destruct msg; [congruence | reflexivity].
Qed.

Section Summary.

Context `{Crawler.Transport}.

(** C10.  Whenever [get_summary] returns, its [max_depth_reached] entry is
    [max(0, S - 1)], [S] being the number of page records whose error is
    unset: it is a function of that count alone and reads no depth. *)
Theorem C10_max_depth_reached_is_successes_minus_one
    (c : Crawler.WebCrawler) (summary : Crawler.Summary) :
  errors_nonempty (Crawler.crawled_data c) ->
  Crawler.get_summary c = Ok summary ->
  Crawler.max_depth_reached summary =
    Z.max 0 (Crawler.len (List.filter error_unset (Crawler.crawled_data c)) - 1)
  /\ Crawler.successful_pages summary =
       Crawler.len (List.filter error_unset (Crawler.crawled_data c)).
Proof.
  intros Hne Hs. unfold Crawler.get_summary in Hs.
  destruct (Crawler.collect_domains _ _) as [domains|e]; [|discriminate].
  cbn [bind] in Hs. injection Hs as <-. cbn.
  rewrite max_depth_expr_spec, successful_is_unset by assumption.
  split; reflexivity.
Qed.

End Summary.

(** The records of the package's own summary test: one success, one
    failure, hence a reported depth of [max(0, 1 - 1) = 0]. *)
Lemma C10_witness_summary_test :
  exists summary,
    Crawler.get_summary
      (Crawler.with_crawled_data Fixtures.example_crawler Fixtures.summary_data)
    = Ok summary
    /\ Crawler.max_depth_reached summary = Z.max 0 (1 - 1)
    /\ Crawler.successful_pages summary = 1.
Proof.
  eexists. split; [vm_compute; reflexivity|].
  apply (C10_max_depth_reached_is_successes_minus_one
           (Crawler.with_crawled_data Fixtures.example_crawler
              Fixtures.summary_data)).
  - repeat constructor; discriminate.
  - vm_compute. reflexivity.
Defined.


(** ** Construction (crawler.py, anti_detection.py) *)

Lemma Qltb_lt (a b : Q) : Qltb a b = true <-> (a < b)%Q.
Proof.
  unfold Qltb. rewrite negb_true_iff, <- not_true_iff_false, Qle_bool_iff.
  split; [apply Qnot_le_lt | apply Qlt_not_le].
Qed.

Lemma strategy_check_spec (strat : string) :
  existsb (String.eqb strat) AntiDetection.valid_strategies = true
  <-> recognized_strategy strat.
Proof.
  unfold recognized_strategy. rewrite existsb_exists. split.
  - intros (x & Hin & Heq). apply String.eqb_eq in Heq. now subst.
  - intros Hin. exists strat. split; [assumption | apply String.eqb_refl].
Qed.

Section Construction.

Context `{Runtime}.

Lemma validate_config_cases (a : Crawler.InitArgs) :
  let r :=
    Crawler._validate_config (Crawler.a_seed_url a) (Crawler.a_max_depth a)
      (Crawler.a_delay a) (Crawler.a_max_pages a) in
  (is_ConfigurationError r = true /\ fails_basic_checks a)
  \/ (r = Ok tt /\ ~ fails_basic_checks a).
Proof.
  unfold Crawler._validate_config, fails_basic_checks. cbv zeta.
  destruct (PyStr.truthy (Crawler.a_seed_url a)) eqn:Eseed; cbn [negb].
  2:{ left. split; [reflexivity|]. left.
      destruct (string_dec (Crawler.a_seed_url a) "") as [E|E]; [exact E|].
      apply truthy_nonempty in E. congruence. }
  apply truthy_nonempty in Eseed.
  destruct (Crawler.a_max_depth a <? 0) eqn:Edepth.
  { left. split; [reflexivity|]. right; left. now apply Z.ltb_lt. }
  apply Z.ltb_ge in Edepth.
  destruct (Qltb (Crawler.a_delay a) 0) eqn:Edelay.
  { left. split; [reflexivity|]. right; right; left. now apply Qltb_lt. }
  destruct (Crawler.a_max_pages a <=? 0) eqn:Epages.
  { left. split; [reflexivity|]. right; right; right; left. now apply Z.leb_le. }
  apply Z.leb_gt in Epages.
  destruct (PyStr.startswith (Crawler.a_seed_url a) "http://") eqn:Ehttp;
    [|destruct (PyStr.startswith (Crawler.a_seed_url a) "https://") eqn:Ehttps];
    cbn [orb negb].
  - right. split; [reflexivity|].
    apply startswith_spec in Ehttp.
    intros [?|[?|[Hd|[?|Hs]]]]; try (congruence || lia).
    + apply Qltb_lt in Hd. congruence.
    + apply Hs. now left.
  - right. split; [reflexivity|].
    apply startswith_spec in Ehttps.
    intros [?|[?|[Hd|[?|Hs]]]]; try (congruence || lia).
    + apply Qltb_lt in Hd. congruence.
    + apply Hs. now right.
  - left. split; [reflexivity|]. right; right; right; right.
    intros [Hs|Hs]; apply startswith_spec in Hs; congruence.
Qed.

(** The strategy handed to [AntiDetectionConfig] is recognized exactly when
    the caller's is: [enable_anti_detection] only turns "fixed" into
    "adaptive". *)
Lemma effective_strategy_recognized (anti : bool) (strat : string) :
  recognized_strategy
    (if anti then if String.eqb strat "fixed" then "adaptive" else strat
     else strat)
  <-> recognized_strategy strat.
Proof.
  destruct anti; [|reflexivity].
  destruct (String.eqb strat "fixed") eqn:E; [|reflexivity].
  apply String.eqb_eq in E. subst. unfold recognized_strategy. cbn. tauto.
Qed.

(** C9, where the code departs from the claim.  An unrecognized delay
    strategy makes the constructor raise [ValueError], not the
    [ConfigurationError] that the claim and the docstring of [__init__]
    name: [AntiDetectionConfig] is built, and checks the strategy, before
    [_validate_config] runs.  With a recognized strategy, an empty seed URL, a negative depth, a negative delay, a
    non-positive page budget or a seed that starts with neither [http://]
    nor [https://] raises [ConfigurationError].  With a recognized strategy,
    none of these, a seed [urlparse] accepts and no proxy rotation in
    effect, the constructor returns an object that has crawled nothing:
    empty visited set, empty result list, the seed alone in the queue. *)
Theorem C9_constructor_checks (a : Crawler.InitArgs) (w : World) :
  let result := fst (Crawler.WebCrawler_init a w) in
  (~ recognized_strategy (Crawler.a_delay_strategy a) ->
   exists msg, result = Raise (ValueError msg))
  /\ (recognized_strategy (Crawler.a_delay_strategy a) ->
      fails_basic_checks a ->
      is_ConfigurationError result = true)
  /\ (recognized_strategy (Crawler.a_delay_strategy a) ->
      ~ fails_basic_checks a ->
      is_Ok (Urllib.urlparse (Crawler.a_seed_url a)) = true ->
      proxy_rotation_in_effect a = false ->
      exists c,
        Crawler.WebCrawler_init a w = (Ok c, w)
        /\ Crawler.visited_urls c = ∅
        /\ Crawler.crawled_data c = []
        /\ Crawler.url_queue c = [(Crawler.a_seed_url a, 0)]
        /\ Crawler.max_depth c = Crawler.a_max_depth a
        /\ Crawler.max_pages c = Crawler.a_max_pages a).
Proof.
  cbv zeta. unfold Crawler.WebCrawler_init.
  set (strat :=
         if Crawler.a_enable_anti_detection a
         then if String.eqb (Crawler.a_delay_strategy a) "fixed"
              then "adaptive" else Crawler.a_delay_strategy a
         else Crawler.a_delay_strategy a).
  pose proof (effective_strategy_recognized
                (Crawler.a_enable_anti_detection a)
                (Crawler.a_delay_strategy a)) as Heff.
  fold strat in Heff.
  unfold AntiDetection.AntiDetectionConfig_init,
    AntiDetection.AntiDetectionConfig_validate.
  cbn [AntiDetection.delay_strategy].
  destruct (existsb (String.eqb strat) AntiDetection.valid_strategies) eqn:Estrat.
  - apply strategy_check_spec, Heff in Estrat. cbn [bind].
    split; [intros Hno; contradiction|].
    destruct (validate_config_cases a) as [[Herr Hfails]|[Hok Hpass]];
      cbv zeta in *.
    + destruct (Crawler._validate_config _ _ _ _) as [?|e]; [discriminate|].
      split; [intros _ _; exact Herr | intros _ Hno; contradiction].
    + rewrite Hok. split; [intros _ Hf; contradiction|].
      intros _ _ Hparse Hproxy.
      destruct (Urllib.urlparse (Crawler.a_seed_url a)) as [parsed|e];
        [|discriminate].
      cbn [AntiDetection.enable_proxy_rotation].
      unfold proxy_rotation_in_effect in Hproxy. rewrite Hproxy.
      cbn [andb]. eexists. repeat split.
  - cbn [bind fst].
    split; [intros _; eexists; reflexivity|].
    assert (~ recognized_strategy (Crawler.a_delay_strategy a)) as Hno.
    { intros Hr. apply Heff, strategy_check_spec in Hr. congruence. }
    split; intros Hr; contradiction.
Qed.

End Construction.

Lemma default_args_pass_basic_checks :
  ~ @fails_basic_checks Fixtures.address_proxy
      (Crawler.default_args Fixtures.url_a).
Proof.
  intros [Hf|[Hf|[Hf|[Hf|Hf]]]]; cbn in Hf; try (discriminate || lia).
  apply Hf. right. now exists "example.com".
Qed.

(** C9, the two calls on which the constructor departs from the claim.  An
    unknown strategy, every other parameter valid, raises [ValueError] and
    not [ConfigurationError]; and valid parameters that turn proxy rotation
    on make the constructor raise [AttributeError]. *)
Lemma C9_failing_calls :
  ~ recognized_strategy (Crawler.a_delay_strategy Fixtures.bogus_strategy_args)
  /\ fst (@Crawler.WebCrawler_init Fixtures.address_proxy Fixtures.sim_runtime
            Fixtures.bogus_strategy_args 0%Q)
     = Raise (ValueError
         "Invalid delay strategy. Must be one of: ['fixed', 'random', 'exponential', 'adaptive']")
  /\ recognized_strategy (Crawler.a_delay_strategy Fixtures.proxy_args)
  /\ Crawler._validate_config
       (Crawler.a_seed_url Fixtures.proxy_args)
       (Crawler.a_max_depth Fixtures.proxy_args)
       (Crawler.a_delay Fixtures.proxy_args)
       (Crawler.a_max_pages Fixtures.proxy_args) = Ok tt
  /\ fst (@Crawler.WebCrawler_init Fixtures.address_proxy Fixtures.sim_runtime
            Fixtures.proxy_args 0%Q)
     = Raise (AttributeError "'WebCrawler' object has no attribute 'logger'").
Proof.
  split; [|split; [|split; [|split]]]; try reflexivity.
  - unfold recognized_strategy. cbn.
    intros [E|[E|[E|[E|[]]]]]; discriminate.
  - unfold recognized_strategy. cbn. auto.
Qed.

(** The three cases of the constructor on the calls of the package's
    tests: an unknown strategy, ["invalid-url"] as seed, and the defaults. *)
Lemma C9_witness_constructor_calls :
  (exists msg,
     fst (@Crawler.WebCrawler_init Fixtures.address_proxy Fixtures.sim_runtime
            Fixtures.bogus_strategy_args 0%Q) = Raise (ValueError msg))
  /\ is_ConfigurationError
       (fst (@Crawler.WebCrawler_init Fixtures.address_proxy
               Fixtures.sim_runtime Fixtures.invalid_url_args 0%Q)) = true
  /\ (exists c,
        @Crawler.WebCrawler_init Fixtures.address_proxy Fixtures.sim_runtime
          (Crawler.default_args Fixtures.url_a) 0%Q = (Ok c, 0%Q)
        /\ Crawler.visited_urls c = ∅
        /\ Crawler.crawled_data c = []
        /\ Crawler.url_queue c = [(Fixtures.url_a, 0)]
        /\ Crawler.max_depth c = 3
        /\ Crawler.max_pages c = 100).
Proof.
  split; [|split].
  - apply (@C9_constructor_checks Fixtures.address_proxy Fixtures.sim_runtime
             Fixtures.bogus_strategy_args 0%Q).
    unfold recognized_strategy. cbn.
    intros [E|[E|[E|[E|[]]]]]; discriminate.
  - apply (@C9_constructor_checks Fixtures.address_proxy Fixtures.sim_runtime
             Fixtures.invalid_url_args 0%Q).
    + unfold recognized_strategy. cbn. auto.
    + right; right; right; right. cbn.
      intros [[r Hr]|[r Hr]]; discriminate.
  - apply (@C9_constructor_checks Fixtures.address_proxy Fixtures.sim_runtime
             (Crawler.default_args Fixtures.url_a) 0%Q).
    + unfold recognized_strategy. cbn. auto.
    + exact default_args_pass_basic_checks.
    + reflexivity.
    + reflexivity.
Defined.

(** The constructor on the calls of the package's tests
    ([test_invalid_max_depth], [test_invalid_max_pages]). *)
Example constructor_rejects_bad_budgets :
  fst (@Crawler.WebCrawler_init Fixtures.address_proxy Fixtures.sim_runtime
         Fixtures.negative_depth_args 0%Q)
  = Raise (ConfigurationError "Max depth cannot be negative")
  /\ fst (@Crawler.WebCrawler_init Fixtures.address_proxy Fixtures.sim_runtime
            Fixtures.zero_pages_args 0%Q)
     = Raise (ConfigurationError "Max pages must be positive").
Proof. split; reflexivity. Qed.

(** The constructed default object is the fixture used in the examples. *)
Example default_construction :
  @Crawler.WebCrawler_init Fixtures.address_proxy Fixtures.sim_runtime
    (Crawler.default_args Fixtures.url_a) 0%Q
  = (Ok Fixtures.example_crawler, 0%Q).
Proof. reflexivity. Qed.


(** ** Delay policy (anti_detection.py) *)

Section Delay.

Context `{Runtime}.

(** [wait] keeps what [target_delay] left in the manager, counts the
    request and stamps the time. *)
Lemma wait_fields (dm : AntiDetection.DelayManager) (rt : option Q)
    (w : World) :
  let dm1 :=
    snd (fst (AntiDetection.target_delay dm rt (snd (time_time w)))) in
  let dm2 := fst (AntiDetection.wait dm rt w) in
  AntiDetection.base_delay dm2 = AntiDetection.base_delay dm1
  /\ AntiDetection.strategy dm2 = AntiDetection.strategy dm1
  /\ AntiDetection._response_times dm2 = AntiDetection._response_times dm1
  /\ AntiDetection._request_count dm2 = AntiDetection._request_count dm1 + 1.
Proof.
  cbv zeta. unfold AntiDetection.wait.
  destruct (time_time w) as [current_time w1]. cbn [snd].
  destruct (AntiDetection.target_delay dm rt w1) as [[delay dm1] w2].
  cbn [fst snd].
  destruct (time_time _) as [now w3]. cbn. auto.
Qed.

End Delay.

(** ** Delay management in binary64 (anti_detection.py) *)

Section Newest.

Context {A : Type}.

#[local] Open Scope list_scope.

Lemma newest_small (n : nat) (l : list A) :
  (length l <= n)%nat -> newest n l = l.
Proof.
  intros Hl. unfold newest.
  replace (length l - n)%nat with 0%nat by lia. reflexivity.
Qed.

Lemma newest_length (n : nat) (l : list A) : (length (newest n l) <= n)%nat.
Proof. unfold newest. rewrite length_skipn. lia. Qed.

Lemma newest_app (n : nat) (l r : list A) :
  newest n (newest n l ++ r) = newest n (l ++ r).
Proof.
  destruct (le_lt_dec (length l) n) as [Hle|Hgt].
  - now rewrite (newest_small n l).
  - unfold newest.
    rewrite !length_app, length_skipn.
    replace (length l - (length l - n) + length r - n)%nat
      with (length r) by lia.
    replace (length l + length r - n)%nat
      with ((length l - n) + length r)%nat by lia.
    rewrite <- (drop_drop (l ++ r)).
    rewrite (drop_app_le l r) by lia. reflexivity.
Qed.

(** Appending one sample and popping the oldest when eleven are held keeps
    the ten newest. *)
Lemma pop_keeps_newest (l : list A) (rt : A) :
  (length l <= 10)%nat ->
  (if (10 <? length (l ++ [rt]))%nat then tail (l ++ [rt]) else l ++ [rt])
  = newest 10 (l ++ [rt]).
Proof.
  intros Hl. unfold newest. rewrite length_app. cbn [length].
  destruct (10 <? length l + 1)%nat eqn:E.
  - apply Nat.ltb_lt in E.
    replace (length l + 1 - 10)%nat with 1%nat by lia.
    now destruct (l ++ [rt]).
  - apply Nat.ltb_ge in E.
    replace (length l + 1 - 10)%nat with 0%nat by lia. reflexivity.
Qed.

End Newest.

Section FloatDelay.

Import PrimFloat.

Variable World : Type.
Variable time_time : World -> float * World.
Variable time_sleep : float -> World -> World.
Variable random_uniform : float -> float -> World -> float * World.
Variable float_pow : float -> Z -> float.

Notation target_delay :=
  (Binary64.target_delay World random_uniform float_pow).
Notation wait :=
  (Binary64.wait World time_time time_sleep random_uniform float_pow).
Notation feed := (fed time_time time_sleep random_uniform float_pow).

#[local] Open Scope list_scope.

(** Under the adaptive strategy the target delay is the one
    [_calculate_adaptive_delay] returns, and the world is left alone. *)
Lemma float_target_adaptive (dm : Binary64.DelayManager)
    (rt : option float) (w : World) :
  Binary64.strategy dm = "adaptive" ->
  target_delay dm rt w =
    (fst (Binary64._calculate_adaptive_delay dm rt),
     snd (Binary64._calculate_adaptive_delay dm rt), w).
Proof.
  intros Hs. unfold Binary64.target_delay. rewrite Hs. cbn.
  now destruct (Binary64._calculate_adaptive_delay dm rt).
Qed.

(** [wait] keeps what the choice of the delay left in the manager, counts
    the request and stamps the time. *)
Lemma float_wait_fields (dm : Binary64.DelayManager) (rt : option float)
    (w : World) :
  let dm1 := snd (fst (target_delay dm rt (snd (time_time w)))) in
  let dm2 := fst (wait dm rt w) in
  Binary64.base_delay dm2 = Binary64.base_delay dm1
  /\ Binary64.strategy dm2 = Binary64.strategy dm1
  /\ Binary64._response_times dm2 = Binary64._response_times dm1
  /\ Binary64._request_count dm2 = Binary64._request_count dm1 + 1.
Proof.
  cbv zeta. unfold Binary64.wait.
  destruct (time_time w) as [current_time w1]. cbn [snd].
  destruct (Binary64.target_delay _ _ _ dm rt w1) as [[delay dm1] w2].
  cbn [fst snd].
  destruct (time_time _) as [now w3]. cbn. auto.
Qed.

Lemma float_adaptive_window (dm : Binary64.DelayManager) (rt : option float) :
  (length (Binary64._response_times dm) <= 10)%nat ->
  let dm' := snd (Binary64._calculate_adaptive_delay dm rt) in
  Binary64._response_times dm' = window_after (Binary64._response_times dm) rt
  /\ Binary64.base_delay dm' = Binary64.base_delay dm
  /\ Binary64.strategy dm' = Binary64.strategy dm
  /\ Binary64._request_count dm' = Binary64._request_count dm.
Proof.
  intros Hl. cbv zeta. unfold Binary64._calculate_adaptive_delay, window_after.
  destruct rt as [t|].
  - rewrite pop_keeps_newest by assumption.
    destruct (newest 10 _); cbn; [auto|].
    destruct (ltb 3 _); [cbn; auto|]. destruct (ltb 1 _); cbn; auto.
  - destruct (Binary64._response_times dm); cbn; [auto|].
    destruct (ltb 3 _); [cbn; auto|]. destruct (ltb 1 _); cbn; auto.
Qed.

Lemma float_adaptive_value (dm : Binary64.DelayManager) (rt : option float) :
  let r := Binary64._calculate_adaptive_delay dm rt in
  let window := Binary64._response_times (snd r) in
  let base := Binary64.base_delay dm in
  let avg := Binary64.mean window in
  (window = [] -> fst r = base)
  /\ (window <> [] -> exceeds avg 3 -> fst r = (base * 2)%float)
  /\ (window <> [] -> ~ exceeds avg 3 -> exceeds avg 1 ->
      fst r = (base * 1.5)%float)
  /\ (window <> [] -> ~ exceeds avg 3 -> ~ exceeds avg 1 -> fst r = base).
Proof.
  cbv zeta. unfold Binary64._calculate_adaptive_delay, exceeds.
  set (times := match rt with Some t => _ | None => _ end).
  destruct times as [|x times'] eqn:Et;
    cbn [fst snd Binary64._response_times Binary64.base_delay].
  - repeat split; congruence.
  - destruct (ltb 3 _) eqn:E3; [|destruct (ltb 1 _) eqn:E1];
      cbn [fst snd Binary64._response_times]; rewrite ?E3, ?E1;
      repeat split; intros; try reflexivity; congruence.
Qed.

(** One call under the adaptive strategy: the window it leaves and the
    delay it computes. *)
Lemma float_adaptive_step (dm : Binary64.DelayManager)
    (response_time : option float) (w : World) :
  Binary64.strategy dm = "adaptive" ->
  (length (Binary64._response_times dm) <= 10)%nat ->
  let window := window_after (Binary64._response_times dm) response_time in
  let computed := target_delay dm response_time w in
  let delay := fst (fst computed) in
  let base := Binary64.base_delay dm in
  let avg := Binary64.mean window in
  Binary64._response_times (snd (fst computed)) = window
  /\ Binary64._response_times (fst (wait dm response_time w)) = window
  /\ (length window <= 10)%nat
  /\ (window = [] -> delay = base)
  /\ (window <> [] -> exceeds avg 3 -> delay = (base * 2)%float)
  /\ (window <> [] -> ~ exceeds avg 3 -> exceeds avg 1 ->
      delay = (base * 1.5)%float)
  /\ (window <> [] -> ~ exceeds avg 3 -> ~ exceeds avg 1 -> delay = base).
Proof.
  intros Hs Hl. cbv zeta.
  pose proof (float_adaptive_window dm response_time Hl) as (Hwin & _).
  pose proof (float_adaptive_value dm response_time) as Hval.
  cbv zeta in Hval.
  pose proof (float_wait_fields dm response_time w) as (_ & _ & Hwait & _).
  rewrite !float_target_adaptive in * by assumption. cbn [fst snd] in *.
  rewrite Hwait. rewrite Hwin in Hval.
  split; [exact Hwin|]. split; [exact Hwin|].
  split; [|exact Hval].
  unfold window_after.
  destruct response_time; [apply newest_length | exact Hl].
Qed.

(** Feeding samples to an adaptive manager keeps its strategy and base
    delay and leaves the ten newest samples in the window. *)
Lemma fed_adaptive (samples : list float) :
  forall (dm : Binary64.DelayManager) (w : World),
    Binary64.strategy dm = "adaptive" ->
    (length (Binary64._response_times dm) <= 10)%nat ->
    let dm' := fst (feed dm samples w) in
    Binary64.strategy dm' = "adaptive"
    /\ Binary64.base_delay dm' = Binary64.base_delay dm
    /\ Binary64._response_times dm' =
         newest 10 (Binary64._response_times dm ++ samples).
Proof.
  induction samples as [|rt rest IH]; intros dm w Hs Hl; cbv zeta.
  - cbn [fed fst]. rewrite app_nil_r, newest_small by assumption. auto.
  - cbn [fed].
    pose proof (float_wait_fields dm (Some rt) w) as Hw. cbv zeta in Hw.
    rewrite float_target_adaptive in Hw by assumption. cbn [fst snd] in Hw.
    pose proof (float_adaptive_window dm (Some rt) Hl) as Ha. cbv zeta in Ha.
    destruct (Binary64.wait _ _ _ _ _ dm (Some rt) w) as [dm1 w1].
    cbn [fst] in Hw.
    destruct Hw as (Hb & Hst & Hrt & _). destruct Ha as (Hrt' & Hb' & Hst' & _).
    specialize (IH dm1 w1). cbv zeta in IH.
    destruct IH as (IH1 & IH2 & IH3).
    + congruence.
    + rewrite Hrt, Hrt'. apply newest_length.
    + split; [exact IH1|]. split; [congruence|].
      rewrite IH3, Hrt, Hrt'. unfold window_after.
      rewrite newest_app, <- app_assoc. reflexivity.
Qed.


End FloatDelay.

Section FloatDelayRun.

Import PrimFloat.


End FloatDelayRun.

(** ** Proxy rotation (anti_detection.py) *)

Section Rotation.

Context `{Runtime}.

#[local] Open Scope list_scope.

(** The attempts loop over the first [n] pending members [xs] of the
    cycle: it stops at the first one that is not failed, or passes them
    all. *)
Lemma get_next_loop_spec (failed : gset string) (xs : list Proxy) :
  forall ys : list Proxy,
    (exists pre p post,
        xs = pre ++ p :: post
        /\ Forall (fun q => proxy_str q ∈ failed) pre
        /\ (proxy_str p ∉ failed)
        /\ AntiDetection.get_next_loop (length xs) (xs ++ ys) failed
           = Ok (Some p, post ++ ys ++ pre ++ [p]))
    \/ (Forall (fun q => proxy_str q ∈ failed) xs
        /\ AntiDetection.get_next_loop (length xs) (xs ++ ys) failed
           = Ok (None, ys ++ xs)).
Proof.
  induction xs as [|x xs IH]; intros ys.
  - right. split; [constructor|]. cbn. now rewrite app_nil_r.
  - cbn [length AntiDetection.get_next_loop AntiDetection.next app bind].
    destruct (decide (proxy_str x ∈ failed)) as [Hin|Hout].
    + rewrite <- app_assoc.
      destruct (IH (ys ++ [x])) as [(pre & p & post & -> & Hpre & Hp & Heq)|[Hall Heq]].
      * left. exists (x :: pre), p, post. repeat split; auto.
        rewrite Heq. now rewrite <- !app_assoc.
      * right. split; [now constructor|]. rewrite Heq. now rewrite <- app_assoc.
    + left. exists [], x, xs. repeat split; auto.
      now rewrite <- app_assoc.
Qed.

(** The constructor, [mark_failed] and [add_proxy] keep the iterator on
    the pool. *)
Lemma rotator_in_sync_init (ps : option (list Proxy)) (validate : bool)
    (t : Q) (w : World) :
  rotator_in_sync (fst (AntiDetection.ProxyRotator_init ps validate t w)).
Proof.
  unfold AntiDetection.ProxyRotator_init, AntiDetection._validate_proxies.
  destruct (default [] ps) as [|p ps'] eqn:E; [exact I|].
  destruct validate; cbn [AntiDetection.proxies AntiDetection.timeout].
  - destruct (AntiDetection.validate_loop _ _ _) as [[|v vs] w'];
      [exact I|]. cbn. eexists. split; reflexivity.
  - cbn. eexists. split; reflexivity.
Qed.

Lemma rotator_in_sync_mark_failed (r : AntiDetection.ProxyRotator)
    (proxy : Proxy) :
  rotator_in_sync r -> rotator_in_sync (AntiDetection.mark_failed r proxy).
Proof. intros Hs. exact Hs. Qed.

Lemma rotator_in_sync_add_proxy (r : AntiDetection.ProxyRotator)
    (proxy : Proxy) (validate : bool) (w : World) :
  rotator_in_sync r ->
  rotator_in_sync (snd (fst (AntiDetection.add_proxy r proxy validate w))).
Proof.
  intros Hs. unfold AntiDetection.add_proxy.
  destruct (if validate then _ else _) as [ok w'].
  destruct ok; cbn [negb]; [|exact Hs].
  destruct (existsb _ _); [exact Hs|].
  unfold rotator_in_sync. cbn.
  destruct (AntiDetection.proxies r ++ [proxy]) eqn:E; [exact I|].
  eexists. split; reflexivity.
Qed.

(** C5.  With a non-empty pool and the iterator cycling over it,
    [get_next] raises nothing and returns a member of the pool, never
    [None].  The members it draws from the cycle before the one it returns
    are all failed and are at most as many as the pool holds.  The member
    returned is not failed and the failed set is untouched, unless every
    member is failed: then the failed set is cleared and the next member
    of the cycle is returned. *)
Theorem C5_get_next_never_starves (r : AntiDetection.ProxyRotator) :
  rotator_in_sync r ->
  AntiDetection.proxies r <> [] ->
  exists proxy r' skipped,
    AntiDetection.get_next r = Ok (Some proxy, r')
    /\ In proxy (AntiDetection.proxies r)
    /\ AntiDetection.proxies r' = AntiDetection.proxies r
    /\ rotator_in_sync r'
    /\ (length skipped <= length (AntiDetection.proxies r))%nat
    /\ Forall (fun q => proxy_str q ∈ AntiDetection._failed_proxies r) skipped
    /\ (exists it rest,
          AntiDetection._iterator r = Some it
          /\ it ++ it = skipped ++ proxy :: rest)
    /\ (all_failed r -> AntiDetection._failed_proxies r' = ∅)
    /\ (~ all_failed r ->
        AntiDetection._failed_proxies r' = AntiDetection._failed_proxies r
        /\ proxy_str proxy ∉ AntiDetection._failed_proxies r).
Proof.
  unfold rotator_in_sync, all_failed, AntiDetection.get_next.
  intros Hsync Hne.
  destruct (AntiDetection.proxies r) as [|p0 ps] eqn:Eps; [congruence|].
  destruct Hsync as (it & Hit & Hperm). rewrite Hit.
  assert (length (p0 :: ps) = length it) as Hlen
    by (symmetry; now apply Permutation_length).
  rewrite Hlen.
  pose proof (get_next_loop_spec (AntiDetection._failed_proxies r) it []) as Hloop.
  rewrite app_nil_r in Hloop.
  destruct Hloop as [(pre & p & post & -> & Hpre & Hp & Heq)|[Hall Heq]];
    rewrite Heq; cbn [bind].
  - exists p. eexists. exists pre. split; [reflexivity|].
    cbn [AntiDetection.proxies AntiDetection._iterator
         AntiDetection._failed_proxies].
    assert (In p (p0 :: ps)) as Hin.
    { apply list_elem_of_In. rewrite <- Hperm. set_solver. }
    split; [exact Hin|]. split; [reflexivity|].
    split; [|split; [|split; [|split; [|split]]]].
    + eexists. split; [reflexivity|]. rewrite <- Hperm. cbn [app].
      rewrite (Permutation_app_comm post (pre ++ [p])), <- app_assoc.
      reflexivity.
    + rewrite length_app. lia.
    + exact Hpre.
    + eexists. eexists. split; [reflexivity|].
      rewrite <- app_assoc. reflexivity.
    + intros Hall. exfalso. apply Hp, Hall, Hin.
    + intros _. split; [reflexivity | exact Hp].
  - destruct it as [|x it']; [discriminate|].
    cbn [AntiDetection.next bind app].
    exists x. eexists. exists (x :: it'). split; [reflexivity|].
    cbn [AntiDetection.proxies AntiDetection._iterator
         AntiDetection._failed_proxies].
    assert (In x (p0 :: ps)) as Hin.
    { apply list_elem_of_In. rewrite <- Hperm. set_solver. }
    split; [exact Hin|]. split; [reflexivity|].
    split; [|split; [|split; [|split; [|split]]]].
    + eexists. split; [reflexivity|]. rewrite <- Hperm.
      now rewrite Permutation_app_comm.
    + cbn [length] in *. lia.
    + exact Hall.
    + eexists. eexists. split; reflexivity.
    + reflexivity.
    + intros Hsome. exfalso. apply Hsome. intros q Hq.
      apply list_elem_of_In in Hq. rewrite <- Hperm in Hq.
      rewrite Forall_forall in Hall. apply Hall, Hq.
Qed.

End Rotation.

(** Proxy exhaustion recovery: two proxies, both marked failed;
    [get_next] clears the failed set and returns one of them. *)
Lemma C5_witness_both_failed :
  exists proxy r' skipped,
    AntiDetection.get_next Fixtures.exhausted_rotator = Ok (Some proxy, r')
    /\ In proxy (AntiDetection.proxies Fixtures.exhausted_rotator)
    /\ AntiDetection.proxies r' = AntiDetection.proxies Fixtures.exhausted_rotator
    /\ rotator_in_sync r'
    /\ (length skipped
        <= length (AntiDetection.proxies Fixtures.exhausted_rotator))%nat
    /\ Forall (fun q => proxy_str q
                        ∈ AntiDetection._failed_proxies Fixtures.exhausted_rotator)
         skipped
    /\ (exists it rest,
          AntiDetection._iterator Fixtures.exhausted_rotator = Some it
          /\ (it ++ it = skipped ++ proxy :: rest)%list)
    /\ (all_failed Fixtures.exhausted_rotator ->
        AntiDetection._failed_proxies r' = ∅)
    /\ (~ all_failed Fixtures.exhausted_rotator ->
        AntiDetection._failed_proxies r'
          = AntiDetection._failed_proxies Fixtures.exhausted_rotator
        /\ proxy_str proxy
           ∉ AntiDetection._failed_proxies Fixtures.exhausted_rotator).
Proof.
  apply (@C5_get_next_never_starves Fixtures.address_proxy
           Fixtures.exhausted_rotator).
  - unfold rotator_in_sync. cbn. eexists. split; reflexivity.
  - discriminate.
Defined.

Example exhausted_rotator_recovers :
  exists r',
    AntiDetection.get_next Fixtures.exhausted_rotator
      = Ok (Some Fixtures.proxy1, r')
    /\ AntiDetection._failed_proxies r' = ∅
    /\ AntiDetection._iterator r' = Some [Fixtures.proxy2; Fixtures.proxy1].
Proof. eexists. split; [vm_compute; reflexivity|]. split; reflexivity. Qed.

(** ** The crawl loop (crawler.py) *)

Section Crawl.

Context `{Crawler.Transport}.

#[local] Open Scope list_scope.

Lemma error_message_nonempty (f : Crawler.Failure) :
  Crawler.error_message f <> "".
Proof. destruct f; discriminate. Qed.

(** [crawl_page] touches the request counter and the delay manager only;
    the record it returns carries the URL it was given and a non-empty
    error, if any. *)
Lemma crawl_page_spec (c : Crawler.WebCrawler) (u : string) (w : World) :
  let r := Crawler.crawl_page c u w in
  Crawler.visited_urls (snd (fst r)) = Crawler.visited_urls c
  /\ Crawler.crawled_data (snd (fst r)) = Crawler.crawled_data c
  /\ Crawler.url_queue (snd (fst r)) = Crawler.url_queue c
  /\ Crawler.max_depth (snd (fst r)) = Crawler.max_depth c
  /\ Crawler.max_pages (snd (fst r)) = Crawler.max_pages c
  /\ (forall page, fst (fst r) = Some page ->
        Crawler.url page = u /\ Crawler.error page <> Some "").
Proof.
  cbv zeta. unfold Crawler.crawl_page.
  destruct (time_time w) as [start_time w1].
  destruct (Crawler.fetch_page u w1) as [attempt w2].
  destruct (AntiDetection.wait _ _ w2) as [dm w3].
  destruct attempt as [f|rt]; cbn; (do 5 (split; [reflexivity|]));
    intros page Hp; [|discriminate].
  injection Hp as <-. cbn. split; [reflexivity|].
  destruct (Crawler.f_failure f) as [failure|]; cbn; [|discriminate].
  intros [= E]. now apply error_message_nonempty in E.
Qed.

Lemma handle_rate_limit_fields (c : Crawler.WebCrawler) (p : Crawler.PageData) :
  let c' := Crawler.handle_rate_limit c p in
  Crawler.visited_urls c' = Crawler.visited_urls c
  /\ Crawler.crawled_data c' = Crawler.crawled_data c
  /\ Crawler.url_queue c' = Crawler.url_queue c
  /\ Crawler.max_depth c' = Crawler.max_depth c
  /\ Crawler.max_pages c' = Crawler.max_pages c.
Proof.
  cbv zeta. unfold Crawler.handle_rate_limit.
  destruct (Crawler.status_code p) as [code|]; [|auto].
  destruct (code =? 429); cbn; auto.
Qed.

(** What one pass through the loop body does, by the dequeued entry. *)
Lemma loop_body_cases (st : Crawler.Loop) (u : string) (d : Z)
    (rest : list (string * Z)) :
  Crawler.url_queue (Crawler.self st) = (u, d) :: rest ->
  let c := Crawler.self st in
  let skipped :=
    Crawler.mkLoop (Crawler.with_url_queue c rest) (Crawler.world st)
      (Crawler.pages_crawled st) (Crawler.consecutive_failures st) in
  (u ∈ Crawler.visited_urls c
   /\ Crawler.loop_body st = (Crawler.SkippedVisited u d, true, skipped))
  \/ ((u ∉ Crawler.visited_urls c) /\ Crawler.max_depth c < d
      /\ Crawler.loop_body st = (Crawler.SkippedDepth u d, true, skipped))
  \/ ((u ∉ Crawler.visited_urls c) /\ d <= Crawler.max_depth c
      /\ exists st',
          Crawler.loop_body st = (Crawler.Cancelled u d, false, st')
          /\ Crawler.visited_urls (Crawler.self st')
             = {[ u ]} ∪ Crawler.visited_urls c
          /\ Crawler.crawled_data (Crawler.self st') = Crawler.crawled_data c
          /\ Crawler.url_queue (Crawler.self st') = rest
          /\ Crawler.max_depth (Crawler.self st') = Crawler.max_depth c
          /\ Crawler.max_pages (Crawler.self st') = Crawler.max_pages c
          /\ Crawler.pages_crawled st' = Crawler.pages_crawled st
          /\ Crawler.consecutive_failures st'
             = Crawler.consecutive_failures st)
  \/ ((u ∉ Crawler.visited_urls c) /\ d <= Crawler.max_depth c
      /\ exists page continue st',
          Crawler.loop_body st = (Crawler.Crawled u d page, continue, st')
          /\ Crawler.url page = u
          /\ Crawler.error page <> Some ""
          /\ Crawler.visited_urls (Crawler.self st')
             = {[ u ]} ∪ Crawler.visited_urls c
          /\ Crawler.crawled_data (Crawler.self st')
             = Crawler.crawled_data c ++ [page]
          /\ Crawler.max_depth (Crawler.self st') = Crawler.max_depth c
          /\ Crawler.max_pages (Crawler.self st') = Crawler.max_pages c
          /\ Crawler.pages_crawled st' = Crawler.pages_crawled st + 1
          /\ Crawler.consecutive_failures st'
             = streak (Crawler.consecutive_failures st) [page]
          /\ continue
             = negb (Crawler.has_error page
                     && (10 <=? Crawler.consecutive_failures st + 1))
          /\ Crawler.url_queue (Crawler.self st')
             = rest ++ (if Crawler.has_error page then []
                        else discovered c u d page)).
Proof.
  intros Hq. cbv zeta. unfold Crawler.loop_body. rewrite Hq.
  cbn [Crawler.visited_urls Crawler.with_url_queue Crawler.max_depth].
  destruct (decide (u ∈ Crawler.visited_urls (Crawler.self st))) as [Hv|Hv];
    [left; auto|].
  right.
  destruct (Crawler.max_depth (Crawler.self st) <? d) eqn:Ed.
  { left. apply Z.ltb_lt in Ed. auto. }
  apply Z.ltb_ge in Ed. right.
  set (c2 := Crawler.with_visited_urls _ _).
  pose proof (crawl_page_spec c2 u (Crawler.world st)) as Hpage.
  cbv zeta in Hpage.
  destruct (Crawler.crawl_page c2 u (Crawler.world st)) as [[r c3] w3].
  cbn [fst snd] in Hpage.
  destruct Hpage as (Hvis & Hdata & Hqueue & Hdepth & Hpages & Hrec).
  subst c2. cbn in Hvis, Hdata, Hqueue, Hdepth, Hpages.
  destruct r as [page|].
  2:{ left. split; [exact Hv|]. split; [exact Ed|].
      eexists. split; [reflexivity|]. cbn. auto 10. }
  right. split; [exact Hv|]. split; [exact Ed|].
  destruct (Hrec page eq_refl) as [Hurl Herr].
  exists page. unfold discovered, Crawler.max_consecutive_failures.
  destruct (Crawler.has_error page) eqn:Eerr; cbn [streak andb negb].
  - destruct (10 <=? Crawler.consecutive_failures st + 1) eqn:E10.
    + eexists. eexists. split; [reflexivity|].
      cbn. rewrite Hvis, Hdata, Hqueue, Hdepth, Hpages, app_nil_r.
      rewrite Eerr. auto 12.
    + eexists. eexists. split; [reflexivity|].
      destruct (handle_rate_limit_fields
                  (Crawler.with_crawled_data c3 (Crawler.crawled_data c3 ++ [page]))
                  page) as (F1 & F2 & F3 & F4 & F5).
      cbn [Crawler.self Crawler.pages_crawled Crawler.consecutive_failures].
      rewrite F1, F2, F3, F4, F5. cbn.
      rewrite Hvis, Hdata, Hqueue, Hdepth, Hpages, app_nil_r, Eerr. auto 12.
  - eexists. eexists. split; [reflexivity|].
    match goal with
    | |- context [Crawler.handle_rate_limit ?x page] =>
        destruct (handle_rate_limit_fields x page) as (F1 & F2 & F3 & F4 & F5)
    end.
    cbn [Crawler.self Crawler.pages_crawled Crawler.consecutive_failures].
    rewrite F1, F2, F3, F4, F5.
    cbn [Crawler.max_depth Crawler.with_crawled_data].
    rewrite Hdepth, Eerr.
    destruct (d <? Crawler.max_depth (Crawler.self st)) eqn:Elt;
      cbn [andb].
    + destruct (Crawler.links page) as [|l ls] eqn:El.
      * cbn. rewrite Hvis, Hdata, Hqueue, Hdepth, Hpages, app_nil_r. auto 12.
      * unfold Crawler.enqueue_links. cbn.
        rewrite Hvis, Hdata, Hqueue, Hdepth, Hpages. auto 12.
    + cbn. rewrite Hvis, Hdata, Hqueue, Hdepth, Hpages, app_nil_r. auto 12.
Qed.

Lemma run_facts_nil (st : Crawler.Loop) : run_facts st [] st.
Proof.
  unfold run_facts, errors_nonempty. cbn. rewrite app_nil_r.
  repeat split; try constructor; try lia; try set_solver.
  - unfold Crawler.len. cbn. lia.
  - intros pre p post Hp. now destruct pre.
Qed.

(** A pass that only dequeues leaves the facts of the rest of the run. *)
Lemma run_facts_skip (st st1 st' : Crawler.Loop) (ev : Crawler.Event)
    (evs : list Crawler.Event) (rest : list (string * Z)) :
  st1 = Crawler.mkLoop (Crawler.with_url_queue (Crawler.self st) rest)
          (Crawler.world st) (Crawler.pages_crawled st)
          (Crawler.consecutive_failures st) ->
  crawled_pages (ev :: evs) = crawled_pages evs ->
  crawled_entries (ev :: evs) = crawled_entries evs ->
  run_facts st1 evs st' -> run_facts st (ev :: evs) st'.
Proof.
  intros -> Hp He. unfold run_facts. rewrite Hp, He. cbn. auto.
Qed.

Lemma streak_app (k : Z) (a b : list Crawler.PageData) :
  streak k (a ++ b) = streak (streak k a) b.
Proof. revert k. induction a as [|p a IH]; intros k; cbn; auto. Qed.

(** The facts of a run: by induction on the passes. *)
Lemma crawl_loop_facts (fuel : nat) :
  forall (st : Crawler.Loop) (evs : list Crawler.Event) (st' : Crawler.Loop),
    Crawler.crawl_loop fuel st = Some (evs, st') -> run_facts st evs st'.
Proof.
  induction fuel as [|fuel IH]; intros st evs st' Hrun;
    cbn [Crawler.crawl_loop] in Hrun;
    destruct (Crawler.loop_cond st) eqn:Ec; cbn [negb] in Hrun;
    try discriminate;
    try (injection Hrun as <- <-; apply run_facts_nil).
  unfold Crawler.loop_cond in Ec.
  destruct (Crawler.url_queue (Crawler.self st)) as [|[u d] rest] eqn:Eq;
    [discriminate|].
  destruct (loop_body_cases st u d rest Eq)
    as [(Hv & Hb)|[(Hv & Hd & Hb)|[(Hv & Hd & st1 & Hb & Hvis & Hdata & Hqu
        & Hmd & Hmp & Hpc & Hcf)|(Hv & Hd & page & continue & st1 & Hb & Hurl
        & Herr & Hvis & Hdata & Hmd & Hmp & Hpc & Hcf & Hcont & Hqu)]]];
    rewrite Hb in Hrun.
  - destruct (Crawler.crawl_loop fuel _) as [[evs' st'']|] eqn:Er;
      [|discriminate].
    injection Hrun as <- <-. apply IH in Er.
    eapply run_facts_skip; eauto.
  - destruct (Crawler.crawl_loop fuel _) as [[evs' st'']|] eqn:Er;
      [|discriminate].
    injection Hrun as <- <-. apply IH in Er.
    eapply run_facts_skip; eauto.
  - injection Hrun as <- <-. unfold run_facts, errors_nonempty. cbn.
    rewrite Hdata, Hvis, Hmd, Hmp, Hpc, Hcf, app_nil_r.
    repeat split; try constructor; try lia; try set_solver.
    + unfold Crawler.len. cbn. lia.
    + intros pre p post Hp. now destruct pre.
  - assert (streak (Crawler.consecutive_failures st) [page] < 10
            \/ continue = false) as Hlt.
    { rewrite Hcont. cbn [streak].
      destruct (Crawler.has_error page); cbn [andb negb]; [|left; lia].
      destruct (10 <=? _) eqn:E10; [now right | left].
      apply Z.leb_gt in E10. exact E10. }
    assert (run_facts st1 [] st1 ->
            run_facts st [Crawler.Crawled u d page] st1) as Hone.
    { intros _. unfold run_facts, errors_nonempty. cbn.
      rewrite Hdata, Hvis, Hmd, Hmp, Hpc, Hcf, Hurl.
      repeat split; try lia; try set_solver.
      - constructor; [set_solver|constructor].
      - intros pre p post Hp Hpost. destruct pre as [|? pre].
        + injection Hp as -> <-. congruence.
        + injection Hp as _ Hp. now destruct pre. }
    destruct continue.
    2:{ injection Hrun as <- <-. apply Hone, run_facts_nil. }
    destruct Hlt as [Hlt|?]; [|discriminate].
    destruct (Crawler.crawl_loop fuel st1) as [[evs' st'']|] eqn:Er;
      [|discriminate].
    injection Hrun as <- <-. apply IH in Er.
    unfold run_facts in Er |- *. cbn [crawled_pages crawled_entries map fst snd].
    destruct Er as (E1 & E2 & E3 & E4 & E5 & E6 & E7 & E8 & E9 & E10 & E11 & E12).
    rewrite Hdata, Hvis, Hmd, Hmp, Hpc, Hcf in *.
    split; [rewrite E1, <- app_assoc; reflexivity|].
    split; [rewrite E2, Hurl; reflexivity|].
    split.
    { constructor; [|exact E3]. intros Hin. apply E4 in Hin. set_solver. }
    split.
    { intros u0 Hin. apply elem_of_cons in Hin as [->|Hin];
        [split; [exact Hv | set_solver]|].
      apply E4 in Hin. set_solver. }
    split; [set_solver|].
    split; [congruence|]. split; [congruence|].
    split; [constructor; [exact Hd | exact E8]|].
    split.
    { rewrite E9. unfold Crawler.len. cbn [length]. lia. }
    split; [exact E10|].
    split.
    { intros pre p post Hp Hpost. destruct pre as [|p0 pre].
      - injection Hp as -> _. exact Hlt.
      - injection Hp as -> Hp. cbn [app streak].
        apply (E11 pre p post Hp Hpost). }
    constructor; [exact Herr | exact E12].
Qed.

(** More fuel does not change the outcome of a run. *)
Lemma crawl_loop_fuel_mono (fuel : nat) :
  forall (st : Crawler.Loop) (r : list Crawler.Event * Crawler.Loop)
         (fuel' : nat),
    Crawler.crawl_loop fuel st = Some r -> (fuel <= fuel')%nat ->
    Crawler.crawl_loop fuel' st = Some r.
Proof.
  induction fuel as [|fuel IH]; intros st r fuel' Hrun Hle;
    cbn [Crawler.crawl_loop] in Hrun.
  - destruct (Crawler.loop_cond st) eqn:Ec; [discriminate|].
    destruct fuel'; cbn [Crawler.crawl_loop]; now rewrite Ec.
  - destruct fuel' as [|fuel']; [lia|]. cbn [Crawler.crawl_loop].
    destruct (Crawler.loop_cond st) eqn:Ec; cbn [negb] in *; [|exact Hrun].
    destruct (Crawler.loop_body st) as [[ev continue] st1].
    destruct continue; [|exact Hrun].
    destruct (Crawler.crawl_loop fuel st1) as [r1|] eqn:Er; [|discriminate].
    rewrite (IH st1 r1 fuel' Er) by lia. exact Hrun.
Qed.

(** One pass ([Ec]: the loop condition holds, [Hb]: what the body does)
    that leaves the loop, or that is followed by a run of [fuel] passes. *)
Ltac last_pass Ec Hb :=
  exists 1%nat; eexists; eexists;
  cbn [Crawler.crawl_loop]; rewrite Ec, Hb; reflexivity.

Ltac one_more_pass fuel Ec Hb Hrun :=
  exists (S fuel); eexists; eexists;
  cbn [Crawler.crawl_loop]; rewrite Ec, Hb; cbn [negb];
  rewrite Hrun; reflexivity.

(** The loop is left after finitely many passes: a pass either fetches, and
    the page budget shrinks, or only dequeues, and the frontier shrinks. *)
Lemma crawl_loop_terminates_aux (n : nat) :
  forall (m : nat) (st : Crawler.Loop),
    (Z.to_nat (Crawler.max_pages (Crawler.self st) - Crawler.pages_crawled st)
     <= n)%nat ->
    (length (Crawler.url_queue (Crawler.self st)) <= m)%nat ->
    exists fuel evs st', Crawler.crawl_loop fuel st = Some (evs, st').
Proof.
  induction n as [|n IHn].
  - intros m st Hn _. exists 0%nat, [], st. cbn.
    replace (Crawler.loop_cond st) with false; [reflexivity|].
    unfold Crawler.loop_cond. destruct (Crawler.url_queue _); [reflexivity|].
    symmetry. apply Z.ltb_ge. lia.
  - induction m as [|m IHm]; intros st Hn Hm.
    + exists 0%nat, [], st. cbn.
      replace (Crawler.loop_cond st) with false; [reflexivity|].
      unfold Crawler.loop_cond.
      destruct (Crawler.url_queue _); [reflexivity | cbn in Hm; lia].
    + destruct (Crawler.loop_cond st) eqn:Ec.
      2:{ exists 0%nat, [], st. cbn. now rewrite Ec. }
      pose proof Ec as Ec'. unfold Crawler.loop_cond in Ec'.
      destruct (Crawler.url_queue (Crawler.self st)) as [|[u d] rest] eqn:Eq;
        [discriminate|].
      apply Z.ltb_lt in Ec'. cbn [length] in Hm.
      destruct (loop_body_cases st u d rest Eq)
        as [(Hv & Hb)|[(Hv & Hd & Hb)|[(Hv & Hd & st1 & Hb & _)|(Hv & Hd
            & page & continue & st1 & Hb & _ & _ & _ & _ & _ & Hmp & Hpc
            & _)]]].
      * destruct (IHm (Crawler.mkLoop
                         (Crawler.with_url_queue (Crawler.self st) rest)
                         (Crawler.world st) (Crawler.pages_crawled st)
                         (Crawler.consecutive_failures st)))
          as (fuel & evs & st' & Hrun); [exact Hn | cbn; lia|].
        one_more_pass fuel Ec Hb Hrun.
      * destruct (IHm (Crawler.mkLoop
                         (Crawler.with_url_queue (Crawler.self st) rest)
                         (Crawler.world st) (Crawler.pages_crawled st)
                         (Crawler.consecutive_failures st)))
          as (fuel & evs & st' & Hrun); [exact Hn | cbn; lia|].
        one_more_pass fuel Ec Hb Hrun.
      * last_pass Ec Hb.
      * destruct continue.
        2:{ last_pass Ec Hb. }
        destruct (IHn (length (Crawler.url_queue (Crawler.self st1))) st1)
          as (fuel & evs & st' & Hrun); [rewrite Hmp, Hpc; lia | lia|].
        one_more_pass fuel Ec Hb Hrun.
Qed.

Lemma crawl_loop_terminates (st : Crawler.Loop) :
  exists fuel evs st', Crawler.crawl_loop fuel st = Some (evs, st').
Proof. eapply crawl_loop_terminates_aux; reflexivity. Qed.

Lemma crawl_returns (c : Crawler.WebCrawler) (w : World) :
  exists fuel results c' w', Crawler.crawl fuel c w = Some (results, c', w').
Proof.
  destruct (crawl_loop_terminates (Crawler.mkLoop c w 0 0))
    as (fuel & evs & st' & Hrun).
  exists fuel. unfold Crawler.crawl. rewrite Hrun. eauto.
Qed.

(** What [crawl] returns, in terms of the run of its loop. *)
Lemma crawl_inv (fuel : nat) (c c' : Crawler.WebCrawler) (w w' : World)
    (results : list Crawler.PageData) :
  Crawler.crawl fuel c w = Some (results, c', w') ->
  exists evs st',
    Crawler.crawl_loop fuel (Crawler.mkLoop c w 0 0) = Some (evs, st')
    /\ results = Crawler.crawled_data c'
    /\ c' = Crawler.self st'
    /\ run_facts (Crawler.mkLoop c w 0 0) evs st'.
Proof.
  unfold Crawler.crawl. intros Hc.
  destruct (Crawler.crawl_loop fuel _) as [[evs st']|] eqn:Er; [|discriminate].
  injection Hc as <- <- <-. exists evs, st'.
  do 3 (split; [reflexivity|]). now apply (crawl_loop_facts fuel).
Qed.

Lemma streak_nonneg (pages : list Crawler.PageData) :
  forall k, 0 <= k -> 0 <= streak k pages.
Proof.
  induction pages as [|p pages IH]; intros k Hk; cbn; [exact Hk|].
  apply IH. destruct (Crawler.has_error p); lia.
Qed.

Lemma streak_failures (pages : list Crawler.PageData) :
  forall k, Forall (fun p => Crawler.has_error p = true) pages ->
            streak k pages = k + Crawler.len pages.
Proof.
  unfold Crawler.len.
  induction pages as [|p pages IH]; intros k Hall; cbn [streak length];
    [lia|].
  inversion Hall as [|? ? Hp Hrest]; subst. rewrite Hp, IH by assumption. lia.
Qed.

(** Among pages whose errors are never empty, "error set" is the test the
    loop makes. *)
Lemma has_error_iff_set (p : Crawler.PageData) :
  Crawler.error p <> Some "" ->
  (Crawler.has_error p = true <-> Crawler.error p <> None).
Proof.
  unfold Crawler.has_error. intros Hne.
  destruct (Crawler.error p) as [msg|]; [|split; [discriminate|congruence]].
  split; [discriminate|]. intros _. apply truthy_nonempty. congruence.
Qed.

(** A run keeps the result list free of empty error strings, so the
    summary's premise holds in every state reached by crawling. *)
Lemma crawl_keeps_errors_nonempty (fuel : nat) (c c' : Crawler.WebCrawler)
    (w w' : World) (results : list Crawler.PageData) :
  errors_nonempty (Crawler.crawled_data c) ->
  Crawler.crawl fuel c w = Some (results, c', w') ->
  errors_nonempty (Crawler.crawled_data c').
Proof.
  intros Hne Hc.
  destruct (crawl_inv fuel c c' w w' results Hc)
    as (evs & st' & _ & _ & -> & Hf).
  destruct Hf as (E1 & _ & _ & _ & _ & _ & _ & _ & _ & _ & _ & E12).
  cbn in E1. rewrite E1. unfold errors_nonempty in *.
  apply Forall_app. split; assumption.
Qed.

(** C1.  [crawl] returns.  The page records it appends have pairwise
    distinct URLs, none of which was in the visited set when the run began
    and all of which are in it when the run ends; so no URL that the run
    fetches is fetched twice, however often it was enqueued.  A dequeued URL
    that is already visited is dropped and nothing but the queue changes
    (no fetch: the world is the same).  A dequeued URL that passes both
    tests is in the visited set after the pass whether the fetch produced
    a record or was cancelled: it is marked before it is fetched. *)
Theorem C1_no_url_fetched_twice (c : Crawler.WebCrawler) (w : World) :
  (exists fuel results c' w', Crawler.crawl fuel c w = Some (results, c', w'))
  /\ (forall fuel results c' w',
        Crawler.crawl fuel c w = Some (results, c', w') ->
        exists new,
          results = Crawler.crawled_data c ++ new
          /\ NoDup (map Crawler.url new)
          /\ (forall p, p ∈ new ->
                (Crawler.url p ∉ Crawler.visited_urls c)
                /\ Crawler.url p ∈ Crawler.visited_urls c'))
  /\ (forall (st : Crawler.Loop) u d rest,
        Crawler.url_queue (Crawler.self st) = (u, d) :: rest ->
        u ∈ Crawler.visited_urls (Crawler.self st) ->
        Crawler.loop_body st
        = (Crawler.SkippedVisited u d, true,
           Crawler.mkLoop (Crawler.with_url_queue (Crawler.self st) rest)
             (Crawler.world st) (Crawler.pages_crawled st)
             (Crawler.consecutive_failures st)))
  /\ (forall (st st' : Crawler.Loop) u d rest ev continue,
        Crawler.url_queue (Crawler.self st) = (u, d) :: rest ->
        u ∉ Crawler.visited_urls (Crawler.self st) ->
        d <= Crawler.max_depth (Crawler.self st) ->
        Crawler.loop_body st = (ev, continue, st') ->
        u ∈ Crawler.visited_urls (Crawler.self st')
        /\ (ev = Crawler.Cancelled u d
            /\ Crawler.crawled_data (Crawler.self st')
               = Crawler.crawled_data (Crawler.self st)
            \/ exists page,
                ev = Crawler.Crawled u d page /\ Crawler.url page = u
                /\ Crawler.crawled_data (Crawler.self st')
                   = Crawler.crawled_data (Crawler.self st) ++ [page])).
Proof.
  split; [apply crawl_returns|]. split; [|split].
  - intros fuel results c' w' Hc.
    destruct (crawl_inv fuel c c' w w' results Hc)
      as (evs & st' & _ & -> & -> & Hf).
    destruct Hf as (E1 & E2 & E3 & E4 & _). cbn in E1, E4.
    exists (crawled_pages evs). split; [exact E1|].
    split; [rewrite E2; exact E3|].
    intros p Hp. apply E4. rewrite <- E2.
    apply list_elem_of_fmap. now exists p.
  - intros st u d rest Hq Hv.
    destruct (loop_body_cases st u d rest Hq)
      as [(_ & Hb)|[(Hn & _)|[(Hn & _)|(Hn & _)]]]; [exact Hb| | |];
      contradiction.
  - intros st st' u d rest ev continue Hq Hv Hd Hb.
    destruct (loop_body_cases st u d rest Hq)
      as [(Hn & _)|[(_ & Hlt & _)|[(_ & _ & st1 & Hb1 & Hvis & Hdata & _)
          |(_ & _ & page & cont1 & st1 & Hb1 & Hurl & _ & Hvis & Hdata & _)]]];
      [contradiction | lia | |];
      rewrite Hb1 in Hb; injection Hb as <- <- <-.
    + split; [set_solver|]. left. auto.
    + split; [set_solver|]. right. exists page. auto.
Qed.

(** C2.  The loop returns, and every page record a run appends belongs to
    a dequeued entry whose depth is at most [max_depth].  A dequeued entry
    whose depth exceeds [max_depth] is dropped with [continue] and nothing
    but the queue changes: same visited set, same result list, same world,
    same counters. *)
Theorem C2_depth_limit_at_dequeue (st : Crawler.Loop) :
  (exists fuel evs st', Crawler.crawl_loop fuel st = Some (evs, st'))
  /\ (forall fuel evs st',
        Crawler.crawl_loop fuel st = Some (evs, st') ->
        Crawler.crawled_data (Crawler.self st')
        = Crawler.crawled_data (Crawler.self st) ++ crawled_pages evs
        /\ map Crawler.url (crawled_pages evs) = map fst (crawled_entries evs)
        /\ length (crawled_pages evs) = length (crawled_entries evs)
        /\ Forall (fun entry => snd entry <= Crawler.max_depth (Crawler.self st))
             (crawled_entries evs))
  /\ (forall u d rest,
        Crawler.url_queue (Crawler.self st) = (u, d) :: rest ->
        Crawler.max_depth (Crawler.self st) < d ->
        exists ev,
          Crawler.loop_body st
          = (ev, true,
             Crawler.mkLoop (Crawler.with_url_queue (Crawler.self st) rest)
               (Crawler.world st) (Crawler.pages_crawled st)
               (Crawler.consecutive_failures st))
          /\ (ev = Crawler.SkippedVisited u d \/ ev = Crawler.SkippedDepth u d)
          /\ crawled_pages [ev] = []).
Proof.
  split; [apply crawl_loop_terminates|]. split.
  - intros fuel evs st' Hrun.
    destruct (crawl_loop_facts fuel st evs st' Hrun)
      as (E1 & E2 & _ & _ & _ & _ & _ & E8 & _).
    repeat split; auto.
    rewrite <- (length_map Crawler.url), E2. apply length_map.
  - intros u d rest Hq Hd.
    destruct (loop_body_cases st u d rest Hq)
      as [(_ & Hb)|[(_ & _ & Hb)|[(_ & Hle & _)|(_ & Hle & _)]]];
      try lia; eexists; (split; [exact Hb|]); auto.
Qed.

(** C3.  [crawl] returns a result list, and in what it appends a block of
    ten consecutive records with their error set is never followed by
    another record: the loop is left at the tenth, whatever the frontier
    and the page budget.  In one pass, a record without error resets the
    counter to zero and the loop goes on; a record with an error adds one
    to the counter, and the loop is left, the record kept and the rest of
    the frontier untouched, exactly when the counter reaches 10. *)
Theorem C3_ten_consecutive_failures_stop_the_loop
    (c : Crawler.WebCrawler) (w : World) :
  (exists fuel results c' w', Crawler.crawl fuel c w = Some (results, c', w'))
  /\ (forall fuel results c' w',
        Crawler.crawl fuel c w = Some (results, c', w') ->
        exists new,
          results = Crawler.crawled_data c ++ new
          /\ forall before block after,
               new = before ++ block ++ after ->
               length block = 10%nat ->
               Forall (fun p => Crawler.error p <> None) block ->
               after = [])
  /\ (forall (st st' : Crawler.Loop) u d rest page continue,
        Crawler.url_queue (Crawler.self st) = (u, d) :: rest ->
        Crawler.loop_body st = (Crawler.Crawled u d page, continue, st') ->
        (Crawler.error page = None ->
         Crawler.consecutive_failures st' = 0 /\ continue = true)
        /\ (Crawler.error page <> None ->
            Crawler.consecutive_failures st'
            = Crawler.consecutive_failures st + 1
            /\ (continue = false <-> 10 <= Crawler.consecutive_failures st + 1)
            /\ Crawler.crawled_data (Crawler.self st')
               = Crawler.crawled_data (Crawler.self st) ++ [page]
            /\ Crawler.url_queue (Crawler.self st') = rest)
        /\ (continue = false ->
            forall fuel, Crawler.loop_cond st = true ->
              Crawler.crawl_loop (S fuel) st
              = Some ([Crawler.Crawled u d page], st'))).
Proof.
  split; [apply crawl_returns|]. split.
  - intros fuel results c' w' Hc.
    destruct (crawl_inv fuel c c' w w' results Hc)
      as (evs & st' & _ & -> & -> & Hf).
    destruct Hf as (E1 & _ & _ & _ & _ & _ & _ & _ & _ & _ & E11 & E12).
    cbn in E1, E11. exists (crawled_pages evs). split; [exact E1|].
    intros before block after Hnew Hlen Hall.
    destruct after as [|a after]; [reflexivity|]. exfalso.
    assert (block <> []) as Hne by (intros ->; discriminate).
    rewrite (app_removelast_last a Hne) in Hnew.
    rewrite <- !app_assoc in Hnew. cbn [app] in Hnew.
    rewrite app_assoc in Hnew.
    specialize (E11 _ _ _ Hnew ltac:(discriminate)).
    rewrite <- app_assoc, <- app_removelast_last in E11 by assumption.
    assert (Forall (fun p => Crawler.has_error p = true) block) as Herr.
    { rewrite Forall_forall in Hall |- *. intros p Hp.
      apply has_error_iff_set; [|now apply Hall].
      unfold errors_nonempty in E12. rewrite Forall_forall in E12.
      apply E12. rewrite Hnew. rewrite (app_removelast_last a Hne) in Hp.
      set_solver. }
    rewrite streak_app, (streak_failures block) in E11 by assumption.
    pose proof (streak_nonneg before 0 ltac:(lia)) as Hk.
    unfold Crawler.len in E11. lia.
  - intros st st' u d rest page continue Hq Hb.
    destruct (loop_body_cases st u d rest Hq)
      as [(_ & Hb1)|[(_ & _ & Hb1)|[(_ & _ & st1 & Hb1 & _)
          |(_ & _ & page1 & cont1 & st1 & Hb1 & _ & Herr & _ & Hdata & _ & _
            & _ & Hcf & Hcont & Hqu)]]];
      rewrite Hb1 in Hb; try discriminate.
    injection Hb as <- <- <-. cbn [streak] in Hcf.
    pose proof (has_error_iff_set page1 Herr) as Hset.
    split; [|split].
    + intros Hnone.
      destruct (Crawler.has_error page1) eqn:E; [|auto].
      destruct Hset as [Hs _]. now specialize (Hs eq_refl).
    + intros Hsome. apply Hset in Hsome. rewrite Hsome in *.
      rewrite app_nil_r in Hqu. cbn [andb] in Hcont.
      split; [exact Hcf|]. split; [|auto].
      rewrite Hcont, negb_false_iff. apply Z.leb_le.
    + intros Hstop fuel Hcond. cbn [Crawler.crawl_loop].
      rewrite Hcond, Hb1, Hstop. reflexivity.
Qed.

End Crawl.

(** ** The loop on concrete sites *)

(** The end-to-end scenario: seed A linking to B and C, depth limit 1,
    budget 10.  The run yields the records of A, B and C in that order and
    leaves the frontier empty. *)
Example scenario_run :
  exists results c' w',
    @Crawler.crawl _ _ (Fixtures.site_transport Fixtures.small_site) 20
      Fixtures.scenario_crawler 0%Q
    = Some (results, c', w')
    /\ map Crawler.url results
       = [Fixtures.url_a; Fixtures.url_b; Fixtures.url_c]
    /\ Crawler.url_queue c' = []
    /\ Crawler.visited_urls c'
       = {[ Fixtures.url_a; Fixtures.url_b; Fixtures.url_c ]}.
Proof.
  eexists. eexists. eexists. split; [vm_compute; reflexivity|].
  split; [reflexivity|]. split; [reflexivity|]. vm_compute. reflexivity.
Qed.

(** On the scenario every appended record has its own URL. *)
Lemma C1_witness_scenario :
  match
    @Crawler.crawl _ _ (Fixtures.site_transport Fixtures.small_site) 20
      Fixtures.scenario_crawler 0%Q
  with
  | Some (results, c', _) =>
      exists new,
        results = (Crawler.crawled_data Fixtures.scenario_crawler ++ new)%list
        /\ NoDup (map Crawler.url new)
        /\ (forall p, p ∈ new ->
              (Crawler.url p ∉ Crawler.visited_urls Fixtures.scenario_crawler)
              /\ Crawler.url p ∈ Crawler.visited_urls c')
  | None => False
  end.
Proof.
  destruct (@Crawler.crawl _ _ (Fixtures.site_transport Fixtures.small_site)
              20 Fixtures.scenario_crawler 0%Q)
    as [[[results c'] w']|] eqn:E.
  - exact (proj1 (proj2 (@C1_no_url_fetched_twice _ _
                           (Fixtures.site_transport Fixtures.small_site)
                           Fixtures.scenario_crawler 0%Q))
             20%nat results c' w' E).
  - vm_compute in E. discriminate.
Defined.

(** An entry at depth 2 under a depth limit of 1 is dropped; only the
    queue changes. *)
Lemma C2_witness_too_deep :
  exists ev,
    @Crawler.loop_body _ _ (Fixtures.site_transport Fixtures.small_site)
      Fixtures.too_deep_state
    = (ev, true,
       Crawler.mkLoop
         (Crawler.with_url_queue (Crawler.self Fixtures.too_deep_state)
            [(Fixtures.url_b, 1)])
         (Crawler.world Fixtures.too_deep_state)
         (Crawler.pages_crawled Fixtures.too_deep_state)
         (Crawler.consecutive_failures Fixtures.too_deep_state))
    /\ (ev = Crawler.SkippedVisited "https://example.com/deep" 2
        \/ ev = Crawler.SkippedDepth "https://example.com/deep" 2)
    /\ crawled_pages [ev] = [].
Proof.
  apply (proj2 (proj2 (@C2_depth_limit_at_dequeue _ _
                         (Fixtures.site_transport Fixtures.small_site)
                         Fixtures.too_deep_state))
           "https://example.com/deep" 2 [(Fixtures.url_b, 1)]).
  - reflexivity.
  - cbn. lia.
Defined.

(** The seed links to twelve pages that all fail: the run stops after the
    tenth failure with two entries still queued and 11 of 100 pages
    used. *)
Example broken_site_run :
  exists results c' w',
    @Crawler.crawl _ _ (Fixtures.site_transport Fixtures.broken_site) 50
      Fixtures.example_crawler 0%Q
    = Some (results, c', w')
    /\ length results = 11%nat
    /\ map Crawler.has_error results = false :: repeat true 10
    /\ map fst (Crawler.url_queue c')
       = ["https://example.com/p11"; "https://example.com/p12"]
    /\ Crawler.max_pages c' = 100.
Proof.
  eexists. eexists. eexists. split; [vm_compute; reflexivity|].
  repeat split; reflexivity.
Qed.

(** After nine failures in a row a tenth failing page ends the loop, with
    an entry still queued and the budget not used up. *)
Lemma C3_witness_tenth_failure :
  exists page st',
    @Crawler.loop_body _ _ (Fixtures.site_transport Fixtures.broken_site)
      Fixtures.nine_failures_state
    = (Crawler.Crawled "https://example.com/p10" 1 page, false, st')
    /\ Crawler.error page = Some "HTTP 500"
    /\ Crawler.consecutive_failures st' = 9 + 1
    /\ Crawler.url_queue (Crawler.self st') = [("https://example.com/p11", 1)]
    /\ Crawler.pages_crawled st' < Crawler.max_pages (Crawler.self st')
    /\ @Crawler.crawl_loop _ _ (Fixtures.site_transport Fixtures.broken_site)
         1 Fixtures.nine_failures_state
       = Some ([Crawler.Crawled "https://example.com/p10" 1 page], st').
Proof.
  destruct (@Crawler.loop_body _ _ (Fixtures.site_transport Fixtures.broken_site)
              Fixtures.nine_failures_state) as [[ev continue] st'] eqn:Eb.
  assert (exists page,
            ev = Crawler.Crawled "https://example.com/p10" 1 page
            /\ Crawler.error page = Some "HTTP 500" /\ continue = false
            /\ Crawler.pages_crawled st' < Crawler.max_pages (Crawler.self st'))
    as (page & -> & Herr & -> & Hbudget).
  { vm_compute in Eb. injection Eb as <- <- <-. eexists.
    split; [reflexivity|]. split; [reflexivity|]. split; [reflexivity|].
    reflexivity. }
  destruct (proj2 (proj2 (@C3_ten_consecutive_failures_stop_the_loop _ _
                            (Fixtures.site_transport Fixtures.broken_site)
                            Fixtures.example_crawler 0%Q))
              Fixtures.nine_failures_state st' "https://example.com/p10" 1
              [("https://example.com/p11", 1)] page false eq_refl Eb)
    as (_ & Hfail & Hstop).
  destruct Hfail as (Hcf & _ & _ & Hq); [rewrite Herr; discriminate|].
  exists page, st'.
  split; [reflexivity|]. split; [exact Herr|]. split; [exact Hcf|].
  split; [exact Hq|]. split; [exact Hbudget|].
  apply Hstop; reflexivity.
Defined.


(** * Further properties of the crawl loop *)

Section CrawlRuns.

Context `{Crawler.Transport}.

#[local] Open Scope list_scope.

(** Runs of the loop, by induction on their passes: a property of runs
    holds when it holds of the run that makes no pass, of a single pass
    that leaves the loop, and of a pass followed by a run. *)
Lemma crawl_run_ind
    (P : Crawler.Loop -> list Crawler.Event -> Crawler.Loop -> Prop) :
  (forall st, Crawler.loop_cond st = false -> P st [] st) ->
  (forall st u d rest ev st1,
      Crawler.url_queue (Crawler.self st) = (u, d) :: rest ->
      Crawler.pages_crawled st < Crawler.max_pages (Crawler.self st) ->
      Crawler.loop_body st = (ev, false, st1) -> P st [ev] st1) ->
  (forall st u d rest ev st1 evs st',
      Crawler.url_queue (Crawler.self st) = (u, d) :: rest ->
      Crawler.pages_crawled st < Crawler.max_pages (Crawler.self st) ->
      Crawler.loop_body st = (ev, true, st1) ->
      P st1 evs st' -> P st (ev :: evs) st') ->
  forall fuel st evs st',
    Crawler.crawl_loop fuel st = Some (evs, st') -> P st evs st'.
Proof.
  intros Hnil Hstop Hstep.
  induction fuel as [|fuel IH]; intros st evs st' Hrun;
    cbn [Crawler.crawl_loop] in Hrun;
    destruct (Crawler.loop_cond st) eqn:Ec; cbn [negb] in Hrun;
    try discriminate;
    try (injection Hrun as <- <-; now apply Hnil).
  unfold Crawler.loop_cond in Ec.
  destruct (Crawler.url_queue (Crawler.self st)) as [|[u d] rest] eqn:Eq;
    [discriminate|].
  apply Z.ltb_lt in Ec.
  destruct (Crawler.loop_body st) as [[ev continue] st1] eqn:Eb.
  destruct continue.
  - destruct (Crawler.crawl_loop fuel st1) as [[evs' st'']|] eqn:Er;
      [|discriminate].
    injection Hrun as <- <-. eapply Hstep; eauto.
  - injection Hrun as <- <-. eapply Hstop; eauto.
Qed.

(** X1.  The page budget: a run of the loop never takes the page counter
    past [max_pages] (or past where it started), and a call of [crawl],
    which starts the counter at zero, appends at most [max_pages]
    records. *)
Theorem X1_run_appends_at_most_max_pages (c : Crawler.WebCrawler) (w : World) :
  (exists fuel results c' w', Crawler.crawl fuel c w = Some (results, c', w'))
  /\ (forall fuel results c' w',
        Crawler.crawl fuel c w = Some (results, c', w') ->
        exists new,
          results = Crawler.crawled_data c ++ new
          /\ Crawler.len new <= Z.max 0 (Crawler.max_pages c))
  /\ (forall fuel st evs st',
        Crawler.crawl_loop fuel st = Some (evs, st') ->
        Crawler.pages_crawled st'
        <= Z.max (Crawler.pages_crawled st) (Crawler.max_pages (Crawler.self st))).
Proof.
  assert (forall fuel st evs st',
            Crawler.crawl_loop fuel st = Some (evs, st') ->
            Crawler.pages_crawled st'
            <= Z.max (Crawler.pages_crawled st)
                 (Crawler.max_pages (Crawler.self st))) as Hbound.
  { apply (crawl_run_ind
             (fun st _ st' =>
                Crawler.pages_crawled st'
                <= Z.max (Crawler.pages_crawled st)
                     (Crawler.max_pages (Crawler.self st)))).
    - intros st _. lia.
    - intros st u d rest ev st1 Hq Hlt Hb.
      destruct (loop_body_cases st u d rest Hq)
        as [(_ & Hb1)|[(_ & _ & Hb1)|[(_ & _ & s1 & Hb1 & _ & _ & _ & _ & _
            & Hpc & _)|(_ & _ & page & cont & s1 & Hb1 & _ & _ & _ & _ & _
            & _ & Hpc & _)]]];
        rewrite Hb1 in Hb; try discriminate; inversion Hb; subst; cbn; lia.
    - intros st u d rest ev st1 evs st' Hq Hlt Hb IH.
      destruct (loop_body_cases st u d rest Hq)
        as [(_ & Hb1)|[(_ & _ & Hb1)|[(_ & _ & s1 & Hb1 & _ & _ & _ & _ & Hmp
            & Hpc & _)|(_ & _ & page & cont & s1 & Hb1 & _ & _ & _ & _ & _
            & Hmp & Hpc & _)]]];
        rewrite Hb1 in Hb; try discriminate; inversion Hb; subst;
        cbn in IH; try rewrite Hmp in IH; try rewrite Hpc in IH; lia. }
  split; [apply crawl_returns|]. split; [|exact Hbound].
  intros fuel results c' w' Hc.
  destruct (crawl_inv fuel c c' w w' results Hc)
    as (evs & st' & Hrun & -> & -> & Hf).
  destruct Hf as (E1 & _ & _ & _ & _ & _ & _ & _ & E9 & _).
  cbn in E1, E9. exists (crawled_pages evs). split; [exact E1|].
  apply Hbound in Hrun. cbn in Hrun. lia.
Qed.

(** *** Order and depth of the frontier *)

Lemma level_order_same (ls : list string) (d : Z) :
  level_order (map (fun link => (link, d)) ls).
Proof.
  induction ls as [|l ls IH]; cbn; [exact I|]. split; [|exact IH].
  apply Forall_forall. intros e He. apply list_elem_of_fmap in He as (x & -> & _).
  cbn. lia.
Qed.

(** Popping the head and appending entries one level below it keeps the
    frontier in level order. *)
Lemma level_order_pop_push (u : string) (d : Z) (rest : list (string * Z))
    (ls : list string) :
  level_order ((u, d) :: rest) ->
  level_order (rest ++ map (fun link => (link, d + 1)) ls).
Proof.
  cbn [level_order snd]. intros [Hhead Hrest].
  induction rest as [|e rest IH]; cbn [app]; [apply level_order_same|].
  apply Forall_cons_1 in Hhead as [He Hhead].
  cbn [level_order] in Hrest |- *. destruct Hrest as [Hall Hrest].
  split; [|now apply IH].
  apply Forall_app. split; [exact Hall|].
  apply Forall_forall. intros e' He'.
  apply list_elem_of_fmap in He' as (x & -> & _). cbn. lia.
Qed.

Lemma level_order_discovered (c : Crawler.WebCrawler) (u : string) (d : Z)
    (rest : list (string * Z)) (page : Crawler.PageData) (failed : bool) :
  level_order ((u, d) :: rest) ->
  level_order (rest ++ (if failed then [] else discovered c u d page))
  /\ Forall (fun e => d <= snd e)
       (rest ++ (if failed then [] else discovered c u d page)).
Proof.
  intros Hlo.
  assert (forall ls,
            Forall (fun e => d <= snd e)
              (rest ++ map (fun link => (link, d + 1)) ls)) as Hge.
  { intros ls. apply Forall_app. split.
    - destruct Hlo as [Hhead _]. eapply Forall_impl; [exact Hhead|].
      cbn. intros; lia.
    - apply Forall_forall. intros e He.
      apply list_elem_of_fmap in He as (x & -> & _). cbn. lia. }
  unfold discovered.
  destruct failed; [|destruct (d <? Crawler.max_depth c)].
  - split; [apply (level_order_pop_push u d rest []), Hlo | apply (Hge [])].
  - split; [now apply (level_order_pop_push u) | apply Hge].
  - split; [apply (level_order_pop_push u d rest []), Hlo | apply (Hge [])].
Qed.

(** The facts X2 is read from: the frontier stays in level order, the
    fetched entries come in non-decreasing depth, and nothing fetched or
    left queued lies above a level that bounded the frontier from above. *)
Lemma level_order_run (fuel : nat) :
  forall st evs st',
    Crawler.crawl_loop fuel st = Some (evs, st') ->
    level_order (Crawler.url_queue (Crawler.self st)) ->
    level_order (Crawler.url_queue (Crawler.self st'))
    /\ nondecreasing (map snd (crawled_entries evs))
    /\ (forall lo,
          Forall (fun e => lo <= snd e) (Crawler.url_queue (Crawler.self st)) ->
          Forall (fun e => lo <= snd e) (crawled_entries evs)
          /\ Forall (fun e => lo <= snd e)
               (Crawler.url_queue (Crawler.self st'))).
Proof.
  apply (crawl_run_ind
           (fun st evs st' =>
              level_order (Crawler.url_queue (Crawler.self st)) ->
              level_order (Crawler.url_queue (Crawler.self st'))
              /\ nondecreasing (map snd (crawled_entries evs))
              /\ (forall lo,
                    Forall (fun e => lo <= snd e)
                      (Crawler.url_queue (Crawler.self st)) ->
                    Forall (fun e => lo <= snd e) (crawled_entries evs)
                    /\ Forall (fun e => lo <= snd e)
                         (Crawler.url_queue (Crawler.self st'))))).
  - intros st _ Hlo. cbn. repeat split; auto.
  - intros st u d rest ev st1 Hq _ Hb Hlo. rewrite Hq in *.
    destruct (loop_body_cases st u d rest Hq)
      as [(_ & Hb1)|[(_ & _ & Hb1)|[(_ & _ & s1 & Hb1 & _ & _ & Hqu & _)
          |(_ & _ & page & cont & s1 & Hb1 & _ & _ & _ & _ & _ & _ & _ & _
            & _ & Hqu)]]];
      rewrite Hb1 in Hb; try discriminate; inversion Hb; subst ev st1; clear Hb;
      rewrite Hqu.
    + cbn. split; [apply Hlo|]. split; [exact I|].
      intros lo Hall. apply Forall_cons_1 in Hall as [_ Hall]. auto.
    + destruct (level_order_discovered (Crawler.self st) u d rest page
                  (Crawler.has_error page) Hlo) as [Hlo1 Hge].
      cbn. split; [exact Hlo1|]. split; [split; [constructor | exact I]|].
      intros lo Hall. apply Forall_cons_1 in Hall as [Hd Hall]. cbn in Hd.
      split; [constructor; [exact Hd | constructor]|].
      eapply Forall_impl; [exact Hge|]. cbn. intros; lia.
  - intros st u d rest ev st1 evs st' Hq _ Hb IH Hlo. rewrite Hq in *.
    destruct (loop_body_cases st u d rest Hq)
      as [(_ & Hb1)|[(_ & _ & Hb1)|[(_ & _ & s1 & Hb1 & _)
          |(_ & _ & page & cont & s1 & Hb1 & _ & _ & _ & _ & _ & _ & _ & _
            & _ & Hqu)]]];
      rewrite Hb1 in Hb; try discriminate; inversion Hb; subst ev st1; clear Hb.
    + cbn in IH. destruct (IH (proj2 Hlo)) as (I1 & I2 & I3).
      split; [exact I1|]. split; [exact I2|].
      intros lo Hall. apply Forall_cons_1 in Hall as [_ Hall]. auto.
    + cbn in IH. destruct (IH (proj2 Hlo)) as (I1 & I2 & I3).
      split; [exact I1|]. split; [exact I2|].
      intros lo Hall. apply Forall_cons_1 in Hall as [_ Hall]. auto.
    + rewrite Hqu in IH.
      destruct (level_order_discovered (Crawler.self st) u d rest page
                  (Crawler.has_error page) Hlo) as [Hlo1 Hge].
      destruct (IH Hlo1) as (I1 & I2 & I3).
      split; [exact I1|]. cbn [crawled_entries map snd nondecreasing].
      split.
      * split; [|exact I2]. destruct (I3 d Hge) as [Hent _].
        apply Forall_forall. intros x Hx.
        apply list_elem_of_fmap in Hx as (e & -> & He).
        rewrite Forall_forall in Hent. now apply Hent.
      * intros lo Hall. apply Forall_cons_1 in Hall as [Hd Hall]. cbn in Hd.
        assert (Forall (fun e => lo <= snd e)
                  (rest ++ (if Crawler.has_error page then []
                            else discovered (Crawler.self st) u d page)))
          as Hlo2.
        { eapply Forall_impl; [exact Hge|]. cbn. intros; lia. }
        destruct (I3 lo Hlo2) as [J1 J2].
        split; [constructor; [exact Hd | exact J1] | exact J2].
Qed.

(** X2.  Breadth-first order.  When the frontier starts in level order, as
    the constructor leaves it, the depths of the fetched entries never
    decrease along a run, and the frontier is in level order when the run
    ends. *)
Theorem X2_pages_are_fetched_in_level_order (st : Crawler.Loop) :
  level_order (Crawler.url_queue (Crawler.self st)) ->
  (exists fuel evs st', Crawler.crawl_loop fuel st = Some (evs, st'))
  /\ forall fuel evs st',
       Crawler.crawl_loop fuel st = Some (evs, st') ->
       nondecreasing (map snd (crawled_entries evs))
       /\ level_order (Crawler.url_queue (Crawler.self st')).
Proof.
  intros Hlo. split; [apply crawl_loop_terminates|].
  intros fuel evs st' Hrun.
  destruct (level_order_run fuel st evs st' Hrun Hlo) as (I1 & I2 & _).
  auto.
Qed.

(** X3.  When no queued entry is deeper than [max_depth], which holds for
    the seed at depth 0 and a non-negative limit, a run never drops an
    entry for its depth and never queues one deeper than the limit: links
    are enqueued one level down only from pages above the limit. *)
Theorem X3_frontier_stays_within_depth_limit (st : Crawler.Loop) :
  Forall (fun e => snd e <= Crawler.max_depth (Crawler.self st))
    (Crawler.url_queue (Crawler.self st)) ->
  (exists fuel evs st', Crawler.crawl_loop fuel st = Some (evs, st'))
  /\ forall fuel evs st',
       Crawler.crawl_loop fuel st = Some (evs, st') ->
       depth_skips evs = []
       /\ Forall (fun e => snd e <= Crawler.max_depth (Crawler.self st))
            (Crawler.url_queue (Crawler.self st')).
Proof.
  intros Hin. split; [apply crawl_loop_terminates|].
  intros fuel evs st' Hrun. revert Hin.
  revert fuel st evs st' Hrun.
  apply (crawl_run_ind
           (fun st evs st' =>
              Forall (fun e => snd e <= Crawler.max_depth (Crawler.self st))
                (Crawler.url_queue (Crawler.self st)) ->
              depth_skips evs = []
              /\ Forall (fun e => snd e <= Crawler.max_depth (Crawler.self st))
                   (Crawler.url_queue (Crawler.self st')))).
  - intros st _ Hin. auto.
  - intros st u d rest ev st1 Hq _ Hb Hin. rewrite Hq in Hin.
    apply Forall_cons_1 in Hin as [Hd Hin]. cbn in Hd.
    destruct (loop_body_cases st u d rest Hq)
      as [(_ & Hb1)|[(_ & _ & Hb1)|[(_ & _ & s1 & Hb1 & _ & _ & Hqu & _)
          |(_ & _ & page & cont & s1 & Hb1 & _ & _ & _ & _ & _ & _ & _ & _
            & _ & Hqu)]]];
      rewrite Hb1 in Hb; try discriminate; inversion Hb; subst ev st1; clear Hb;
      rewrite Hqu; cbn; (split; [reflexivity|]); [exact Hin|].
    apply Forall_app. split; [exact Hin|].
    destruct (Crawler.has_error page); [constructor|].
    unfold discovered.
    destruct (d <? Crawler.max_depth (Crawler.self st)) eqn:E;
      [|constructor].
    apply Z.ltb_lt in E. apply Forall_forall. intros e He.
    apply list_elem_of_fmap in He as (x & -> & _). cbn. lia.
  - intros st u d rest ev st1 evs st' Hq _ Hb IH Hin. rewrite Hq in Hin.
    apply Forall_cons_1 in Hin as [Hd Hin]. cbn in Hd.
    destruct (loop_body_cases st u d rest Hq)
      as [(_ & Hb1)|[(_ & Hlt & Hb1)|[(_ & _ & s1 & Hb1 & _)
          |(_ & _ & page & cont & s1 & Hb1 & _ & _ & _ & _ & Hmd & _ & _ & _
            & _ & Hqu)]]];
      rewrite Hb1 in Hb; try discriminate; inversion Hb; subst ev st1; clear Hb;
      try lia.
    + cbn in IH |- *. apply IH, Hin.
    + rewrite Hqu, Hmd in IH. cbn [depth_skips]. apply IH.
      apply Forall_app. split; [exact Hin|].
      destruct (Crawler.has_error page); [constructor|].
      unfold discovered.
      destruct (d <? Crawler.max_depth (Crawler.self st)) eqn:E;
        [|constructor].
      apply Z.ltb_lt in E. apply Forall_forall. intros e He.
      apply list_elem_of_fmap in He as (x & -> & _). cbn. lia.
Qed.

(** *** Rate-limit escalation of the base delay *)

Lemma adaptive_delay_keeps_base (dm : AntiDetection.DelayManager)
    (rt : option Q) :
  AntiDetection.base_delay (snd (AntiDetection._calculate_adaptive_delay dm rt))
  = AntiDetection.base_delay dm.
Proof.
  unfold AntiDetection._calculate_adaptive_delay.
  destruct (match rt with Some _ => _ | None => _ end); [reflexivity|].
  cbn. destruct (Qltb 3 _); [reflexivity|]. now destruct (Qltb 1 _).
Qed.

Lemma target_delay_keeps_base (dm : AntiDetection.DelayManager)
    (rt : option Q) (w : World) :
  AntiDetection.base_delay (snd (fst (AntiDetection.target_delay dm rt w)))
  = AntiDetection.base_delay dm.
Proof.
  unfold AntiDetection.target_delay.
  destruct (String.eqb _ "fixed"); [reflexivity|].
  destruct (String.eqb _ "random"); [now destruct (random_uniform _ _ _)|].
  destruct (String.eqb _ "exponential"); [reflexivity|].
  destruct (String.eqb _ "adaptive"); [|reflexivity].
  pose proof (adaptive_delay_keeps_base dm rt) as Hk.
  now destruct (AntiDetection._calculate_adaptive_delay dm rt).
Qed.

(** [wait], whatever the strategy, leaves the base delay alone. *)
Lemma wait_keeps_base (dm : AntiDetection.DelayManager) (rt : option Q)
    (w : World) :
  AntiDetection.base_delay (fst (AntiDetection.wait dm rt w))
  = AntiDetection.base_delay dm.
Proof.
  destruct (wait_fields dm rt w) as (Hb & _). cbv zeta in Hb.
  rewrite Hb. apply target_delay_keeps_base.
Qed.

Lemma crawl_page_keeps_base (c : Crawler.WebCrawler) (u : string) (w : World) :
  AntiDetection.base_delay
    (Crawler.delay_manager (snd (fst (Crawler.crawl_page c u w))))
  = AntiDetection.base_delay (Crawler.delay_manager c).
Proof.
  unfold Crawler.crawl_page.
  destruct (time_time w) as [start_time w1].
  destruct (Crawler.fetch_page u w1) as [attempt w2].
  pose proof (wait_keeps_base
                (Crawler.delay_manager
                   (Crawler.with_request_count c (Crawler._request_count c + 1)))
                (Crawler.truthy_time
                   match attempt with
                   | Crawler.Completed f => Crawler.f_response_time f
                   | Crawler.Interrupted rt => rt
                   end) w2) as Hw.
  destruct (AntiDetection.wait _ _ w2) as [dm w3]. cbn in Hw.
  destruct attempt; cbn; exact Hw.
Qed.

(** One pass multiplies the base delay by 1.5 exactly when it appended a
    record with status 429 and did not leave the loop. *)
Lemma loop_body_base_delay (st : Crawler.Loop) :
  let r := Crawler.loop_body st in
  let base := AntiDetection.base_delay (Crawler.delay_manager (Crawler.self st)) in
  AntiDetection.base_delay (Crawler.delay_manager (Crawler.self (snd r)))
  = match fst (fst r) with
    | Crawler.Crawled _ _ page =>
        if snd (fst r) && rate_limited page then (base * (3 # 2))%Q else base
    | _ => base
    end.
Proof.
  cbv zeta. unfold Crawler.loop_body.
  destruct (Crawler.url_queue (Crawler.self st)) as [|[u d] rest];
    [reflexivity|].
  destruct (decide _); [reflexivity|].
  destruct (_ <? d); [reflexivity|].
  set (c2 := Crawler.with_visited_urls _ _).
  pose proof (crawl_page_keeps_base c2 u (Crawler.world st)) as Hk.
  destruct (Crawler.crawl_page c2 u (Crawler.world st)) as [[r c3] w3].
  cbn [fst snd] in Hk. subst c2. cbn in Hk.
  destruct r as [page|]; [|cbn; exact Hk].
  unfold Crawler.handle_rate_limit, rate_limited.
  destruct (Crawler.has_error page);
    [destruct (Crawler.max_consecutive_failures <=? _); [cbn; exact Hk|]|];
    cbn [fst snd Crawler.self andb];
    destruct (Crawler.status_code page) as [code|];
    try destruct (code =? 429);
    try destruct (_ && _);
    cbn; rewrite ?Hk; reflexivity.
Qed.

Lemma escalated_succ_r (base : Q) (k : nat) :
  escalated (base * (3 # 2)) k = escalated base (S k).
Proof. unfold escalated. now rewrite Nat.iter_succ_r. Qed.

Lemma escalation_step_grows (x : Q) : (0 <= x)%Q -> (x <= x * (3 # 2))%Q.
Proof.
  destruct x as [n d]. unfold Qle. cbn. rewrite Pos2Z.inj_mul. nia.
Qed.

Lemma escalated_grows (k : nat) (base : Q) :
  (0 <= base)%Q -> (base <= escalated base k)%Q.
Proof.
  intros Hb. induction k as [|k IH]; [apply Qle_refl|].
  change (escalated base (S k)) with (escalated base k * (3 # 2))%Q.
  apply Qle_trans with (1 := IH). apply escalation_step_grows.
  now apply Qle_trans with base.
Qed.

(** X4.  Rate-limit escalation.  Over a run the base delay of the delay
    manager is multiplied by 1.5 once for some of the appended records
    with status 429 (every such record except one that ends the loop) and
    is touched by nothing else: without a 429 record it is exactly what it
    was, and a non-negative base delay never shrinks. *)
Theorem X4_base_delay_escalates_only_on_429 (st : Crawler.Loop) :
  (exists fuel evs st', Crawler.crawl_loop fuel st = Some (evs, st'))
  /\ forall fuel evs st',
       Crawler.crawl_loop fuel st = Some (evs, st') ->
       let base :=
         AntiDetection.base_delay (Crawler.delay_manager (Crawler.self st)) in
       let base' :=
         AntiDetection.base_delay (Crawler.delay_manager (Crawler.self st')) in
       (exists k, (k <= rate_limit_count (crawled_pages evs))%nat
                  /\ base' = escalated base k)
       /\ (rate_limit_count (crawled_pages evs) = 0%nat -> base' = base)
       /\ ((0 <= base)%Q -> (base <= base')%Q).
Proof.
  split; [apply crawl_loop_terminates|].
  assert (forall fuel st evs st',
            Crawler.crawl_loop fuel st = Some (evs, st') ->
            exists k, (k <= rate_limit_count (crawled_pages evs))%nat
              /\ AntiDetection.base_delay
                   (Crawler.delay_manager (Crawler.self st'))
                 = escalated
                     (AntiDetection.base_delay
                        (Crawler.delay_manager (Crawler.self st))) k) as Hk.
  { apply (crawl_run_ind
             (fun st evs st' =>
                exists k, (k <= rate_limit_count (crawled_pages evs))%nat
                  /\ AntiDetection.base_delay
                       (Crawler.delay_manager (Crawler.self st'))
                     = escalated
                         (AntiDetection.base_delay
                            (Crawler.delay_manager (Crawler.self st))) k)).
    - intros s _. exists 0%nat. split; [lia | reflexivity].
    - intros s u d rest ev s1 _ _ Hb.
      pose proof (loop_body_base_delay s) as Hd. cbv zeta in Hd.
      rewrite Hb in Hd. cbn [fst snd andb] in Hd.
      exists 0%nat. split; [lia|]. rewrite Hd. now destruct ev.
    - intros s u d rest ev s1 evs s' _ _ Hb (k & Hle & IH).
      pose proof (loop_body_base_delay s) as Hd. cbv zeta in Hd.
      rewrite Hb in Hd. cbn [fst snd andb] in Hd. rewrite IH, Hd.
      destruct ev as [? ?|? ?|? ? page|? ?]; try (exists k; now split).
      unfold rate_limit_count in *. cbn [crawled_pages List.filter].
      destruct (rate_limited page); cbn [length].
      + exists (S k). split; [lia | apply escalated_succ_r].
      + exists k. now split. }
  intros fuel evs st' Hrun. cbv zeta.
  destruct (Hk fuel st evs st' Hrun) as (k & Hle & Heq).
  split; [now exists k|]. split.
  - intros Hzero. rewrite Heq. replace k with 0%nat by lia. reflexivity.
  - intros Hb. rewrite Heq. now apply escalated_grows.
Qed.

(** *** The visited set and the summary *)

(** The URLs a run adds to the visited set are those it fetched and the
    one, if any, whose fetch was interrupted; each is added once. *)
Lemma visited_run (fuel : nat) :
  forall st evs st',
    Crawler.crawl_loop fuel st = Some (evs, st') ->
    let added := map fst (crawled_entries evs) ++ cancelled_urls evs in
    Crawler.visited_urls (Crawler.self st')
    = Crawler.visited_urls (Crawler.self st) ∪ list_to_set added
    /\ NoDup added
    /\ Forall (fun u => u ∉ Crawler.visited_urls (Crawler.self st)) added
    /\ (length (cancelled_urls evs) <= 1)%nat.
Proof.
  apply (crawl_run_ind
           (fun st evs st' =>
              let added := map fst (crawled_entries evs) ++ cancelled_urls evs in
              Crawler.visited_urls (Crawler.self st')
              = Crawler.visited_urls (Crawler.self st) ∪ list_to_set added
              /\ NoDup added
              /\ Forall (fun u => u ∉ Crawler.visited_urls (Crawler.self st))
                   added
              /\ (length (cancelled_urls evs) <= 1)%nat)).
  - intros st _. cbn. repeat split; try constructor; try lia.
    apply set_eq. set_solver.
  - intros st u d rest ev st1 Hq _ Hb.
    destruct (loop_body_cases st u d rest Hq)
      as [(_ & Hb1)|[(_ & _ & Hb1)|[(Hv & _ & s1 & Hb1 & Hvis & _)
          |(Hv & _ & page & cont & s1 & Hb1 & _ & _ & Hvis & _)]]];
      rewrite Hb1 in Hb; try discriminate; inversion Hb; subst ev st1;
      clear Hb; cbn; rewrite Hvis;
      (split; [apply set_eq; set_solver|]);
      (split; [apply NoDup_singleton|]);
      (split; [repeat constructor; exact Hv | lia]).
  - intros st u d rest ev st1 evs st' Hq _ Hb IH. cbv zeta in IH |- *.
    destruct (loop_body_cases st u d rest Hq)
      as [(_ & Hb1)|[(_ & _ & Hb1)|[(_ & _ & s1 & Hb1 & _)
          |(Hv & _ & page & cont & s1 & Hb1 & _ & _ & Hvis & _)]]];
      rewrite Hb1 in Hb; try discriminate; inversion Hb; subst ev st1;
      clear Hb; try exact IH.
    destruct IH as (I1 & I2 & I3 & I4). rewrite Hvis in I1, I3.
    cbn [crawled_entries cancelled_urls map fst app].
    rewrite Forall_forall in I3.
    split; [rewrite I1; apply set_eq; set_solver|].
    split; [constructor; [|exact I2]; intros Hin; apply I3 in Hin; set_solver|].
    split; [|exact I4].
    constructor; [exact Hv|]. apply Forall_forall. intros x Hx.
    apply I3 in Hx. set_solver.
Qed.

(** X5.  For a crawler that starts with nothing visited and no results,
    the summary's [unique_urls_discovered] is the number of result records,
    plus one when a fetch was interrupted: the visited set holds exactly
    the URLs of the records and that of the interrupted fetch, not the
    links that were discovered. *)
Theorem X5_unique_urls_discovered_counts_fetches
    (c : Crawler.WebCrawler) (w : World) (fuel : nat)
    (evs : list Crawler.Event) (st' : Crawler.Loop)
    (summary : Crawler.Summary) :
  Crawler.visited_urls c = ∅ ->
  Crawler.crawled_data c = [] ->
  Crawler.crawl_loop fuel (Crawler.mkLoop c w 0 0) = Some (evs, st') ->
  Crawler.get_summary (Crawler.self st') = Ok summary ->
  Crawler.visited_urls (Crawler.self st')
  = list_to_set (map Crawler.url (Crawler.crawled_data (Crawler.self st'))
                 ++ cancelled_urls evs)
  /\ Crawler.unique_urls_discovered summary
     = Crawler.total_pages_crawled summary + Crawler.len (cancelled_urls evs)
  /\ (length (cancelled_urls evs) <= 1)%nat.
Proof.
  intros Hvis Hdata Hrun Hsum.
  destruct (visited_run fuel _ _ _ Hrun) as (V1 & V2 & _ & V4).
  destruct (crawl_loop_facts fuel _ _ _ Hrun) as (E1 & E2 & _).
  cbn in V1, E1. rewrite Hvis in V1. rewrite Hdata in E1. cbn in E1.
  assert (Crawler.visited_urls (Crawler.self st')
          = list_to_set (map Crawler.url (Crawler.crawled_data (Crawler.self st'))
                         ++ cancelled_urls evs)) as Hset.
  { rewrite V1, E1, E2. apply set_eq. set_solver. }
  split; [exact Hset|]. split; [|exact V4].
  unfold Crawler.get_summary in Hsum.
  destruct (Crawler.collect_domains _ _) as [domains|e]; [|discriminate].
  cbn [bind] in Hsum. injection Hsum as <-. cbn.
  rewrite Hset, E1, E2, size_list_to_set by exact V2.
  unfold Crawler.len. rewrite length_app, <- E2, !length_map. lia.
Qed.

Lemma filter_split_length {A} (f : A -> bool) (l : list A) :
  (length (List.filter f l) + length (List.filter (fun x => negb (f x)) l)
   = length l)%nat.
Proof.
  induction l as [|x l IH]; [reflexivity|]. cbn.
  destruct (f x); cbn; lia.
Qed.

Lemma filter_split_perm {A} (f : A -> bool) (l : list A) :
  List.filter f l ++ List.filter (fun x => negb (f x)) l ≡ₚ l.
Proof.
  induction l as [|x l IH]; [reflexivity|]. cbn.
  destruct (f x); cbn.
  - now rewrite IH.
  - rewrite <- Permutation_middle. now rewrite IH.
Qed.

(** X6.  The summary agrees with the two accessors: its counts of
    successful and failed pages are the lengths of what
    [get_successful_urls] and [get_failed_urls] return, the two add up to
    the total, and the two lists together are the result list, each record
    in exactly one of them. *)
Theorem X6_summary_counts_match_accessors
    (c : Crawler.WebCrawler) (summary : Crawler.Summary) :
  Crawler.get_summary c = Ok summary ->
  Crawler.successful_pages summary = Crawler.len (Crawler.get_successful_urls c)
  /\ Crawler.failed_pages summary = Crawler.len (Crawler.get_failed_urls c)
  /\ Crawler.total_pages_crawled summary
     = Crawler.successful_pages summary + Crawler.failed_pages summary
  /\ Crawler.get_failed_urls c ++ Crawler.get_successful_urls c
     ≡ₚ Crawler.crawled_data c
  /\ (forall p, p ∈ Crawler.get_failed_urls c ->
                p ∉ Crawler.get_successful_urls c).
Proof.
  intros Hsum. unfold Crawler.get_summary in Hsum.
  destruct (Crawler.collect_domains _ _) as [domains|e]; [|discriminate].
  cbn [bind] in Hsum. injection Hsum as <-. cbn.
  unfold Crawler.get_successful_urls, Crawler.get_failed_urls,
    Crawler.successful, Crawler.len.
  pose proof (filter_split_length Crawler.has_error (Crawler.crawled_data c)).
  split; [reflexivity|]. split; [lia|]. split; [lia|].
  split; [apply filter_split_perm|].
  intros p Hp Hq.
  apply list_elem_of_In, filter_In in Hp as [_ Hp].
  apply list_elem_of_In, filter_In in Hq as [_ Hq].
  rewrite Hp in Hq. discriminate.
Qed.

End CrawlRuns.

(** ** The further properties on the scenario *)

(** On the scenario the records come out at depths 0, 1, 1 and the
    frontier left behind is in level order. *)
Lemma X2_witness_scenario :
  match
    @Crawler.crawl_loop _ _ (Fixtures.site_transport Fixtures.small_site) 20
      Fixtures.scenario_state
  with
  | Some (evs, st') =>
      map snd (crawled_entries evs) = [0; 1; 1]
      /\ nondecreasing (map snd (crawled_entries evs))
      /\ level_order (Crawler.url_queue (Crawler.self st'))
  | None => False
  end.
Proof.
  destruct (@Crawler.crawl_loop _ _ (Fixtures.site_transport Fixtures.small_site)
              20 Fixtures.scenario_state) as [[evs st']|] eqn:E.
  - split.
    + vm_compute in E. injection E as <- _. reflexivity.
    + apply (proj2 (@X2_pages_are_fetched_in_level_order _ _
                      (Fixtures.site_transport Fixtures.small_site)
                      Fixtures.scenario_state
                      (conj (Forall_nil_2 _) I))
               20%nat evs st' E).
  - vm_compute in E. discriminate.
Defined.

(** On the scenario, whose seed sits at depth 0 under a limit of 1, no
    entry is dropped for its depth. *)
Lemma X3_witness_scenario :
  match
    @Crawler.crawl_loop _ _ (Fixtures.site_transport Fixtures.small_site) 20
      Fixtures.scenario_state
  with
  | Some (evs, st') =>
      depth_skips evs = []
      /\ Forall (fun e => snd e <= 1) (Crawler.url_queue (Crawler.self st'))
  | None => False
  end.
Proof.
  destruct (@Crawler.crawl_loop _ _ (Fixtures.site_transport Fixtures.small_site)
              20 Fixtures.scenario_state) as [[evs st']|] eqn:E.
  - apply (proj2 (@X3_frontier_stays_within_depth_limit _ _
                    (Fixtures.site_transport Fixtures.small_site)
                    Fixtures.scenario_state
                    ltac:(repeat constructor; cbn; lia))
             20%nat evs st' E).
  - vm_compute in E. discriminate.
Defined.

(** On the scenario three URLs were fetched, none interrupted, and the
    summary reports three unique URLs although a fourth was discovered. *)
Lemma X5_witness_scenario :
  match
    @Crawler.crawl_loop _ _ (Fixtures.site_transport Fixtures.small_site) 20
      Fixtures.scenario_state
  with
  | Some (evs, st') =>
      match Crawler.get_summary (Crawler.self st') with
      | Ok summary =>
          Crawler.unique_urls_discovered summary
          = Crawler.total_pages_crawled summary
            + Crawler.len (cancelled_urls evs)
          /\ Crawler.unique_urls_discovered summary = 3
      | Raise _ => False
      end
  | None => False
  end.
Proof.
  destruct (@Crawler.crawl_loop _ _ (Fixtures.site_transport Fixtures.small_site)
              20 Fixtures.scenario_state) as [[evs st']|] eqn:E.
  - destruct (Crawler.get_summary (Crawler.self st')) as [summary|e] eqn:Es.
    + split.
      * apply (@X5_unique_urls_discovered_counts_fetches _ _
                 (Fixtures.site_transport Fixtures.small_site)
                 Fixtures.scenario_crawler 0%Q 20%nat evs st' summary
                 eq_refl eq_refl E Es).
      * vm_compute in E. injection E as _ <-. vm_compute in Es.
        injection Es as <-. reflexivity.
    + vm_compute in E. injection E as _ <-. vm_compute in Es. discriminate.
  - vm_compute in E. discriminate.
Defined.

(** The records of the package's summary test: one success, one failure. *)
Lemma X6_witness_summary_test :
  exists summary,
    Crawler.get_summary
      (Crawler.with_crawled_data Fixtures.example_crawler Fixtures.summary_data)
    = Ok summary
    /\ Crawler.successful_pages summary
       = Crawler.len
           (Crawler.get_successful_urls
              (Crawler.with_crawled_data Fixtures.example_crawler
                 Fixtures.summary_data))
    /\ Crawler.failed_pages summary = 1.
Proof.
  eexists. split; [vm_compute; reflexivity|].
  split.
  - apply (X6_summary_counts_match_accessors
             (Crawler.with_crawled_data Fixtures.example_crawler
                Fixtures.summary_data)).
    vm_compute. reflexivity.
  - reflexivity.
Defined.

(** * Further properties of utils.py *)

(** ** Characters that a normalised URL cannot hold *)

Lemma contains_app (s t : string) (c : ascii) :
  PyStr.contains (s ++ t) c = PyStr.contains s c || PyStr.contains t c.
Proof.
  induction s as [|d s IH]; [reflexivity|].
  change (String d s ++ t) with (String d (s ++ t)).
  cbn [PyStr.contains]. rewrite IH. now rewrite orb_assoc.
Qed.

Lemma contains_drop_last (s : string) (c : ascii) :
  PyStr.contains s c = false -> PyStr.contains (PyStr.drop_last s) c = false.
Proof.
  induction s as [|d s IH]; [reflexivity|].
  cbn [PyStr.contains]. intros Hc. apply orb_false_iff in Hc as [Hd Hs].
  destruct s as [|e s]; [reflexivity|].
  change (PyStr.drop_last (String d (String e s)))
    with (String d (PyStr.drop_last (String e s))).
  cbn [PyStr.contains]. rewrite Hd. now apply IH.
Qed.

(** Both parts of [s.partition(d)] are parts of [s]. *)
Lemma partition_keeps_free (s : string) (c d : ascii) :
  PyStr.contains s c = false ->
  PyStr.contains (fst (PyStr.partition s d)) c = false
  /\ forall b, snd (PyStr.partition s d) = Some b -> PyStr.contains b c = false.
Proof.
  induction s as [|e s IH]; cbn [PyStr.partition PyStr.contains].
  - intros _. split; [reflexivity | discriminate].
  - intros Hc. apply orb_false_iff in Hc as [He Hs].
    destruct (Ascii.eqb d e).
    + split; [reflexivity|]. cbn. intros b [= <-]. exact Hs.
    + destruct (IH Hs) as [I1 I2].
      destruct (PyStr.partition s d) as [a b] eqn:Ep. cbn in *.
      rewrite He. auto.
Qed.

(** The text before the first [c] holds no [c]. *)
Lemma partition_fst_free (s : string) (c : ascii) :
  PyStr.contains (fst (PyStr.partition s c)) c = false.
Proof.
  induction s as [|e s IH]; [reflexivity|]. cbn [PyStr.partition].
  destruct (Ascii.eqb c e) eqn:E; [reflexivity|].
  destruct (PyStr.partition s c) as [a b]. cbn [fst PyStr.contains] in *.
  now rewrite E.
Qed.

Lemma split1_keeps_free (s : string) (c d : ascii) :
  PyStr.contains s c = false ->
  PyStr.contains (fst (PyStr.split1 s d)) c = false.
Proof.
  intros Hc. unfold PyStr.split1.
  destruct (partition_keeps_free s c d Hc) as [H1 _].
  now destruct (PyStr.partition s d).
Qed.

Lemma splitparams_keeps_free (url : string) (c : ascii) :
  PyStr.contains url c = false ->
  PyStr.contains (fst (Urllib.splitparams url)) c = false.
Proof.
  induction url as [|e s IH]; [reflexivity|].
  intros Hc. cbn [Urllib.splitparams].
  pose proof Hc as Hc'. cbn [PyStr.contains] in Hc'.
  apply orb_false_iff in Hc' as [He Hs].
  destruct (PyStr.contains s "/").
  - specialize (IH Hs). destruct (Urllib.splitparams s) as [a b].
    cbn in *. now rewrite He.
  - destruct (Ascii.eqb e "/").
    + pose proof (split1_keeps_free s c ";" Hs) as H1.
      destruct (PyStr.split1 s ";") as [a b]. cbn in *. now rewrite He.
    + now apply split1_keeps_free.
Qed.

(** The host part ends at the first of [/ ? #]. *)
Lemma splitnetloc_no_hash (s : string) :
  PyStr.contains (fst (Urllib.splitnetloc s)) "#" = false.
Proof.
  induction s as [|e s IH]; [reflexivity|]. cbn [Urllib.splitnetloc].
  destruct (Ascii.eqb e "/" || Ascii.eqb e "?" || Ascii.eqb e "#") eqn:E;
    [reflexivity|].
  destruct (Urllib.splitnetloc s) as [n r]. cbn [fst PyStr.contains] in *.
  apply orb_false_iff in E as [_ E]. rewrite Ascii.eqb_sym in E.
  now rewrite E.
Qed.

Lemma scheme_char_lower_not_hash (c : ascii) :
  Urllib.is_scheme_char c = true -> Ascii.eqb "#" (PyStr.lower_char c) = false.
Proof.
  destruct c as [b0 b1 b2 b3 b4 b5 b6 b7].
  destruct b0, b1, b2, b3, b4, b5, b6, b7; vm_compute; congruence.
Qed.

Lemma scheme_lower_no_hash (s : string) :
  Urllib.all_chars Urllib.is_scheme_char s = true ->
  PyStr.contains (PyStr.lower s) "#" = false.
Proof.
  induction s as [|c s IH]; [reflexivity|].
  cbn [Urllib.all_chars PyStr.lower PyStr.contains].
  intros Hs. apply andb_true_iff in Hs as [Hc Hs].
  now rewrite scheme_char_lower_not_hash, IH.
Qed.

(** The test [url[:2] == '//'] of [urlsplit]. *)
Lemma double_slash_cases {A} (u : string) (f : string -> A) (g : A) :
  (match u with
   | String "/" (String "/" rest) => f rest
   | _ => g
   end) = g
  \/ exists rest,
       u = String "/" (String "/" rest)
       /\ (match u with
           | String "/" (String "/" rest) => f rest
           | _ => g
           end) = f rest.
Proof.
  destruct u as [|a [|b r]]; auto.
  - destruct a as [b0 b1 b2 b3 b4 b5 b6 b7].
    destruct b0, b1, b2, b3, b4, b5, b6, b7; auto.
  - destruct a as [b0 b1 b2 b3 b4 b5 b6 b7].
    destruct b0, b1, b2, b3, b4, b5, b6, b7; auto.
    destruct b as [b0 b1 b2 b3 b4 b5 b6 b7].
    destruct b0, b1, b2, b3, b4, b5, b6, b7; auto.
    right. eexists. split; reflexivity.
Qed.

(** The part of [urlsplit] and [urlparse] after the host was split off. *)
Ltac split_url sch u :=
  let u3 := fresh "u" in
  let u4 := fresh "u" in
  let frag := fresh "frag" in
  let q := fresh "q" in
  let Hu := fresh "Hu" in
  let Hpath := fresh "Hpath" in
  let Hquery := fresh "Hquery" in
  cbv iota beta;
  destruct (xorb _ _); [discriminate|];
  pose proof (partition_fst_free u "#") as Hu;
  destruct (PyStr.partition u "#") as [u3 frag]; cbn [fst] in Hu;
  destruct frag;
  (destruct (partition_keeps_free u3 "#" "?" Hu) as [Hpath Hquery];
   destruct (PyStr.partition u3 "?") as [u4 q];
   cbn [fst snd] in Hpath, Hquery;
   destruct q; [pose proof (Hquery _ eq_refl)|];
   cbn [bind];
   pose proof (splitparams_keeps_free u4 "#" Hpath);
   (destruct (Urllib.mem sch Urllib.uses_params && PyStr.contains u4 ";");
    [destruct (Urllib.splitparams u4)|]);
   intros [= <-]; cbn; auto).

(** No component that [urlparse] returns, the fragment apart, holds a
    [#]. *)
Lemma urlparse_no_hash (url : string) (p : Urllib.ParseResult) :
  Urllib.urlparse url = Ok p ->
  PyStr.contains (Urllib.scheme p) "#" = false
  /\ PyStr.contains (Urllib.netloc p) "#" = false
  /\ PyStr.contains (Urllib.path p) "#" = false
  /\ PyStr.contains (Urllib.query p) "#" = false.
Proof.
  unfold Urllib.urlparse, Urllib.urlparse_with, Urllib.urlsplit.
  set (u0 := Urllib.remove_unsafe (Urllib.lstrip_c0 url)).
  change (Urllib.remove_unsafe (Urllib.rstrip_c0 (Urllib.lstrip_c0 "")))
    with "".
  assert (exists sch u1,
            (match Urllib.split_scheme u0 with
             | Some (sch, rest) => (sch, rest)
             | None => ("", u0)
             end) = (sch, u1)
            /\ PyStr.contains sch "#" = false) as (sch & u1 & -> & Hsch).
  { unfold Urllib.split_scheme.
    destruct (PyStr.partition u0 ":") as [[|c0 σ] [rest|]];
      try (eexists _, _; split; [reflexivity|reflexivity]).
    destruct (Urllib.is_ascii_alpha c0
              && Urllib.all_chars Urllib.is_scheme_char (String c0 σ)) eqn:E;
      [|eexists _, _; split; reflexivity].
    eexists _, _. split; [reflexivity|].
    apply andb_true_iff in E as [_ E]. now apply scheme_lower_no_hash. }
  destruct (double_slash_cases u1 Urllib.splitnetloc ("", u1))
    as [->|(rest & _ & ->)].
  - split_url sch u1.
  - pose proof (splitnetloc_no_hash rest) as Hnet.
    destruct (Urllib.splitnetloc rest) as [net u2]. cbn [fst] in Hnet.
    split_url sch u2.
Qed.

Lemma rebuild_no_hash (p : Urllib.ParseResult) :
  PyStr.contains (Urllib.scheme p) "#" = false ->
  PyStr.contains (Urllib.netloc p) "#" = false ->
  PyStr.contains (Urllib.path p) "#" = false ->
  PyStr.contains (Urllib.query p) "#" = false ->
  PyStr.contains (Utils.rebuild p) "#" = false.
Proof.
  intros Hs Hn Hp Hq. unfold Utils.rebuild.
  assert (PyStr.contains
            (Urllib.scheme p ++ "://" ++ Urllib.netloc p ++ Urllib.path p) "#"
          = false) as H1.
  { rewrite !contains_app, Hs, Hn, Hp. reflexivity. }
  assert (PyStr.contains
            (if PyStr.truthy (Urllib.query p)
             then (Urllib.scheme p ++ "://" ++ Urllib.netloc p
                   ++ Urllib.path p) ++ "?" ++ Urllib.query p
             else Urllib.scheme p ++ "://" ++ Urllib.netloc p
                  ++ Urllib.path p) "#" = false) as H2.
  { destruct (PyStr.truthy _); [|exact H1].
    rewrite !contains_app, Hs, Hn, Hp, Hq. reflexivity. }
  destruct (_ && _); [apply contains_drop_last|]; exact H2.
Qed.

(** A returned URL holds no [#]. *)
Lemma normalized_url_fragment_free (url base_url : string) :
  match Utils.normalize_url url base_url with
  | Ok normalized => PyStr.contains normalized "#" = false
  | Raise e => is_InvalidURLError (@Raise string e) = true
  end.
Proof.
  unfold Utils.normalize_url.
  destruct (Urllib.urljoin base_url url) as [absolute_url|e]; [|reflexivity].
  cbn [bind].
  destruct (Urllib.urlparse absolute_url) as [parsed|e] eqn:Ep; [|reflexivity].
  cbn [bind].
  destruct (urlparse_no_hash _ _ Ep) as (Hs & Hn & Hp & Hq).
  now apply rebuild_no_hash.
Qed.

(** X7.  [normalize_url] removes the fragment: whatever the link and the
    base, a returned URL holds no [#], also when the link's fragment
    itself holds further [#]; the only exception it raises is
    [InvalidURLError]. *)
Theorem X7_normalized_url_has_no_fragment :
  (forall url base_url normalized,
     Utils.normalize_url url base_url = Ok normalized ->
     PyStr.contains normalized "#" = false)
  /\ (forall url base_url e,
        Utils.normalize_url url base_url = Raise e ->
        exists msg, e = InvalidURLError msg)
  /\ Utils.normalize_url "/b?x=1#top#more" "https://example.com/a"
     = Ok "https://example.com/b?x=1".
Proof.
  split; [|split].
  - intros url base_url normalized Hn.
    pose proof (normalized_url_fragment_free url base_url) as Hx.
    now rewrite Hn in Hx.
  - intros url base_url e. unfold Utils.normalize_url.
    destruct (bind _ _); [discriminate|]. intros [= <-]. eauto.
  - vm_compute. reflexivity.
Qed.

(** ** URLValidator.is_valid_url *)

(** The checks of [is_valid_url], one by one. *)
Lemma is_valid_url_spec (v : Utils.URLValidator) (url : string) :
  Utils.is_valid_url v url = true <->
  exists parsed,
    Urllib.urlparse url = Ok parsed
    /\ (Urllib.scheme parsed = "http" \/ Urllib.scheme parsed = "https")
    /\ Urllib.netloc parsed <> ""
    /\ (Utils.allowed_domains v = ∅
        \/ Urllib.netloc parsed ∈ Utils.allowed_domains v)
    /\ existsb (PyStr.endswith (PyStr.lower (Urllib.path parsed)))
         Utils.SKIP_EXTENSIONS = false
    /\ existsb (fun pattern => Utils.re_search pattern url)
         Utils.skip_patterns = false.
Proof.
  unfold Utils.is_valid_url.
  destruct (Urllib.urlparse url) as [parsed|e].
  2: { split; [discriminate | intros (p & Hp & _); discriminate]. }
  assert (Urllib.mem (Urllib.scheme parsed) Utils.VALID_SCHEMES = true
          <-> (Urllib.scheme parsed = "http" \/ Urllib.scheme parsed = "https"))
    as Hscheme.
  { unfold Urllib.mem, Utils.VALID_SCHEMES. cbn [existsb].
    rewrite !orb_true_iff, !String.eqb_eq. intuition discriminate. }
  assert (negb (bool_decide (Utils.allowed_domains v = ∅))
          && negb (bool_decide (Urllib.netloc parsed ∈ Utils.allowed_domains v))
          = false
          <-> (Utils.allowed_domains v = ∅
               \/ Urllib.netloc parsed ∈ Utils.allowed_domains v)) as Hdom.
  { rewrite andb_false_iff, !negb_false_iff, !bool_decide_eq_true.
    reflexivity. }
  split.
  - intros Hv. exists parsed. split; [reflexivity|].
    destruct (PyStr.truthy (Urllib.scheme parsed)) eqn:E1; [|discriminate].
    destruct (PyStr.truthy (Urllib.netloc parsed)) eqn:E2; [|discriminate].
    cbn [negb orb] in Hv.
    destruct (Urllib.mem (Urllib.scheme parsed) Utils.VALID_SCHEMES) eqn:E3;
      [|discriminate].
    cbn [negb] in Hv.
    destruct (negb (bool_decide (Utils.allowed_domains v = ∅)) && _) eqn:E4;
      [discriminate|].
    destruct (existsb _ Utils.SKIP_EXTENSIONS) eqn:E5; [discriminate|].
    destruct (existsb _ Utils.skip_patterns) eqn:E6; [discriminate|].
    split; [now apply Hscheme|]. split; [now apply truthy_nonempty|].
    split; [now apply Hdom|]. now split.
  - intros (p & [= <-] & Hs & Hn & Hd & He & Hp).
    assert (PyStr.truthy (Urllib.scheme parsed) = true) as ->.
    { apply truthy_nonempty. destruct Hs as [-> | ->]; discriminate. }
    apply truthy_nonempty in Hn. rewrite Hn. cbn [negb orb].
    apply Hscheme in Hs. rewrite Hs. cbn [negb].
    apply Hdom in Hd. rewrite Hd, He, Hp. reflexivity.
Qed.

(** X8.  What [is_valid_url] accepts: only URLs that parse with scheme
    [http] or [https] and a host, the host being in the allow-list when
    there is one.  A validator without restrictions accepts whatever a
    restricted one accepts, and widening a non-empty allow-list never
    turns an accepted URL into a rejected one.  The literal patterns
    ([/admin/], [/login], [/logout], [/register], [/api/]) are searched in
    the whole URL: a URL with one of them anywhere, also in its query, is
    rejected.  The patterns [.php], [.asp] and [.jsp] count at the end of
    the URL only: a URL is rejected when it ends with one of them, or with
    one of them and a newline, and a URL is accepted exactly when it
    passes the tests on scheme, host and allow-list, its lower-cased path
    ends with no skipped extension, it contains none of the five literal
    patterns and ends with none of the three others. *)
Theorem X8_is_valid_url_accepts_only_allowed_http_urls :
  (forall v url,
     Utils.is_valid_url v url = true ->
     exists parsed,
       Urllib.urlparse url = Ok parsed
       /\ (Urllib.scheme parsed = "http" \/ Urllib.scheme parsed = "https")
       /\ Urllib.netloc parsed <> ""
       /\ (Utils.allowed_domains v = ∅
           \/ Urllib.netloc parsed ∈ Utils.allowed_domains v))
  /\ (forall v url,
        Utils.is_valid_url v url = true ->
        Utils.is_valid_url (Utils.URLValidator_init None) url = true)
  /\ (forall v v' url,
        Utils.allowed_domains v <> ∅ ->
        Utils.allowed_domains v ⊆ Utils.allowed_domains v' ->
        Utils.is_valid_url v url = true ->
        Utils.is_valid_url v' url = true)
  /\ (forall v url text,
        In (Utils.Literal text) Utils.skip_patterns ->
        PyStr.contains_str url text = true ->
        Utils.is_valid_url v url = false)
  /\ (forall v url text,
        In (Utils.LiteralAtEnd text) Utils.skip_patterns ->
        PyStr.endswith url text = true
        \/ PyStr.endswith url (text ++ String (ascii_of_nat 10) "") = true ->
        Utils.is_valid_url v url = false)
  /\ (forall v url,
        Utils.is_valid_url v url = true <->
        exists parsed,
          Urllib.urlparse url = Ok parsed
          /\ (Urllib.scheme parsed = "http" \/ Urllib.scheme parsed = "https")
          /\ Urllib.netloc parsed <> ""
          /\ (Utils.allowed_domains v = ∅
              \/ Urllib.netloc parsed ∈ Utils.allowed_domains v)
          /\ (forall ext,
                In ext Utils.SKIP_EXTENSIONS ->
                PyStr.endswith (PyStr.lower (Urllib.path parsed)) ext = false)
          /\ (forall text,
                In text ["/admin/"; "/login"; "/logout"; "/register"; "/api/"] ->
                PyStr.contains_str url text = false)
          /\ (forall text,
                In text [".php"; ".asp"; ".jsp"] ->
                PyStr.endswith url text = false
                /\ PyStr.endswith url (text ++ String (ascii_of_nat 10) "")
                   = false))
  /\ (let v := Utils.URLValidator_init (Some {[ "example.com" ]}) in
      Utils.is_valid_url v "https://example.com/b" = true
      /\ Utils.is_valid_url v "https://example.com/page?next=/login" = false
      /\ Utils.is_valid_url v "https://example.com/index.php" = false
      /\ Utils.is_valid_url v "https://example.com/index.php?id=1" = true
      /\ Utils.is_valid_url v "https://example.com/index.asp" = false
      /\ Utils.is_valid_url v "https://example.com/index.jsp" = false
      /\ Utils.is_valid_url v "https://example.com/index.asp?id=1" = true
      /\ Utils.is_valid_url v "https://example.com/index.jsp;v=2" = true).
Proof.
  assert (forall v url pattern,
            Utils.is_valid_url v url = true ->
            In pattern Utils.skip_patterns ->
            Utils.re_search pattern url = false) as Hpattern.
  { intros v url pattern Hv Hin.
    apply is_valid_url_spec in Hv as (parsed & _ & _ & _ & _ & _ & Hpat).
    destruct (Utils.re_search pattern url) eqn:E; [|reflexivity].
    assert (existsb (fun pattern => Utils.re_search pattern url)
              Utils.skip_patterns = true) as Hex
      by (apply existsb_exists; eauto).
    congruence. }
  split; [|split; [|split; [|split; [|split; [|split]]]]].
  - intros v url Hv. apply is_valid_url_spec in Hv
      as (parsed & Hp & Hs & Hn & Hd & _).
    exists parsed. auto.
  - intros v url Hv. apply is_valid_url_spec in Hv
      as (parsed & Hp & Hs & Hn & Hd & He & Hpat).
    apply is_valid_url_spec. exists parsed.
    repeat (split; [assumption|]). split; [left; reflexivity|]. now split.
  - intros v v' url Hne Hsub Hv. apply is_valid_url_spec in Hv
      as (parsed & Hp & Hs & Hn & Hd & He & Hpat).
    apply is_valid_url_spec. exists parsed.
    repeat (split; [assumption|]). split; [|now split].
    right. destruct Hd as [Hd|Hd]; [contradiction|]. now apply Hsub.
  - intros v url text Hin Hc.
    destruct (Utils.is_valid_url v url) eqn:Hv; [|reflexivity].
    pose proof (Hpattern v url (Utils.Literal text) Hv Hin) as Hno.
    cbn [Utils.re_search] in Hno. congruence.
  - intros v url text Hin Hend.
    destruct (Utils.is_valid_url v url) eqn:Hv; [|reflexivity].
    pose proof (Hpattern v url (Utils.LiteralAtEnd text) Hv Hin) as Hno.
    cbn [Utils.re_search] in Hno. apply orb_false_iff in Hno as [H1 H2].
    destruct Hend; congruence.
  - intros v url. rewrite is_valid_url_spec.
    assert (forall parsed,
              existsb (PyStr.endswith (PyStr.lower (Urllib.path parsed)))
                Utils.SKIP_EXTENSIONS = false
              <-> (forall ext,
                     In ext Utils.SKIP_EXTENSIONS ->
                     PyStr.endswith (PyStr.lower (Urllib.path parsed)) ext
                     = false)) as Hext.
    { intros parsed. split.
      - intros He ext Hin.
        destruct (PyStr.endswith _ ext) eqn:E; [|reflexivity].
        assert (existsb (PyStr.endswith (PyStr.lower (Urllib.path parsed)))
                  Utils.SKIP_EXTENSIONS = true) as Hex
          by (apply existsb_exists; eauto).
        congruence.
      - intros Hall. apply not_true_iff_false. intros Hex.
        apply existsb_exists in Hex as (ext & Hin & E).
        rewrite (Hall ext Hin) in E. discriminate. }
    assert (existsb (fun pattern => Utils.re_search pattern url)
              Utils.skip_patterns = false
            <-> (forall text,
                   In text ["/admin/"; "/login"; "/logout"; "/register";
                            "/api/"] ->
                   PyStr.contains_str url text = false)
                /\ (forall text,
                      In text [".php"; ".asp"; ".jsp"] ->
                      PyStr.endswith url text = false
                      /\ PyStr.endswith url
                           (text ++ String (ascii_of_nat 10) "") = false))
      as Hpat.
    { unfold Utils.skip_patterns. cbn [existsb Utils.re_search].
      rewrite !orb_false_iff. split.
      - intros (A1 & A2 & A3 & A4 & A5 & [B1 B1'] & [B2 B2'] & [B3 B3'] & _).
        split.
        + intros text [<-|[<-|[<-|[<-|[<-|[]]]]]]; assumption.
        + intros text [<-|[<-|[<-|[]]]]; split; assumption.
      - intros [Hl He].
        repeat split; try (apply Hl; cbn; tauto); apply He; cbn; tauto. }
    split.
    + intros (parsed & Hp & Hs & Hn & Hd & He & Hr). exists parsed.
      pose proof (proj1 (Hext parsed) He) as He'.
      destruct (proj1 Hpat Hr) as [R1 R2]. auto 10.
    + intros (parsed & Hp & Hs & Hn & Hd & He & R1 & R2). exists parsed.
      pose proof (proj2 (Hext parsed) He) as He'.
      repeat (split; [assumption|]). apply (proj2 Hpat). auto.
  - vm_compute. repeat split; reflexivity.
Qed.

(** ** LinkExtractor.extract_links *)

(** [normalize_url] raises nothing but [InvalidURLError]. *)
Lemma normalize_url_raises_invalid_only (url base_url : string) (e : Exception) :
  Utils.normalize_url url base_url = Raise e -> exists msg, e = InvalidURLError msg.
Proof.
  unfold Utils.normalize_url.
  destruct (bind _ _); [discriminate|]. intros [= <-]. eauto.
Qed.

Section LinkExtraction.

Variable find_hrefs : string -> Result (list string).

#[local] Open Scope list_scope.

(** The first loop gathers the contribution of each [href], in order. *)
Lemma links_loop_spec (v : Utils.URLValidator) (base_url : string)
    (hrefs links : list string) :
  Utils.links_loop v base_url hrefs links
  = links ++ omap (link_of v base_url) hrefs.
Proof.
  revert links. induction hrefs as [|href rest IH]; intros links.
  - cbn. now rewrite app_nil_r.
  - cbn [Utils.links_loop omap list_omap]. unfold link_of at 1.
    destruct (PyStr.truthy (PyStr.strip href)) eqn:Et; cbn [negb orb andb].
    2: { rewrite IH. now destruct (Utils.normalize_url _ _). }
    destruct (PyStr.startswith (PyStr.strip href) "#") eqn:Es; cbn [negb andb].
    1: { rewrite IH. now destruct (Utils.normalize_url _ _). }
    destruct (Utils.normalize_url (PyStr.strip href) base_url)
      as [normalized|e] eqn:En.
    + destruct (Utils.is_valid_url v normalized); rewrite IH;
        [now rewrite <- app_assoc | reflexivity].
    + destruct (normalize_url_raises_invalid_only _ _ _ En) as [msg ->].
      apply IH.
Qed.

(** The second loop keeps the first occurrence of each link. *)
Lemma unique_loop_spec (links : list string) :
  forall (seen : gset string) (unique_links : list string),
    (forall x, x ∈ seen <-> x ∈ unique_links) ->
    NoDup unique_links ->
    let r := Utils.unique_loop links seen unique_links in
    NoDup r
    /\ (forall x, x ∈ r <-> x ∈ unique_links \/ x ∈ links)
    /\ exists added, r = unique_links ++ added /\ added `sublist_of` links.
Proof.
  induction links as [|link rest IH]; intros seen acc Hseen Hnd;
    cbn [Utils.unique_loop]; cbv zeta.
  - split; [exact Hnd|]. split; [set_solver|].
    exists []. split; [now rewrite app_nil_r | constructor].
  - destruct (decide (link ∈ seen)) as [Hin|Hout].
    + destruct (IH seen acc Hseen Hnd) as (I1 & I2 & added & I3 & I4).
      split; [exact I1|]. split.
      * intros x. rewrite I2. apply Hseen in Hin. set_solver.
      * exists added. split; [exact I3|]. now apply sublist_cons.
    + destruct (IH ({[ link ]} ∪ seen) (acc ++ [link]))
        as (I1 & I2 & added & I3 & I4).
      * intros x. rewrite elem_of_union, elem_of_singleton, elem_of_app,
          list_elem_of_singleton, Hseen. tauto.
      * apply NoDup_app. split; [exact Hnd|]. split; [|apply NoDup_singleton].
        intros x Hx Hx'. apply list_elem_of_singleton in Hx' as ->.
        now apply Hseen in Hx.
      * split; [exact I1|]. split.
        -- intros x. rewrite I2. set_solver.
        -- exists (link :: added). split; [now rewrite I3, <- app_assoc|].
           now apply sublist_skip.
Qed.

(** X9.  [extract_links] returns each link once; a URL is returned exactly
    when some anchor's [href], stripped, is neither empty nor starts with
    [#], normalises to that URL, and the URL passes [is_valid_url]; the
    links keep the order of the anchors; no returned link holds a
    fragment; a parser failure yields the empty list. *)
Theorem X9_extract_links_unique_validated_links
    (v : Utils.URLValidator) (html_content base_url : string) :
  let r := Utils.extract_links find_hrefs v html_content base_url in
  NoDup r
  /\ (forall l,
        l ∈ r <->
        exists hrefs href,
          find_hrefs html_content = Ok hrefs
          /\ href ∈ hrefs
          /\ PyStr.strip href <> ""
          /\ PyStr.startswith (PyStr.strip href) "#" = false
          /\ Utils.normalize_url (PyStr.strip href) base_url = Ok l
          /\ Utils.is_valid_url v l = true)
  /\ (forall l, l ∈ r -> PyStr.contains l "#" = false)
  /\ (forall hrefs,
        find_hrefs html_content = Ok hrefs ->
        r `sublist_of` omap (link_of v base_url) hrefs)
  /\ (forall e, find_hrefs html_content = Raise e -> r = []).
Proof.
  cbv zeta. unfold Utils.extract_links.
  assert (forall href l,
            link_of v base_url href = Some l <->
            PyStr.strip href <> ""
            /\ PyStr.startswith (PyStr.strip href) "#" = false
            /\ Utils.normalize_url (PyStr.strip href) base_url = Ok l
            /\ Utils.is_valid_url v l = true) as Hlink.
  { intros href l. unfold link_of. rewrite <- truthy_nonempty.
    destruct (Utils.normalize_url (PyStr.strip href) base_url) as [n|e].
    - destruct (PyStr.truthy _), (PyStr.startswith _ _),
        (Utils.is_valid_url v n) eqn:Ev; cbn;
        (split; [intros [= <-] | intros (? & ? & [= <-] & ?)]);
        try discriminate; try congruence; auto.
    - split; [discriminate | intros (_ & _ & ? & _); discriminate]. }
  set (links := match find_hrefs html_content with
                | Ok hrefs => Utils.links_loop v base_url hrefs []
                | Raise _ => []
                end).
  destruct (unique_loop_spec links ∅ []) as (U1 & U2 & added & U3 & U4);
    [set_solver | constructor |].
  cbn [app] in U3.
  assert (forall l, l ∈ Utils.unique_loop links ∅ [] <->
            exists hrefs href,
              find_hrefs html_content = Ok hrefs /\ href ∈ hrefs
              /\ link_of v base_url href = Some l) as Hmem.
  { intros l. rewrite U2. subst links.
    destruct (find_hrefs html_content) as [hrefs|e].
    - rewrite links_loop_spec. cbn [app]. rewrite list_elem_of_omap.
      split.
      + intros [Hl|(href & Hh & Hl)]; [inversion Hl|]. eauto.
      + intros (hrefs' & href & [= <-] & Hh & Hl). eauto.
    - split; [intros [Hl|Hl]; inversion Hl|].
      intros (? & ? & ? & _). discriminate. }
  split; [exact U1|]. split; [|split; [|split]].
  - intros l. rewrite Hmem. split.
    + intros (hrefs & href & Hf & Hh & Hl). apply Hlink in Hl.
      exists hrefs, href. tauto.
    + intros (hrefs & href & Hf & Hh & Hl). exists hrefs, href.
      split; [exact Hf|]. split; [exact Hh|]. now apply Hlink.
  - intros l Hl. apply Hmem in Hl as (hrefs & href & _ & _ & Hl).
    apply Hlink in Hl as (_ & _ & Hn & _).
    pose proof (normalized_url_fragment_free (PyStr.strip href) base_url) as Hx.
    now rewrite Hn in Hx.
  - intros hrefs Hf. rewrite U3. subst links. rewrite Hf in U4.
    now rewrite links_loop_spec in U4.
  - intros e Hf. subst links. rewrite Hf. reflexivity.
Qed.

End LinkExtraction.

(** ** RobotsTxtParser._parse_robots_txt *)

Section RobotsRules.

Variable py_float : string -> option Q.

Lemma Qmax2_ge_l (a b : Q) : (a <= Qmax2 a b)%Q.
Proof.
  unfold Qmax2. destruct (Qltb a b) eqn:E.
  - apply Qltb_lt in E. now apply Qlt_le_weak.
  - apply Qle_refl.
Qed.

(** What one line can do to the parser: nothing to its user agent, add a
    non-empty prefix, raise the crawl delay. *)
Lemma parse_line_grows (st : Utils.ParseState) (line : string) :
  let st' := Utils.parse_line py_float st line in
  Utils.user_agent (Utils.self st') = Utils.user_agent (Utils.self st)
  /\ Utils.disallowed_paths (Utils.self st)
     ⊆ Utils.disallowed_paths (Utils.self st')
  /\ (forall d, d ∈ Utils.disallowed_paths (Utils.self st') ->
                d ∈ Utils.disallowed_paths (Utils.self st) \/ d <> "")
  /\ (Utils.crawl_delay (Utils.self st)
      <= Utils.crawl_delay (Utils.self st'))%Q
  /\ (Utils.applies_to_us st = false -> Utils.self st' = Utils.self st).
Proof.
  cbv zeta. unfold Utils.parse_line.
  assert (Utils.user_agent (Utils.self st) = Utils.user_agent (Utils.self st)
          /\ Utils.disallowed_paths (Utils.self st)
             ⊆ Utils.disallowed_paths (Utils.self st)
          /\ (forall d, d ∈ Utils.disallowed_paths (Utils.self st) ->
                d ∈ Utils.disallowed_paths (Utils.self st) \/ d <> "")
          /\ (Utils.crawl_delay (Utils.self st)
              <= Utils.crawl_delay (Utils.self st))%Q
          /\ (Utils.applies_to_us st = false -> Utils.self st = Utils.self st))
    as Hsame.
  { split; [reflexivity|]. split; [reflexivity|]. split; [auto|].
    split; [apply Qle_refl | reflexivity]. }
  destruct (negb _ || _); [exact Hsame|].
  destruct (PyStr.contains _ _); [|exact Hsame].
  destruct (PyStr.split1 _ _) as [directive value].
  destruct (String.eqb _ "user-agent"); [exact Hsame|].
  destruct (Utils.applies_to_us st) eqn:Ea; [|exact Hsame].
  destruct (String.eqb _ "disallow").
  - destruct (PyStr.truthy (PyStr.strip value)) eqn:Et; [|exact Hsame].
    cbn. split; [reflexivity|]. split; [set_solver|].
    split; [|split; [apply Qle_refl | discriminate]].
    intros d Hd. apply elem_of_union in Hd as [Hd|Hd]; [|now left].
    apply elem_of_singleton in Hd as ->. right.
    now apply truthy_nonempty.
  - destruct (String.eqb _ "crawl-delay"); [|exact Hsame].
    destruct (py_float _); [|exact Hsame].
    cbn. split; [reflexivity|]. split; [reflexivity|]. split; [auto|].
    split; [apply Qmax2_ge_l | discriminate].
Qed.

Lemma parse_lines_grow (lines : list string) :
  forall st,
    let st' := fold_left (Utils.parse_line py_float) lines st in
    Utils.user_agent (Utils.self st') = Utils.user_agent (Utils.self st)
    /\ Utils.disallowed_paths (Utils.self st)
       ⊆ Utils.disallowed_paths (Utils.self st')
    /\ (forall d, d ∈ Utils.disallowed_paths (Utils.self st') ->
                  d ∈ Utils.disallowed_paths (Utils.self st) \/ d <> "")
    /\ (Utils.crawl_delay (Utils.self st)
        <= Utils.crawl_delay (Utils.self st'))%Q.
Proof.
  induction lines as [|line lines IH]; intros st; cbn [fold_left]; cbv zeta.
  - split; [reflexivity|]. split; [reflexivity|]. split; [auto|].
    apply Qle_refl.
  - destruct (parse_line_grows st line) as (L1 & L2 & L3 & L4 & _).
    destruct (IH (Utils.parse_line py_float st line)) as (I1 & I2 & I3 & I4).
    split; [congruence|]. split; [set_solver|]. split.
    + intros d Hd. apply I3 in Hd as [Hd|Hd]; [apply L3 in Hd|]; tauto.
    + eapply Qle_trans; eassumption.
Qed.

(** X10.  Parsing robots.txt only ever adds rules: the parser keeps the
    prefixes and the crawl delay it had, so a later group cannot lift an
    earlier [Disallow] (there is no [Allow]).  A parser built from any
    content has only non-empty prefixes (an empty [Disallow:] records
    nothing), hence permits the empty path, and a crawl delay of at least
    0.  Lines of a group that does not apply leave the parser as it is. *)
Theorem X10_robots_parsing_only_adds_rules :
  (forall p content,
     let p' := Utils._parse_robots_txt py_float p content in
     Utils.user_agent p' = Utils.user_agent p
     /\ Utils.disallowed_paths p ⊆ Utils.disallowed_paths p'
     /\ (Utils.crawl_delay p <= Utils.crawl_delay p')%Q
     /\ (forall path, Utils.can_crawl p' path = true ->
                      Utils.can_crawl p path = true))
  /\ (forall content ua,
        let p := Utils.RobotsTxtParser_init py_float content ua in
        Utils.user_agent p = PyStr.lower ua
        /\ (forall d, d ∈ Utils.disallowed_paths p -> d <> "")
        /\ Utils.can_crawl p "" = true
        /\ (0 <= Utils.crawl_delay p)%Q)
  /\ (forall st line,
        Utils.applies_to_us st = false ->
        Utils.self (Utils.parse_line py_float st line) = Utils.self st).
Proof.
  split; [|split].
  - intros p content. cbv zeta. unfold Utils._parse_robots_txt.
    destruct (parse_lines_grow (PyStr.split content (ascii_of_nat 10))
                (Utils.mkParseState None false p)) as (I1 & I2 & _ & I4).
    cbn [Utils.self] in I1, I2, I4.
    split; [exact I1|]. split; [exact I2|]. split; [exact I4|].
    intros path. rewrite !can_crawl_true_iff. intros Hall d Hd.
    apply Hall. now apply I2.
  - intros content ua. cbv zeta.
    unfold Utils.RobotsTxtParser_init, Utils._parse_robots_txt.
    destruct (parse_lines_grow (PyStr.split content (ascii_of_nat 10))
                (Utils.mkParseState None false
                   (Utils.mkRobotsTxtParser (PyStr.lower ua) ∅ 0%Q)))
      as (I1 & _ & I3 & I4).
    cbn [Utils.self Utils.user_agent Utils.disallowed_paths Utils.crawl_delay]
      in I1, I3, I4.
    assert (forall d,
              d ∈ Utils.disallowed_paths
                    (Utils.self
                       (fold_left (Utils.parse_line py_float)
                          (PyStr.split content (ascii_of_nat 10))
                          (Utils.mkParseState None false
                             (Utils.mkRobotsTxtParser (PyStr.lower ua) ∅ 0%Q))))
              -> d <> "") as Hne.
    { intros d Hd. apply I3 in Hd as [Hd|Hd]; [set_solver | exact Hd]. }
    split; [exact I1|]. split; [exact Hne|]. split; [|exact I4].
    apply can_crawl_true_iff. intros d Hd [rest Hrest].
    apply (Hne d Hd). destruct d; [reflexivity | discriminate].
  - intros st line Ha. now apply parse_line_grows.
Qed.

End RobotsRules.

(** * Further properties of anti_detection.py *)

(** ** Rotation order of the proxy pool *)

Section RoundRobin.

Context `{Runtime}.

#[local] Open Scope list_scope.

(** A proxy at the head of the iterator that is not marked failed is
    returned at once and moves to the back. *)
Lemma get_next_head (r : AntiDetection.ProxyRotator) (x : Proxy)
    (it : list Proxy) :
  AntiDetection.proxies r <> [] ->
  AntiDetection._iterator r = Some (x :: it) ->
  proxy_str x ∉ AntiDetection._failed_proxies r ->
  AntiDetection.get_next r
  = Ok (Some x,
        AntiDetection.mkProxyRotator (AntiDetection.proxies r)
          (AntiDetection.timeout r) (Some (it ++ [x]))
          (AntiDetection._failed_proxies r)).
Proof.
  intros Hne Hit Hx. unfold AntiDetection.get_next. rewrite Hit.
  destruct (AntiDetection.proxies r) as [|p ps]; [contradiction|].
  cbn [length AntiDetection.get_next_loop AntiDetection.next bind].
  destruct (decide _) as [Hin|_]; [contradiction|]. reflexivity.
Qed.

Lemma get_next_round (pre : list Proxy) :
  forall (post : list Proxy) (r : AntiDetection.ProxyRotator),
    AntiDetection.proxies r <> [] ->
    AntiDetection._iterator r = Some (pre ++ post) ->
    (forall p, p ∈ pre -> proxy_str p ∉ AntiDetection._failed_proxies r) ->
    get_next_n (length pre) r
    = Ok (map Some pre,
          AntiDetection.mkProxyRotator (AntiDetection.proxies r)
            (AntiDetection.timeout r) (Some (post ++ pre))
            (AntiDetection._failed_proxies r)).
Proof.
  induction pre as [|x pre IH]; intros post r Hne Hit Hok.
  - cbn. rewrite app_nil_r. destruct r; cbn in *. now rewrite Hit.
  - cbn [length get_next_n].
    rewrite (get_next_head r x (pre ++ post) Hne Hit)
      by (apply Hok; left).
    cbn [bind snd fst].
    rewrite (IH (post ++ [x])); cbn; auto.
    + now rewrite <- app_assoc.
    + now rewrite <- app_assoc.
    + intros p Hp. apply Hok. now right.
Qed.

(** X11.  Rotation is round-robin.  When no member of the pool is marked
    failed, [len(pool)] calls of [get_next] return each member once, in
    the iterator's order, and leave the rotator as it was.  A rotator
    fresh from its constructor goes through its pool in list order; after
    a successful [add_proxy] the rotation starts again at the head of the
    enlarged pool. *)
Theorem X11_rotation_is_round_robin :
  (forall r,
     rotator_in_sync r ->
     AntiDetection.proxies r <> [] ->
     (forall p, p ∈ AntiDetection.proxies r ->
                proxy_str p ∉ AntiDetection._failed_proxies r) ->
     exists it,
       AntiDetection._iterator r = Some it
       /\ it ≡ₚ AntiDetection.proxies r
       /\ get_next_n (length (AntiDetection.proxies r)) r
          = Ok (map Some it, r))
  /\ (forall ps validate t w,
        let r := fst (AntiDetection.ProxyRotator_init ps validate t w) in
        get_next_n (length (AntiDetection.proxies r)) r
        = Ok (map Some (AntiDetection.proxies r), r))
  /\ (forall r proxy validate w r' w',
        AntiDetection.add_proxy r proxy validate w = (true, r', w') ->
        (forall p, p ∈ AntiDetection.proxies r' ->
                   proxy_str p ∉ AntiDetection._failed_proxies r) ->
        AntiDetection.proxies r' = AntiDetection.proxies r ++ [proxy]
        /\ get_next_n (length (AntiDetection.proxies r')) r'
           = Ok (map Some (AntiDetection.proxies r'), r')).
Proof.
  assert (forall r,
            AntiDetection.proxies r <> [] ->
            AntiDetection._iterator r = Some (AntiDetection.proxies r) ->
            (forall p, p ∈ AntiDetection.proxies r ->
                       proxy_str p ∉ AntiDetection._failed_proxies r) ->
            get_next_n (length (AntiDetection.proxies r)) r
            = Ok (map Some (AntiDetection.proxies r), r)) as Hfresh.
  { intros r Hne Hit Hok.
    rewrite (get_next_round (AntiDetection.proxies r) [] r Hne); auto.
    - destruct r; cbn in *. now rewrite Hit.
    - now rewrite app_nil_r. }
  split; [|split].
  - intros r Hsync Hne Hok. unfold rotator_in_sync in Hsync.
    destruct (AntiDetection.proxies r) as [|p ps] eqn:Ep; [contradiction|].
    destruct Hsync as (it & Hit & Hperm). exists it.
    split; [exact Hit|]. split; [exact Hperm|].
    rewrite <- (Permutation_length Hperm).
    rewrite (get_next_round it [] r); auto.
    + cbn [app]. destruct r; cbn in *. now rewrite Hit.
    + now rewrite Ep.
    + now rewrite app_nil_r.
    + intros q Hq. apply Hok. now rewrite <- Hperm.
  - intros ps validate t w. cbv zeta.
    unfold AntiDetection.ProxyRotator_init, AntiDetection._validate_proxies.
    destruct (default [] ps) as [|p ps'] eqn:E; [reflexivity|].
    destruct validate.
    + destruct (AntiDetection.validate_loop _ _ _) as [[|v vs] w'];
        [reflexivity|].
      apply Hfresh; cbn; [discriminate | reflexivity | set_solver].
    + apply Hfresh; cbn; [discriminate | reflexivity | set_solver].
  - intros r proxy validate w r' w' Hadd Hok.
    unfold AntiDetection.add_proxy in Hadd.
    destruct (if validate then _ else _) as [ok w1].
    destruct ok; cbn [negb] in Hadd; [|discriminate].
    destruct (existsb _ _); [discriminate|].
    injection Hadd as <- <-. cbn [AntiDetection.proxies] in *.
    split; [reflexivity|].
    apply (Hfresh (AntiDetection.mkProxyRotator
                     (AntiDetection.proxies r ++ [proxy])
                     (AntiDetection.timeout r)
                     (Some (AntiDetection.cycle
                              (AntiDetection.proxies r ++ [proxy])))
                     (AntiDetection._failed_proxies r))); cbn.
    + now destruct (AntiDetection.proxies r).
    + reflexivity.
    + exact Hok.
Qed.

End RoundRobin.

(** ** Pacing of requests *)

Section Pacing.

Context `{Runtime}.

(** The instant of a world, and what the clock, [sleep] and
    [random.uniform] do to it: a reading lies between the instants before
    and after the call, sleeping takes at least the requested time, and
    drawing a number does not turn the clock back. *)
Variable now : World -> Q.

Hypothesis clock_reading :
  forall w, (now w <= fst (time_time w) <= now (snd (time_time w)))%Q.
Hypothesis sleep_takes_time :
  forall d w, (0 <= d)%Q -> (now w + d <= now (time_sleep d w))%Q.
Hypothesis uniform_keeps_clock :
  forall a b w, (now w <= now (snd (random_uniform a b w)))%Q.

Lemma target_delay_clock (dm : AntiDetection.DelayManager) (rt : option Q)
    (w : World) :
  let '(_, dm1, w1) := AntiDetection.target_delay dm rt w in
  AntiDetection._last_request_time dm1 = AntiDetection._last_request_time dm
  /\ (now w <= now w1)%Q.
Proof.
  unfold AntiDetection.target_delay.
  destruct (String.eqb _ "fixed"); [split; [reflexivity|apply Qle_refl]|].
  destruct (String.eqb _ "random").
  { pose proof (uniform_keeps_clock
                  (AntiDetection.base_delay dm * (1 # 2))
                  (AntiDetection.base_delay dm * (3 # 2)) w) as Hu.
    destruct (random_uniform _ _ _) as [d w1]. now split. }
  destruct (String.eqb _ "exponential");
    [split; [reflexivity|apply Qle_refl]|].
  destruct (String.eqb _ "adaptive");
    [|split; [reflexivity|apply Qle_refl]].
  unfold AntiDetection._calculate_adaptive_delay.
  destruct (match rt with Some _ => _ | None => _ end);
    [split; [reflexivity|apply Qle_refl]|].
  cbn. destruct (Qltb 3 _); [|destruct (Qltb 1 _)];
    (split; [reflexivity|apply Qle_refl]).
Qed.

(** X14.  [wait] spaces requests: when it returns, the time it records
    as that of the last request is at least the delay of the strategy
    after the previously recorded one, whatever time has passed in
    between; the recorded time is a reading of the clock taken during the
    call. *)
Theorem X14_wait_spaces_requests (dm : AntiDetection.DelayManager)
    (rt : option Q) (w : World) :
  let delay := fst (fst (AntiDetection.target_delay dm rt (snd (time_time w)))) in
  let dm' := fst (AntiDetection.wait dm rt w) in
  let w' := snd (AntiDetection.wait dm rt w) in
  (AntiDetection._last_request_time dm + delay
   <= AntiDetection._last_request_time dm')%Q
  /\ (now w <= AntiDetection._last_request_time dm' <= now w')%Q.
Proof.
  cbv zeta. unfold AntiDetection.wait.
  pose proof (clock_reading w) as [C1 C2].
  destruct (time_time w) as [current_time w1]. cbn [fst snd] in *.
  pose proof (target_delay_clock dm rt w1) as Ht.
  destruct (AntiDetection.target_delay dm rt w1) as [[delay dm1] w2].
  destruct Ht as [Hlast Hw2]. cbn [fst snd]. rewrite Hlast.
  set (last := AntiDetection._last_request_time dm) in *.
  set (actual := Qmax2 0 (delay - (current_time - last))).
  assert ((0 <= actual)%Q /\ (delay - (current_time - last) <= actual)%Q)
    as [A1 A2].
  { subst actual. unfold Qmax2.
    destruct (Qltb 0 _) eqn:E.
    - apply Qltb_lt in E. split; lra.
    - assert (~ (0 < delay - (current_time - last))%Q) as Hn.
      { intros Hlt. apply Qltb_lt in Hlt. congruence. }
      split; lra. }
  assert (now w2 + actual
          <= now (if Qltb 0 actual then time_sleep actual w2 else w2))%Q
    as Hsleep.
  { destruct (Qltb 0 actual) eqn:E.
    - now apply sleep_takes_time.
    - assert (~ (0 < actual)%Q) as Hn.
      { intros Hlt. apply Qltb_lt in Hlt. congruence. }
      lra. }
  pose proof (clock_reading
                (if Qltb 0 actual then time_sleep actual w2 else w2))
    as [C3 C4].
  destruct (time_time _) as [stamp w3]. cbn [fst snd] in *.
  cbn [AntiDetection._last_request_time]. clearbody actual last.
  split; [lra|]. split; lra.
Qed.

End Pacing.

(** The simulated clock keeps the laws of a clock. *)
Lemma X14_witness_fixed_delay :
  let dm := AntiDetection.DelayManager_init 1 "fixed" in
  (AntiDetection._last_request_time dm + 1
   <= AntiDetection._last_request_time
        (fst (@AntiDetection.wait _ Fixtures.sim_runtime dm None (1 # 4)%Q)))%Q.
Proof.
  refine (proj1 (@X14_wait_spaces_requests _ Fixtures.sim_runtime
                   (fun w => w) _ _ _
                   (AntiDetection.DelayManager_init 1 "fixed") None
                   (1 # 4)%Q)).
  - intros w. cbn. split; apply Qle_refl.
  - intros d w _. cbn. apply Qle_refl.
  - intros a b w. cbn. apply Qle_refl.
Defined.

(** ** The exponential strategy *)

Section Exponential.

Context `{Runtime}.

(** X15.  Under the exponential strategy the delay grows by the factor
    1.5 every ten requests and stops growing after fifty: for a
    non-negative base and request count it stays between the base and
    [base * 1.5^5], is the base during the first ten requests and
    [base * 1.5^5] from the fiftieth on. *)
Theorem X15_exponential_delay_is_capped (dm : AntiDetection.DelayManager)
    (rt : option Q) (w : World) :
  AntiDetection.strategy dm = "exponential" ->
  (0 <= AntiDetection.base_delay dm)%Q ->
  0 <= AntiDetection._request_count dm ->
  let delay := fst (fst (AntiDetection.target_delay dm rt w)) in
  (AntiDetection.base_delay dm <= delay)%Q
  /\ (delay <= AntiDetection.base_delay dm * (243 # 32))%Q
  /\ (AntiDetection._request_count dm < 10 ->
      (delay == AntiDetection.base_delay dm)%Q)
  /\ (50 <= AntiDetection._request_count dm ->
      (delay == AntiDetection.base_delay dm * (243 # 32))%Q)
  /\ snd (AntiDetection.target_delay dm rt w) = w.
Proof.
  intros Hs Hb Hc. cbv zeta. unfold AntiDetection.target_delay.
  rewrite Hs. cbn [String.eqb Ascii.eqb Bool.eqb fst snd].
  set (count := AntiDetection._request_count dm) in *.
  set (base := AntiDetection.base_delay dm) in *.
  assert (0 <= count / 10) as Hq by (apply Z.div_pos; lia).
  assert (count < 10 -> Z.min (count / 10) 5 = 0) as Hlow.
  { intros Hlt. rewrite Z.div_small by lia. reflexivity. }
  assert (50 <= count -> Z.min (count / 10) 5 = 5) as Hhigh.
  { intros Hge. assert (5 <= count / 10) by (apply Z.div_le_lower_bound; lia).
    lia. }
  assert (Z.min (count / 10) 5 = 0 \/ Z.min (count / 10) 5 = 1
          \/ Z.min (count / 10) 5 = 2 \/ Z.min (count / 10) 5 = 3
          \/ Z.min (count / 10) 5 = 4 \/ Z.min (count / 10) 5 = 5)
    as Hcases by lia.
  destruct Hcases as [E|[E|[E|[E|[E|E]]]]]; rewrite E;
    (split; [|split; [|split; [|split; [|reflexivity]]]]);
    try (intros Hx; first [apply Hlow in Hx | apply Hhigh in Hx];
         rewrite E in Hx; try discriminate);
    unfold Qpower, Qpower_positive, pow_pos; cbn [Pos.iter_op];
    try lra.
Qed.

End Exponential.

Lemma X15_witness_sixty_requests :
  (fst (fst (@AntiDetection.target_delay _ Fixtures.sim_runtime
               (AntiDetection.mkDelayManager 2 "exponential" 60 [] 0)
               None 0%Q))
   <= 2 * (243 # 32))%Q.
Proof.
  refine (proj1 (proj2 (@X15_exponential_delay_is_capped _ Fixtures.sim_runtime
                   (AntiDetection.mkDelayManager 2 "exponential" 60 [] 0)
                   None 0%Q _ _ _))).
  - reflexivity.
  - cbn. discriminate.
  - cbn. lia.
Defined.

(** ** AntiDetectionConfig *)

Lemma Qmax2_idem (a b : Q) : Qmax2 a (Qmax2 a b) = Qmax2 a b.
Proof.
  unfold Qmax2. destruct (Qltb a b) eqn:E; [now rewrite E|].
  destruct (Qltb a a) eqn:E'; [|reflexivity].
  apply Qltb_lt in E'. now apply Qlt_irrefl in E'.
Qed.

Lemma accepted_strategy_is_recognized
    (ua_rotation proxy_rotation header_randomization adaptive : bool)
    (min_d max_d : Q) (strat : string) (rotation_interval retries : Z)
    (t : Q) (ssl : bool) (c : AntiDetection.AntiDetectionConfig) :
  AntiDetection.AntiDetectionConfig_init ua_rotation proxy_rotation
    header_randomization adaptive min_d max_d strat rotation_interval
    retries t ssl = Ok c ->
  recognized_strategy (AntiDetection.delay_strategy c).
Proof.
  unfold AntiDetection.AntiDetectionConfig_init,
    AntiDetection.AntiDetectionConfig_validate.
  cbn [AntiDetection.delay_strategy].
  destruct (existsb (String.eqb strat) AntiDetection.valid_strategies) eqn:Es;
    [|discriminate].
  cbn [bind]. intros [= <-]. now apply strategy_check_spec.
Qed.

(** X16.  A configuration that [AntiDetectionConfig] accepts is
    normalised: [0 <= min_delay <= max_delay], the session rotation
    interval is at least 1, [max_retries] at least 0, the timeout at least
    1 and the strategy one of the four known names.  Building a
    configuration again from the attribute values of an accepted one
    yields the same values. *)
Theorem X16_accepted_configuration_is_normalised
    (ua_rotation proxy_rotation header_randomization adaptive : bool)
    (min_d max_d : Q) (strat : string) (rotation_interval retries : Z)
    (t : Q) (ssl : bool) (c : AntiDetection.AntiDetectionConfig) :
  AntiDetection.AntiDetectionConfig_init ua_rotation proxy_rotation
    header_randomization adaptive min_d max_d strat rotation_interval
    retries t ssl = Ok c ->
  (0 <= AntiDetection.min_delay c)%Q
  /\ (AntiDetection.min_delay c <= AntiDetection.max_delay c)%Q
  /\ 1 <= AntiDetection.session_rotation_interval c
  /\ 0 <= AntiDetection.max_retries c
  /\ (1 <= AntiDetection.cfg_timeout c)%Q
  /\ recognized_strategy (AntiDetection.delay_strategy c)
  /\ AntiDetection.AntiDetectionConfig_init
       (AntiDetection.enable_user_agent_rotation c)
       (AntiDetection.enable_proxy_rotation c)
       (AntiDetection.enable_header_randomization c)
       (AntiDetection.enable_adaptive_delays c)
       (AntiDetection.min_delay c) (AntiDetection.max_delay c)
       (AntiDetection.delay_strategy c)
       (AntiDetection.session_rotation_interval c)
       (AntiDetection.max_retries c) (AntiDetection.cfg_timeout c)
       (AntiDetection.verify_ssl c)
     = Ok c.
Proof.
  unfold AntiDetection.AntiDetectionConfig_init,
    AntiDetection.AntiDetectionConfig_validate.
  cbn [AntiDetection.delay_strategy].
  destruct (existsb (String.eqb strat) AntiDetection.valid_strategies) eqn:Es;
    [|discriminate].
  cbn [bind]. intros [= <-].
  cbn [AntiDetection.min_delay AntiDetection.max_delay
       AntiDetection.session_rotation_interval AntiDetection.max_retries
       AntiDetection.cfg_timeout AntiDetection.delay_strategy
       AntiDetection.enable_user_agent_rotation
       AntiDetection.enable_proxy_rotation
       AntiDetection.enable_header_randomization
       AntiDetection.enable_adaptive_delays AntiDetection.verify_ssl].
  split; [apply Qmax2_ge_l|]. split; [apply Qmax2_ge_l|].
  split; [lia|]. split; [lia|]. split; [apply Qmax2_ge_l|].
  split; [now apply strategy_check_spec|].
  rewrite Es. cbn [bind].
  rewrite !Qmax2_idem, !Z.max_r by lia.
  replace (Z.max 1 (Z.max 1 rotation_interval))
    with (Z.max 1 rotation_interval) by lia.
  replace (Z.max 0 (Z.max 0 retries)) with (Z.max 0 retries) by lia.
  reflexivity.
Qed.

(** The defaults of [AntiDetectionConfig()] are accepted. *)
Lemma X16_witness_default_configuration :
  exists c,
    AntiDetection.AntiDetectionConfig_init true false true true 1 5 "random"
      50 3 30 true = Ok c
    /\ (AntiDetection.min_delay c <= AntiDetection.max_delay c)%Q.
Proof.
  eexists. split; [reflexivity|].
  refine (proj1 (proj2 (X16_accepted_configuration_is_normalised
                          true false true true 1 5 "random" 50 3 30 true _ _))).
  reflexivity.
Defined.

(** * Further properties of crawler.py and cli.py *)

Section CrawlerManagement.

Context `{Crawler.Transport}.

#[local] Open Scope list_scope.

(** ** Proxies of a constructed crawler *)

(** X12.  No crawler that the constructor returns has a proxy rotator:
    with proxy rotation in effect the constructor raises, otherwise it
    sets the rotator to [None].  So on a constructed crawler
    [get_proxy_health] reports rotation as disabled, [add_proxy] refuses
    every proxy without probing it, and [_get_current_proxy] returns
    [None]. *)
Theorem X12_constructed_crawler_has_no_proxy_rotator
    (a : Crawler.InitArgs) (w w' : World) (c : Crawler.WebCrawler) :
  Crawler.WebCrawler_init a w = (Ok c, w') ->
  Crawler.proxy_rotator c = None
  /\ w' = w
  /\ Crawler.get_proxy_health c = Crawler.RotationDisabled
  /\ (forall proxy validate w2,
        Crawler.add_proxy c proxy validate w2 = (false, c, w2))
  /\ Crawler._get_current_proxy c = Ok (None, c).
Proof.
  intros Hinit.
  assert (Crawler.proxy_rotator c = None /\ w' = w) as [Hnone ->].
  { unfold Crawler.WebCrawler_init in Hinit.
    destruct (AntiDetection.AntiDetectionConfig_init _ _ _ _ _ _ _ _ _ _ _);
      [|discriminate].
    destruct (Crawler._validate_config _ _ _ _); [|discriminate].
    destruct (Urllib.urlparse _); [|discriminate].
    destruct (_ && _).
    - destruct (AntiDetection.ProxyRotator_init _ _ _ _). discriminate.
    - injection Hinit as <- <-. split; reflexivity. }
  split; [exact Hnone|]. split; [reflexivity|].
  unfold Crawler.get_proxy_health, Crawler.add_proxy,
    Crawler._get_current_proxy. rewrite Hnone. auto.
Qed.

(** ** Health of the proxy pool *)

Lemma marked_at_most_pool (r : AntiDetection.ProxyRotator) :
  marks_within_pool r ->
  (size (AntiDetection._failed_proxies r)
   <= length (AntiDetection.proxies r))%nat.
Proof.
  intros Hm.
  rewrite <- (length_map proxy_str (AntiDetection.proxies r)).
  apply submseteq_length, NoDup_submseteq; [apply NoDup_elements|].
  intros key Hk. apply elem_of_elements in Hk.
  destruct (Hm key Hk) as (p & Hp & <-).
  now apply list_elem_of_fmap_2.
Qed.

Lemma percentage_bounds (healthy total : Z) :
  0 <= healthy <= total -> 0 < total ->
  (0 <= inject_Z healthy / inject_Z total * 100 <= 100)%Q.
Proof.
  intros Hh Ht. destruct total as [|p|p]; try lia.
  unfold Qle, Qdiv, Qmult, Qinv, inject_Z. cbn. lia.
Qed.

(** X13.  When only members of the pool are marked failed, as is the
    case from construction on and under [get_next], [add_proxy] and
    [mark_failed] of a proxy that [get_next] returned, the health report
    is sound: the healthy and the failed proxies are between 0 and the
    pool size and add up to it, and the percentage is between 0 and
    100. *)
Theorem X13_proxy_health_is_within_bounds
    (c : Crawler.WebCrawler) (r : AntiDetection.ProxyRotator) :
  Crawler.proxy_rotator c = Some r ->
  marks_within_pool r ->
  (exists total healthy failed percentage,
     Crawler.get_proxy_health c
     = Crawler.PoolHealth total healthy failed percentage
     /\ total = Crawler.len (AntiDetection.proxies r)
     /\ 0 <= healthy <= total
     /\ 0 <= failed <= total
     /\ healthy + failed = total
     /\ (0 <= percentage <= 100)%Q)
  /\ (forall proxy,
        proxy ∈ AntiDetection.proxies r ->
        marks_within_pool (AntiDetection.mark_failed r proxy))
  /\ (forall proxy validate w,
        marks_within_pool
          (snd (fst (AntiDetection.add_proxy r proxy validate w))))
  /\ (forall found r',
        AntiDetection.get_next r = Ok (found, r') -> marks_within_pool r').
Proof.
  intros Hrot Hm. split; [|split; [|split]].
  - unfold Crawler.get_proxy_health. rewrite Hrot.
    pose proof (marked_at_most_pool r Hm) as Hle.
    eexists _, _, _, _. split; [reflexivity|].
    unfold Crawler.len. split; [reflexivity|].
    split; [lia|]. split; [lia|]. split; [lia|].
    destruct (0 <? _) eqn:E.
    + apply Z.ltb_lt in E. apply percentage_bounds; lia.
    + split; [apply Qle_refl | discriminate].
  - intros proxy Hp key Hk. cbn in Hk.
    apply elem_of_union in Hk as [Hk|Hk]; [|now apply Hm].
    apply elem_of_singleton in Hk as ->. eauto.
  - intros proxy validate w. unfold AntiDetection.add_proxy.
    destruct (if validate then _ else _) as [ok w'].
    destruct ok; cbn [negb]; [|exact Hm].
    destruct (existsb _ _); [exact Hm|].
    intros key Hk. cbn in Hk |- *. destruct (Hm key Hk) as (p & Hp & <-).
    exists p. split; [|reflexivity]. apply elem_of_app. now left.
  - intros found r' Hnext. unfold AntiDetection.get_next in Hnext.
    destruct (AntiDetection.proxies r) as [|p ps] eqn:Ep.
    { injection Hnext as <- <-. exact Hm. }
    destruct (AntiDetection._iterator r) as [it|].
    2: { injection Hnext as <- <-. exact Hm. }
    destruct (AntiDetection.get_next_loop _ _ _) as [[[q|] it']|e];
      cbn [bind] in Hnext; try discriminate.
    + injection Hnext as <- <-. intros key Hk. cbn in Hk |- *.
      rewrite <- Ep. now apply Hm.
    + destruct (AntiDetection.next it') as [[q it'']|e];
        cbn [bind] in Hnext; [|discriminate].
      injection Hnext as <- <-. intros key Hk. cbn in Hk. set_solver.
Qed.

(** ** Settings *)

Lemma crawl_page_settings (c : Crawler.WebCrawler) (u : string) (w : World) :
  settings (snd (fst (Crawler.crawl_page c u w))) = settings c.
Proof.
  unfold Crawler.crawl_page.
  destruct (time_time w) as [start_time w1].
  destruct (Crawler.fetch_page u w1) as [attempt w2].
  pose proof (wait_fields
                (Crawler.delay_manager
                   (Crawler.with_request_count c (Crawler._request_count c + 1)))
                (Crawler.truthy_time
                   match attempt with
                   | Crawler.Completed f => Crawler.f_response_time f
                   | Crawler.Interrupted rt => rt
                   end) w2) as (_ & Hs & _).
  cbv zeta in Hs.
  assert (forall dm rt w0,
            AntiDetection.strategy
              (snd (fst (AntiDetection.target_delay dm rt w0)))
            = AntiDetection.strategy dm) as Hts.
  { intros dm rt w0. unfold AntiDetection.target_delay.
    destruct (String.eqb _ "fixed"); [reflexivity|].
    destruct (String.eqb _ "random"); [now destruct (random_uniform _ _ _)|].
    destruct (String.eqb _ "exponential"); [reflexivity|].
    destruct (String.eqb _ "adaptive"); [|reflexivity].
    unfold AntiDetection._calculate_adaptive_delay.
    destruct (match rt with Some _ => _ | None => _ end); [reflexivity|].
    cbn. destruct (Qltb 3 _); [reflexivity|]. now destruct (Qltb 1 _). }
  rewrite Hts in Hs.
  destruct (AntiDetection.wait _ _ w2) as [dm w3]. cbn [fst] in Hs.
  destruct attempt as [f|rt]; unfold settings; cbn; now rewrite Hs.
Qed.

Lemma loop_body_settings (st : Crawler.Loop) :
  settings (Crawler.self (snd (Crawler.loop_body st)))
  = settings (Crawler.self st).
Proof.
  unfold Crawler.loop_body.
  destruct (Crawler.url_queue (Crawler.self st)) as [|[u d] rest];
    [reflexivity|].
  destruct (decide _); [reflexivity|].
  destruct (_ <? d); [reflexivity|].
  set (c2 := Crawler.with_visited_urls _ _).
  pose proof (crawl_page_settings c2 u (Crawler.world st)) as Hk.
  destruct (Crawler.crawl_page c2 u (Crawler.world st)) as [[r c3] w3].
  cbn [fst snd] in Hk. subst c2.
  change (settings c3 = settings (Crawler.self st)) in Hk.
  destruct r as [page|]; [|exact Hk].
  unfold Crawler.handle_rate_limit, Crawler.enqueue_links.
  destruct (Crawler.has_error page);
    [destruct (Crawler.max_consecutive_failures <=? _); [exact Hk|]|];
    cbn [fst snd Crawler.self];
    destruct (Crawler.status_code page) as [code|];
    try destruct (code =? 429);
    try destruct (_ && _);
    exact Hk.
Qed.

Lemma crawl_loop_settings (fuel : nat) :
  forall st evs st',
    Crawler.crawl_loop fuel st = Some (evs, st') ->
    settings (Crawler.self st') = settings (Crawler.self st).
Proof.
  apply (crawl_run_ind
           (fun st _ st' =>
              settings (Crawler.self st') = settings (Crawler.self st))).
  - reflexivity.
  - intros st u d rest ev st1 _ _ Hb.
    pose proof (loop_body_settings st) as Hs. now rewrite Hb in Hs.
  - intros st u d rest ev st1 evs st' _ _ Hb IH.
    pose proof (loop_body_settings st) as Hs. rewrite Hb in Hs.
    cbn [snd] in Hs. congruence.
Qed.

(** X19.  A crawl never changes what the crawler was configured with:
    seed, depth limit, page budget, delay, flags, user agent, timeout,
    anti-detection configuration, base domain and the strategy of the
    delay manager are the same after [crawl] as before.  The constructor
    gives the delay manager the strategy of the configuration;
    [update_delay_strategy] changes the manager only, so afterwards the
    configuration still names the old strategy. *)
Theorem X19_crawl_keeps_the_settings :
  (forall fuel c w results c' w',
     Crawler.crawl fuel c w = Some (results, c', w') ->
     settings c' = settings c)
  /\ (forall a w c w',
        Crawler.WebCrawler_init a w = (Ok c, w') ->
        AntiDetection.strategy (Crawler.delay_manager c)
        = AntiDetection.delay_strategy (Crawler.anti_detection_config c)
        /\ recognized_strategy
             (AntiDetection.strategy (Crawler.delay_manager c)))
  /\ (forall c new_strategy new_base_delay c',
        Crawler.update_delay_strategy c new_strategy new_base_delay = Ok c' ->
        recognized_strategy new_strategy
        /\ AntiDetection.strategy (Crawler.delay_manager c') = new_strategy
        /\ AntiDetection.base_delay (Crawler.delay_manager c')
           = default (AntiDetection.base_delay (Crawler.delay_manager c))
               new_base_delay
        /\ Crawler.anti_detection_config c' = Crawler.anti_detection_config c)
  /\ (forall c new_strategy new_base_delay e,
        Crawler.update_delay_strategy c new_strategy new_base_delay = Raise e ->
        ~ recognized_strategy new_strategy
        /\ e = ValueError ("Invalid delay strategy: " ++ new_strategy)).
Proof.
  split; [|split; [|split]].
  - intros fuel c w results c' w' Hcrawl. unfold Crawler.crawl in Hcrawl.
    destruct (Crawler.crawl_loop fuel (Crawler.mkLoop c w 0 0))
      as [[evs st]|] eqn:Hrun; [|discriminate].
    injection Hcrawl as _ <- _.
    exact (crawl_loop_settings _ _ _ _ Hrun).
  - intros a w c w' Hinit. unfold Crawler.WebCrawler_init in Hinit.
    destruct (AntiDetection.AntiDetectionConfig_init _ _ _ _ _ _ _ _ _ _ _)
      as [config|] eqn:Ec; [|discriminate].
    destruct (Crawler._validate_config _ _ _ _); [|discriminate].
    destruct (Urllib.urlparse _); [|discriminate].
    destruct (AntiDetection.enable_proxy_rotation config && _).
    + destruct (AntiDetection.ProxyRotator_init _ _ _ _). discriminate.
    + injection Hinit as <- _. cbn. split; [reflexivity|].
      now apply accepted_strategy_is_recognized in Ec.
  - intros c new_strategy new_base_delay c' Hu.
    unfold Crawler.update_delay_strategy in Hu.
    destruct (existsb _ _) eqn:Es; cbn [negb] in Hu; [|discriminate].
    injection Hu as <-. cbn. split; [|auto].
    now apply strategy_check_spec.
  - intros c new_strategy new_base_delay e Hu.
    unfold Crawler.update_delay_strategy in Hu.
    destruct (existsb _ _) eqn:Es; cbn [negb] in Hu; [discriminate|].
    injection Hu as <-. split; [|reflexivity].
    intros Hr. apply strategy_check_spec in Hr.
    unfold AntiDetection.valid_strategies in Hr. congruence.
Qed.

End CrawlerManagement.

(** ** The robots gate *)

Section RobotsNeverConsulted.

Context `{Crawler.Transport}.

Variable Session : Type.
Variable session_get :
  Session -> string -> World -> Result Crawler.Response * World.
Variable py_float : string -> option Q.

(** X17.  The robots gate never blocks a URL.  [_get_robots_txt] reads
    [self.session], an attribute the crawler does not have; the
    [AttributeError] is caught and [None] is cached for the domain.  So
    from the empty cache of a new crawler on, whatever the site's
    robots.txt says, no request for it is sent, every cache entry is
    [None], and [_can_crawl_url] answers [True], or raises what [urlparse]
    raised for the URL. *)
Theorem X17_robots_gate_never_blocks
    (c : Crawler.WebCrawler) (robots_cache : Crawler.RobotsCache)
    (u : string) (w : World) :
  nothing_fetched robots_cache ->
  let '(answer, robots_cache', w') :=
    Crawler._can_crawl_url Session session_get py_float c robots_cache u w in
  nothing_fetched robots_cache'
  /\ w' = w
  /\ (answer = Ok true
      \/ exists e, answer = Raise e /\ Urllib.urlparse u = Raise e
                   /\ Crawler.respect_robots_txt c = true)
  /\ (forall parsed,
        Urllib.urlparse u = Ok parsed ->
        Crawler.respect_robots_txt c = true ->
        robots_cache' !! Urllib.netloc parsed = Some None).
Proof.
  intros Hcache. unfold Crawler._can_crawl_url.
  destruct (Crawler.respect_robots_txt c); cbn [negb].
  2: { split; [exact Hcache|]. split; [reflexivity|].
       split; [now left | discriminate]. }
  destruct (Urllib.urlparse u) as [parsed|e].
  2: { split; [exact Hcache|]. split; [reflexivity|].
       split; [right; eauto | discriminate]. }
  unfold Crawler._get_robots_txt, Crawler.self_session.
  unfold Crawler.RobotsCache in *.
  destruct (robots_cache !! Urllib.netloc parsed) as [cached|] eqn:El.
  - pose proof (Hcache _ _ El) as ->.
    split; [exact Hcache|]. split; [reflexivity|]. split; [now left|].
    now intros p [= <-] _.
  - cbv beta iota zeta.
    split; [|split; [reflexivity|split; [now left|]]].
    + intros domain entry Hl. unfold Crawler.RobotsCache in Hl.
      destruct (decide (domain = Urllib.netloc parsed)) as [->|Hne].
      * rewrite lookup_insert_eq in Hl. congruence.
      * rewrite lookup_insert_ne in Hl by congruence. eauto.
    + intros p [= <-] _. unfold Crawler.RobotsCache.
      apply lookup_insert_eq.
Qed.

End RobotsNeverConsulted.

(** ** Command-line validation *)

Section CommandLine.

Context `{Crawler.Transport}.

(** X18.  [validate_args] of the command line accepts exactly the
    values that [WebCrawler._validate_config] accepts, so a crawler built
    from accepted arguments never fails with [ConfigurationError]. *)
Theorem X18_validate_args_agrees_with_the_constructor :
  (forall seed depth pages (d : Q),
     Cli.validate_args seed depth pages d = None
     <-> Crawler._validate_config seed depth d pages = Ok tt)
  /\ (forall a w,
        Cli.validate_args (Crawler.a_seed_url a) (Crawler.a_max_depth a)
          (Crawler.a_max_pages a) (Crawler.a_delay a) = None ->
        is_ConfigurationError (fst (Crawler.WebCrawler_init a w)) = false)
  /\ Cli.validate_args "https://example.com" 3 100 1 = None
  /\ Cli.validate_args "example.com" 3 100 1
     = Some "URL must start with http:// or https://".
Proof.
  assert (forall seed depth pages (d : Q),
            Cli.validate_args seed depth pages d = None
            <-> Crawler._validate_config seed depth d pages = Ok tt) as Hiff.
  { intros seed depth pages d.
    unfold Cli.validate_args, Crawler._validate_config.
    destruct (depth <? 0), (pages <=? 0), (Qltb d 0);
      try (destruct (PyStr.truthy seed); cbn; split; discriminate).
    destruct (PyStr.startswith seed "http://") eqn:E1;
      [|destruct (PyStr.startswith seed "https://") eqn:E2];
      cbn [orb negb].
    - apply startswith_spec in E1 as [rest ->]. cbn. tauto.
    - apply startswith_spec in E2 as [rest ->]. cbn. tauto.
    - destruct (PyStr.truthy seed); cbn; split; discriminate. }
  split; [exact Hiff|]. split; [|split; reflexivity].
  intros a w Hv. apply Hiff in Hv. unfold Crawler.WebCrawler_init.
  destruct (AntiDetection.AntiDetectionConfig_init _ _ _ _ _ _ _ _ _ _ _)
    as [config|e] eqn:Ec.
  2: { unfold AntiDetection.AntiDetectionConfig_init,
         AntiDetection.AntiDetectionConfig_validate in Ec.
       destruct (existsb _ _); cbn [bind] in Ec; [discriminate|].
       now injection Ec as <-. }
  rewrite Hv.
  destruct (Urllib.urlparse (Crawler.a_seed_url a)) as [parsed|e] eqn:Ep.
  2: { cbn. unfold Urllib.urlparse, Urllib.urlparse_with, Urllib.urlsplit in Ep.
       repeat match type of Ep with
              | context [let '(_, _) := ?x in _] => destruct x
              end.
       destruct (xorb _ _); cbn [bind] in Ep; [now injection Ep as <-|].
       repeat match type of Ep with
              | context [match ?x with _ => _ end] => destruct x
              end; discriminate. }
  destruct (AntiDetection.enable_proxy_rotation config && _).
  - now destruct (AntiDetection.ProxyRotator_init _ _ _ _).
  - reflexivity.
Qed.

End CommandLine.

(** ** The further properties on the fixtures *)

(** The crawler [WebCrawler("https://example.com")] has no rotator. *)
Lemma X12_witness_default_crawler :
  @Crawler.get_proxy_health Fixtures.address_proxy
    Fixtures.example_crawler
  = Crawler.RotationDisabled.
Proof.
  apply (proj1 (proj2 (proj2
           (@X12_constructed_crawler_has_no_proxy_rotator
              Fixtures.address_proxy Fixtures.sim_runtime
              (Crawler.default_args Fixtures.url_a) 0%Q 0%Q
              Fixtures.example_crawler eq_refl)))).
Defined.

(** A pool of two proxies, both marked failed, is reported as 0%
    healthy. *)
Lemma X13_witness_exhausted_pool :
  exists total healthy failed percentage,
    @Crawler.get_proxy_health Fixtures.address_proxy
      (Crawler.with_proxy_rotator Fixtures.example_crawler
         (Some Fixtures.exhausted_rotator))
    = Crawler.PoolHealth total healthy failed percentage
    /\ total = Crawler.len (AntiDetection.proxies Fixtures.exhausted_rotator)
    /\ 0 <= healthy <= total
    /\ 0 <= failed <= total
    /\ healthy + failed = total
    /\ (0 <= percentage <= 100)%Q.
Proof.
  apply (@X13_proxy_health_is_within_bounds Fixtures.address_proxy
           Fixtures.sim_runtime
           (Crawler.with_proxy_rotator Fixtures.example_crawler
              (Some Fixtures.exhausted_rotator))
           Fixtures.exhausted_rotator eq_refl).
  intros key Hk. cbn in Hk.
  apply elem_of_union in Hk as [Hk|Hk];
    [|apply elem_of_union in Hk as [Hk|Hk]].
  - apply elem_of_singleton in Hk as ->.
    exists Fixtures.proxy2. split; [|reflexivity]. cbn. set_solver.
  - apply elem_of_singleton in Hk as ->.
    exists Fixtures.proxy1. split; [|reflexivity]. cbn. set_solver.
  - now apply elem_of_empty in Hk.
Defined.

(** A site whose robots.txt disallows [/private] for every agent: the
    gate still lets [/private/page] through. *)
Lemma X17_witness_disallowed_path_passes :
  fst (fst (@Crawler._can_crawl_url Fixtures.address_proxy
              Fixtures.sim_runtime unit
              (fun _ _ w => (Ok (Crawler.mkResponse 200 Fixtures.robots_private), w))
              (fun _ => None)
              Fixtures.example_crawler ∅
              "https://example.com/private/page" 0%Q))
  = Ok true.
Proof.
  pose proof (@X17_robots_gate_never_blocks Fixtures.address_proxy
                Fixtures.sim_runtime unit
                (fun _ _ w => (Ok (Crawler.mkResponse 200 Fixtures.robots_private), w))
                (fun _ => None)
                Fixtures.example_crawler ∅
                "https://example.com/private/page" 0%Q) as Hgate.
  destruct (Crawler._can_crawl_url _ _ _ _ _ _ _) as [[answer cache] w].
  destruct Hgate as (_ & _ & [->|(e & _ & He & _)] & _).
  - intros domain entry Hl. unfold Crawler.RobotsCache in Hl.
    rewrite lookup_empty in Hl. discriminate.
  - reflexivity.
  - vm_compute in He. discriminate.
Defined.

(** ** Sequential rotation of user agents *)

Section SequentialAgents.

Context `{Runtime}.

Variable random_choice : list string -> World -> Result string * World.

#[local] Open Scope list_scope.

(** The first pass of a sequential rotator over a list that is left
    alone. *)
Lemma first_pass (uas : list string) (w : World) (k : nat) :
  forall i,
    (i + k = length uas)%nat ->
    get_next_agents random_choice k
      (UserAgents.mkUserAgentRotator uas false
         (UserAgents.mkLiveCycle (Some i) (take i uas) 0%nat)) w
    = (map Ok (drop i uas),
       UserAgents.mkUserAgentRotator uas false
         (UserAgents.mkLiveCycle (Some (length uas)) uas 0%nat), w).
Proof.
  induction k as [|k IH]; intros i Hlen.
  - assert (i = length uas) as -> by lia.
    cbn. now rewrite drop_all, firstn_all.
  - assert (i < length uas)%nat as Hi by lia.
    destruct (lookup_lt_is_Some_2 uas i Hi) as [ua Hua].
    cbn [get_next_agents]. unfold UserAgents.get_next, UserAgents.next.
    cbn [UserAgents.random_rotation UserAgents.user_agents
         UserAgents._iterator UserAgents.position UserAgents.saved
         UserAgents.index].
    rewrite Hua. rewrite <- (take_S_r uas i ua Hua).
    rewrite (IH (S i)) by lia.
    now rewrite (drop_S uas ua i Hua).
Qed.

(** X20.  Sequential rotation stops following the list after its first
    pass.  A sequential rotator that is left alone returns its agents in
    list order, and the call after the last agent starts again at the
    first.  From that call on the rotation only repeats the agents it has
    returned so far: [add_user_agent] and [remove_user_agent] change the
    list but not the iterator, and [get_next] no longer reads the list, so
    an agent added later is never returned and a removed one still is. *)
Theorem X20_sequential_rotation_ignores_later_changes :
  (forall r ua,
     UserAgents._iterator (UserAgents.add_user_agent r ua)
     = UserAgents._iterator r
     /\ UserAgents._iterator (snd (UserAgents.remove_user_agent r ua))
        = UserAgents._iterator r)
  /\ (forall r r2 w,
        UserAgents.random_rotation r = false ->
        UserAgents.random_rotation r2 = false ->
        UserAgents._iterator r2 = UserAgents._iterator r ->
        UserAgents.position (UserAgents._iterator r) = None ->
        let '(ua, r', w') := UserAgents.get_next random_choice r w in
        let '(ua2, r2', _) := UserAgents.get_next random_choice r2 w in
        ua2 = ua
        /\ UserAgents._iterator r2' = UserAgents._iterator r'
        /\ UserAgents.position (UserAgents._iterator r') = None
        /\ UserAgents.saved (UserAgents._iterator r')
           = UserAgents.saved (UserAgents._iterator r)
        /\ w' = w
        /\ (forall agent, ua = Ok agent ->
                          agent ∈ UserAgents.saved (UserAgents._iterator r)))
  /\ (forall ua uas w,
        let r := UserAgents.UserAgentRotator_init (Some (ua :: uas)) false in
        let '(returned, r', w') :=
          get_next_agents random_choice (S (length (ua :: uas))) r w in
        returned = map Ok (ua :: uas) ++ [Ok ua]
        /\ UserAgents.position (UserAgents._iterator r') = None
        /\ UserAgents.saved (UserAgents._iterator r') = ua :: uas
        /\ w' = w).
Proof.
  split; [|split].
  - intros r ua. unfold UserAgents.add_user_agent, UserAgents.remove_user_agent.
    split.
    + now destruct (existsb _ _).
    + now destruct (UserAgents.list_remove _ _).
  - intros r r2 w Hr Hr2 Hit Hpos.
    unfold UserAgents.get_next, UserAgents.next.
    rewrite Hr, Hr2, Hit, Hpos. unfold UserAgents.next_saved.
    destruct (UserAgents.saved (UserAgents._iterator r)
                !! UserAgents.index (UserAgents._iterator r))
      as [item|] eqn:El; cbn.
    + repeat (split; [reflexivity|]). intros agent [= <-].
      now apply list_elem_of_lookup_2 in El.
    + repeat (split; [reflexivity|]). discriminate.
  - intros ua uas w. cbv zeta.
    assert (forall n r0 w0,
              get_next_agents random_choice (S n) r0 w0
              = let '(first, r1, w1) := get_next_agents random_choice n r0 w0 in
                let '(last, r2, w2) := UserAgents.get_next random_choice r1 w1 in
                (first ++ [last], r2, w2)) as Hsnoc.
    { induction n as [|n IH]; intros r0 w0.
      - cbn. destruct (UserAgents.get_next _ _ _) as [[x r1] w1]. reflexivity.
      - change (get_next_agents random_choice (S (S n)) r0 w0)
          with (let '(x, r1, w1) := UserAgents.get_next random_choice r0 w0 in
                let '(xs, r2, w2) := get_next_agents random_choice (S n) r1 w1 in
                (x :: xs, r2, w2)).
        destruct (UserAgents.get_next random_choice r0 w0) as [[x r1] w1] eqn:E0.
        rewrite IH. cbn [get_next_agents]. rewrite E0.
        destruct (get_next_agents random_choice n r1 w1) as [[xs r2] w2].
        now destruct (UserAgents.get_next random_choice r2 w2) as [[y r3] w3]. }
    rewrite Hsnoc.
    pose proof (first_pass (ua :: uas) w (length (ua :: uas)) 0%nat eq_refl)
      as Hpass.
    cbn [take drop] in Hpass.
    change (UserAgents.UserAgentRotator_init (Some (ua :: uas)) false)
      with (UserAgents.mkUserAgentRotator (ua :: uas) false
              (UserAgents.mkLiveCycle (Some 0%nat) [] 0%nat)).
    rewrite Hpass.
    unfold UserAgents.get_next, UserAgents.next, UserAgents.next_saved.
    cbn [UserAgents.random_rotation UserAgents.user_agents
         UserAgents._iterator UserAgents.position UserAgents.saved
         UserAgents.index].
    rewrite lookup_ge_None_2 by lia.
    cbn. auto.
Qed.

End SequentialAgents.

(** ** Statistics *)

Lemma py_min_spec (xs : list Q) :
  forall x,
    In (Reports.py_min x xs) (x :: xs)
    /\ Forall (fun y => (Reports.py_min x xs <= y)%Q) (x :: xs).
Proof.
  unfold Reports.py_min.
  induction xs as [|y xs IH]; intros x; cbn [fold_left].
  - split; [now left|]. repeat constructor. apply Qle_refl.
  - destruct (Qltb y x) eqn:E.
    + apply Qltb_lt in E. destruct (IH y) as [I1 I2].
      split; [now right|].
      apply Forall_cons_1 in I2 as [I2 I3].
      constructor; [lra|]. now constructor.
    + assert (x <= y)%Q as Hle.
      { apply Qnot_lt_le. intros Hlt. apply Qltb_lt in Hlt. congruence. }
      destruct (IH x) as [I1 I2].
      split; [destruct I1 as [I1|I1]; [now left | now right; right]|].
      apply Forall_cons_1 in I2 as [I2 I3].
      constructor; [exact I2|]. constructor; [lra | exact I3].
Qed.

Lemma py_max_spec (xs : list Q) :
  forall x,
    In (Reports.py_max x xs) (x :: xs)
    /\ Forall (fun y => (y <= Reports.py_max x xs)%Q) (x :: xs).
Proof.
  unfold Reports.py_max.
  induction xs as [|y xs IH]; intros x; cbn [fold_left].
  - split; [now left|]. repeat constructor. apply Qle_refl.
  - destruct (Qltb x y) eqn:E.
    + apply Qltb_lt in E. destruct (IH y) as [I1 I2].
      split; [now right|].
      apply Forall_cons_1 in I2 as [I2 I3].
      constructor; [lra|]. now constructor.
    + assert (y <= x)%Q as Hle.
      { apply Qnot_lt_le. intros Hlt. apply Qltb_lt in Hlt. congruence. }
      destruct (IH x) as [I1 I2].
      split; [destruct I1 as [I1|I1]; [now left | now right; right]|].
      apply Forall_cons_1 in I2 as [I2 I3].
      constructor; [exact I2|]. constructor; [lra | exact I3].
Qed.

Lemma omap_length_le {A B} (f : A -> option B) (l : list A) :
  (length (omap f l) <= length l)%nat.
Proof.
  induction l as [|x l IH]; [reflexivity|].
  change (omap f (x :: l))
    with (match f x with Some y => y :: omap f l | None => omap f l end).
  destruct (f x); cbn [length]; lia.
Qed.

Section Statistics.

Context `{Crawler.Transport}.

Import PrimFloat.

Variable float_mean : list Q -> Q.

#[local] Open Scope list_scope.

(** X22.  The response-time statistics: they are present exactly when
    some record has a response time other than zero, and then [min] and
    [max] are sampled response times with every sample between them, and
    the number of samples is between 1 and the number of records.  When
    only members of the pool are marked failed, the proxy success rate is
    between 0 and 1.  Nothing of the kind holds of [average], which is a
    rounded quotient: in binary64 three samples of 0.7 have a mean below
    0.7, and three samples of 0.1 a mean above 0.1. *)
Theorem X22_statistics_are_consistent
    (c : Crawler.WebCrawler) (rotator : option UserAgents.UserAgentRotator) :
  let stats := Reports.get_anti_detection_stats float_mean c rotator in
  let samples := Reports.sampled_response_times (Crawler.crawled_data c) in
  match Reports.response_times stats with
  | Some rt =>
      Forall (fun t => (Reports.min rt <= t <= Reports.max rt)%Q) samples
      /\ In (Reports.min rt) samples /\ In (Reports.max rt) samples
      /\ 1 <= Reports.total_samples rt <= Crawler.len (Crawler.crawled_data c)
      /\ Reports.total_samples rt = Crawler.len samples
      /\ Forall (fun t => ~ (t == 0)%Q) samples
  | None =>
      Forall (fun p => Crawler.truthy_time (Crawler.response_time p) = None)
        (Crawler.crawled_data c)
  end
  /\ (forall r,
        Crawler.proxy_rotator c = Some r ->
        marks_within_pool r ->
        exists ps,
          Reports.proxy_stats stats = Some ps
          /\ Reports.total_proxies ps = Crawler.len (AntiDetection.proxies r)
          /\ 0 <= Reports.failed_proxies ps <= Reports.total_proxies ps
          /\ (0 <= Reports.success_rate ps <= 1)%Q)
  /\ (Binary64.mean [0.7; 0.7; 0.7]%float <? 0.7)%float = true
  /\ (0.1 <? Binary64.mean [0.1; 0.1; 0.1]%float)%float = true.
Proof.
  cbv zeta. split; [|split; [|split; reflexivity]].
  - unfold Reports.get_anti_detection_stats. cbn [Reports.response_times].
    assert (Forall (fun t => ~ (t == 0)%Q)
              (Reports.sampled_response_times (Crawler.crawled_data c)))
      as Hnonzero.
    { apply Forall_forall. intros t Ht.
      apply list_elem_of_omap in Ht as (p & _ & Hp).
      unfold Crawler.truthy_time in Hp.
      destruct (Crawler.response_time p) as [t'|]; [|discriminate].
      destruct (Qeq_bool t' 0) eqn:E; [discriminate|].
      injection Hp as <-. intros Hz. apply Qeq_bool_iff in Hz. congruence. }
    assert (length (Reports.sampled_response_times (Crawler.crawled_data c))
            <= length (Crawler.crawled_data c))%nat as Hlen.
    { apply omap_length_le. }
    destruct (Reports.sampled_response_times (Crawler.crawled_data c))
      as [|t ts] eqn:Es.
    + unfold Reports.sampled_response_times in Es.
      apply Forall_forall. intros p Hp.
      destruct (Crawler.truthy_time (Crawler.response_time p)) as [t|] eqn:Et;
        [|reflexivity].
      assert (t ∈ omap (fun p => Crawler.truthy_time (Crawler.response_time p))
                    (Crawler.crawled_data c)) as Hin
        by (apply list_elem_of_omap; eauto).
      rewrite Es in Hin. inversion Hin.
    + cbn [Reports.min Reports.max Reports.average Reports.total_samples].
      destruct (py_min_spec ts t) as [M1 M2].
      destruct (py_max_spec ts t) as [X1 X2].
      split.
      * apply Forall_forall. intros y Hy.
        rewrite Forall_forall in M2, X2. split; [now apply M2 | now apply X2].
      * split; [exact M1|]. split; [exact X1|].
        split; [|split; [reflexivity | exact Hnonzero]].
        unfold Crawler.len. cbn [length] in *. lia.
  - intros r Hr Hm. unfold Reports.get_anti_detection_stats.
    cbn [Reports.proxy_stats]. rewrite Hr. cbn [option_map].
    eexists. split; [reflexivity|].
    cbn [Reports.total_proxies Reports.failed_proxies Reports.success_rate].
    pose proof (marked_at_most_pool r Hm) as Hle.
    split; [reflexivity|]. unfold Crawler.len. split; [lia|].
    destruct (AntiDetection.proxies r) as [|p ps] eqn:Ep.
    + split; [apply Qle_refl | discriminate].
    + rewrite <- Ep in Hle |- *.
      assert (0 < Z.of_nat (length (AntiDetection.proxies r))) as Hpos
        by (rewrite Ep; cbn [length]; lia).
      destruct (percentage_bounds
                  (Z.of_nat (length (AntiDetection.proxies r))
                   - Z.of_nat (size (AntiDetection._failed_proxies r)))
                  (Z.of_nat (length (AntiDetection.proxies r))))
        as [P1 P2]; [lia | exact Hpos |].
      split; lra.
Qed.

End Statistics.

(** ** Saving the results *)

Lemma split_no_sep (s : string) (c : ascii) :
  PyStr.contains s c = false -> PyStr.split s c = [s].
Proof.
  induction s as [|d s IH]; [reflexivity|].
  cbn [PyStr.contains PyStr.split]. intros Hc.
  apply orb_false_iff in Hc as [Hd Hs].
  rewrite Hd, (IH Hs). reflexivity.
Qed.

Lemma split_app_sep (a rest : string) (c : ascii) :
  PyStr.contains a c = false ->
  PyStr.split (a ++ String c rest) c = a :: PyStr.split rest c.
Proof.
  induction a as [|d a IH].
  - intros _. change ("" ++ String c rest) with (String c rest).
    cbn [PyStr.split]. now rewrite Ascii.eqb_refl.
  - cbn [PyStr.contains]. intros Hc. apply orb_false_iff in Hc as [Hd Ha].
    change (String d a ++ String c rest) with (String d (a ++ String c rest)).
    cbn [PyStr.split]. rewrite Hd, (IH Ha). reflexivity.
Qed.

Lemma join_cons (sep p : string) (ps : list string) :
  ps <> [] -> PyStr.join sep (p :: ps) = p ++ sep ++ PyStr.join sep ps.
Proof. destruct ps; [contradiction | reflexivity]. Qed.

Lemma join_app (sep : string) (a b : list string) :
  a <> [] -> b <> [] ->
  PyStr.join sep (a ++ b)%list = PyStr.join sep a ++ sep ++ PyStr.join sep b.
Proof.
  intros Ha Hb. induction a as [|p a IH]; [contradiction|].
  destruct a as [|q a].
  - cbn [app]. now rewrite join_cons.
  - change ((p :: q :: a) ++ b)%list with (p :: ((q :: a) ++ b))%list.
    rewrite join_cons by discriminate.
    rewrite IH by discriminate.
    rewrite (join_cons sep p (q :: a)) by discriminate.
    now rewrite !append_assoc.
Qed.

Lemma split_join (comps : list string) :
  comps <> [] ->
  Forall (fun comp => PyStr.contains comp "/" = false) comps ->
  PyStr.split (PyStr.join "/" comps) "/" = comps.
Proof.
  intros Hne Hall. induction Hall as [|p ps Hp Hps IH]; [contradiction|].
  destruct ps as [|q ps].
  - cbn [PyStr.join]. now apply split_no_sep.
  - rewrite join_cons by discriminate.
    change ("/" ++ PyStr.join "/" (q :: ps))
      with (String "/" (PyStr.join "/" (q :: ps))).
    rewrite split_app_sep by exact Hp.
    now rewrite IH.
Qed.

Lemma is_name_spec (comp : string) :
  is_name comp = true ->
  comp <> "" /\ (comp =? "")%string = false /\ (comp =? ".")%string = false
  /\ (comp =? "..")%string = false /\ PyStr.contains comp "/" = false.
Proof.
  unfold is_name. rewrite !andb_true_iff, !negb_true_iff.
  intros [[[H1 H2] H3] H4]. repeat split; auto.
  now apply String.eqb_neq.
Qed.

(** Plain names are appended one after the other. *)
Lemma norm_names (k : nat) (comps : list string) :
  Forall (fun comp => is_name comp = true) comps ->
  forall new_comps,
    fold_left (Posixpath.norm_step k) comps new_comps
    = (new_comps ++ comps)%list.
Proof.
  induction 1 as [|comp comps Hc _ IH]; intros acc.
  - cbn. now rewrite app_nil_r.
  - cbn [fold_left]. unfold Posixpath.norm_step at 2.
    apply is_name_spec in Hc as (_ & E1 & E2 & E3 & _).
    rewrite E1, E2, E3. cbn [orb negb].
    rewrite IH. now rewrite <- app_assoc.
Qed.

Lemma startswith_head (c : ascii) (s p : string) :
  PyStr.startswith (String c s) (String c p) = PyStr.startswith s p.
Proof.
  unfold PyStr.startswith. cbn [String.prefix].
  destruct (ascii_dec c c) as [_|Hne]; [reflexivity | contradiction].
Qed.

Lemma startswith_other_head (c d : ascii) (s p : string) :
  c <> d -> PyStr.startswith (String c s) (String d p) = false.
Proof.
  intros Hne. unfold PyStr.startswith. cbn [String.prefix].
  destruct (ascii_dec d c) as [->|_]; [contradiction | reflexivity].
Qed.

Lemma startswith_empty (s : string) : PyStr.startswith s "" = true.
Proof. apply startswith_spec. now exists s. Qed.

(** A path whose first component is a plain name starts with a character
    other than [/]; below the root it starts with one slash. *)
Lemma names_start (p : string) (ps : list string) :
  is_name p = true ->
  exists c tl, PyStr.join "/" (p :: ps) = String c tl /\ c <> "/"%char.
Proof.
  intros Hp. apply is_name_spec in Hp as (Hp & _ & _ & _ & Hs).
  destruct p as [|c p]; [contradiction|].
  cbn [PyStr.contains] in Hs. apply orb_false_iff in Hs as [Hc _].
  exists c. destruct ps.
  - exists p. split; [reflexivity|]. intros ->. discriminate.
  - rewrite join_cons by discriminate. eexists. split; [reflexivity|].
    intros ->. discriminate.
Qed.

Lemma one_initial_slash (p : string) (ps : list string) :
  is_name p = true ->
  PyStr.startswith ("/" ++ PyStr.join "/" (p :: ps)) "/" = true
  /\ PyStr.startswith ("/" ++ PyStr.join "/" (p :: ps)) "//" = false.
Proof.
  intros Hp. destruct (names_start p ps Hp) as (c & tl & -> & Hc).
  change ("/" ++ String c tl) with (String "/" (String c tl)).
  rewrite !startswith_head. split; [apply startswith_empty|].
  now apply startswith_other_head.
Qed.

Lemma names_have_no_slash (comps : list string) :
  Forall (fun comp => is_name comp = true) comps ->
  Forall (fun comp => PyStr.contains comp "/" = false) comps.
Proof.
  intros Hall. eapply Forall_impl; [exact Hall|].
  intros comp Hc. now apply is_name_spec in Hc.
Qed.

(** The loop of [normpath] on [/dirs/name/../rest]: [..] removes
    [name]. *)
Lemma norm_up (dirs rest : list string) (name : string) :
  Forall (fun comp => is_name comp = true) dirs ->
  is_name name = true ->
  Forall (fun comp => is_name comp = true) rest ->
  fold_left (Posixpath.norm_step 1)
    ("" :: dirs ++ [name; ".."] ++ rest)%list []
  = (dirs ++ rest)%list.
Proof.
  intros Hdirs Hname Hrest.
  pose proof (is_name_spec name Hname) as (_ & E1 & E2 & E3 & _).
  assert (Posixpath.norm_step 1 [] "" = []) as S0 by reflexivity.
  assert (Posixpath.norm_step 1 dirs name = (dirs ++ [name])%list) as S1.
  { unfold Posixpath.norm_step. now rewrite E1, E2, E3. }
  assert (Posixpath.norm_step 1 (dirs ++ [name])%list ".." = dirs) as S2.
  { unfold Posixpath.norm_step.
    change (".." =? "")%string with false.
    change (".." =? ".")%string with false.
    change (".." =? "..")%string with true.
    cbn [orb negb Nat.eqb andb].
    rewrite last_last, E3, removelast_last.
    now destruct (dirs ++ [name])%list. }
  cbn [fold_left]. rewrite S0, fold_left_app, (norm_names 1 dirs Hdirs).
  cbn [app fold_left]. rewrite S1, S2. apply (norm_names 1 rest Hrest).
Qed.

(** [normpath] of [/dirs/name/../rest] is [/dirs/rest]. *)
Lemma normpath_up (dirs rest : list string) (name : string) :
  Forall (fun comp => is_name comp = true) (dirs ++ name :: rest)%list ->
  rest <> [] ->
  Posixpath.normpath
    ("/" ++ PyStr.join "/" (dirs ++ [name; ".."] ++ rest)%list)
  = "/" ++ PyStr.join "/" (dirs ++ rest)%list.
Proof.
  intros Hall Hrest.
  apply Forall_app in Hall as [Hdirs Hrest'].
  apply Forall_cons_1 in Hrest' as [Hname Hrest'].
  unfold Posixpath.normpath.
  assert (PyStr.startswith
            ("/" ++ PyStr.join "/" (dirs ++ [name; ".."] ++ rest)%list) "/"
          = true
          /\ PyStr.startswith
               ("/" ++ PyStr.join "/" (dirs ++ [name; ".."] ++ rest)%list) "//"
             = false) as [H1 H2].
  { destruct dirs as [|d dirs].
    - now apply one_initial_slash.
    - apply Forall_cons_1 in Hdirs as [Hd _]. now apply one_initial_slash. }
  rewrite H1, H2. cbn [andb].
  change (("/" ++ PyStr.join "/" (dirs ++ [name; ".."] ++ rest)%list =? "")%string)
    with false.
  cbv iota.
  change (PyStr.split
            ("/" ++ PyStr.join "/" (dirs ++ [name; ".."] ++ rest)%list) "/")
    with ("" :: PyStr.split
                  (PyStr.join "/" (dirs ++ [name; ".."] ++ rest)%list) "/").
  rewrite split_join.
  2: { now destruct dirs. }
  2: { apply Forall_app. split; [now apply names_have_no_slash|].
       constructor; [now apply is_name_spec in Hname|].
       constructor; [reflexivity|]. now apply names_have_no_slash. }
  change ("" :: dirs ++ [name; ".."] ++ rest)%list
    with ("" :: dirs ++ [name; ".."] ++ rest)%list.
  rewrite (norm_up dirs rest name Hdirs Hname Hrest').
  assert (PyStr.truthy ("/" ++ PyStr.join "/" (dirs ++ rest)%list) = true) as ->
    by reflexivity.
  reflexivity.
Qed.

(** [normpath] leaves a path made of plain names below the root alone. *)
Lemma normpath_names (comps : list string) :
  comps <> [] ->
  Forall (fun comp => is_name comp = true) comps ->
  Posixpath.normpath ("/" ++ PyStr.join "/" comps)
  = "/" ++ PyStr.join "/" comps.
Proof.
  intros Hne Hall. unfold Posixpath.normpath.
  assert (PyStr.startswith ("/" ++ PyStr.join "/" comps) "/" = true
          /\ PyStr.startswith ("/" ++ PyStr.join "/" comps) "//" = false)
    as [H1 H2].
  { destruct Hall as [|p ps Hp _]; [contradiction|].
    now apply one_initial_slash. }
  rewrite H1, H2. cbn [andb].
  change (("/" ++ PyStr.join "/" comps =? "")%string) with false. cbv iota.
  change (PyStr.split ("/" ++ PyStr.join "/" comps) "/")
    with ("" :: PyStr.split (PyStr.join "/" comps) "/").
  rewrite split_join by (auto using names_have_no_slash).
  cbn [fold_left].
  change (Posixpath.norm_step 1 [] "") with (@nil string).
  rewrite (norm_names 1 comps Hall). cbn [app].
  assert (PyStr.truthy ("/" ++ PyStr.join "/" comps) = true) as ->
    by reflexivity.
  reflexivity.
Qed.

Lemma endswith_last_char (s : string) (c : ascii) :
  PyStr.endswith s (String c "") = true -> PyStr.contains s c = true.
Proof.
  induction s as [|d s IH]; [discriminate|].
  cbn [PyStr.endswith PyStr.contains]. intros He.
  apply orb_true_iff in He as [He|He].
  - apply String.eqb_eq in He. injection He as -> ->.
    now rewrite Ascii.eqb_refl.
  - rewrite (IH He). apply orb_true_r.
Qed.

Section Saving.

Context `{Crawler.Transport}.

Variable getcwd : World -> string.
Variable write_json :
  string -> list Crawler.PageData -> Z -> World -> Result unit * World.

(** X23.  The path check of [save_results] compares strings, not
    directories.  With the working directory [/dirs/name], the file name
    [../sibling/file] is accepted whenever [sibling] starts with [name]:
    the results are written to [/dirs/sibling/file], outside the working
    directory, and the outcome is that of the write. *)
Theorem X23_save_results_checks_a_string_prefix
    (c : Crawler.WebCrawler) (indent : Z) (w : World)
    (dirs : list string) (name sibling file : string) :
  Forall (fun comp => is_name comp = true) (dirs ++ [name; sibling; file])%list ->
  PyStr.startswith sibling name = true ->
  getcwd w = "/" ++ PyStr.join "/" (dirs ++ [name])%list ->
  let target := "/" ++ PyStr.join "/" (dirs ++ [sibling; file])%list in
  PyStr.startswith target (getcwd w) = true
  /\ Reports.save_results getcwd write_json c
       ("../" ++ sibling ++ "/" ++ file) indent w
     = match write_json target (Crawler.crawled_data c) indent w with
       | (Ok _, w') => (Ok tt, w')
       | (Raise e, w') =>
           (Raise (CrawlerError ("Failed to save results: " ++ str_exc e)), w')
       end.
Proof.
  intros Hall Hpre Hcwd. cbv zeta.
  apply Forall_app in Hall as [Hdirs Hrest].
  pose proof Hrest as Hrest'.
  apply Forall_cons_1 in Hrest' as [Hname Hrest'].
  assert (PyStr.startswith
            ("/" ++ PyStr.join "/" (dirs ++ [sibling; file])%list) (getcwd w)
          = true) as Hstart.
  { rewrite Hcwd. apply startswith_spec.
    apply startswith_spec in Hpre as [extra ->].
    exists (extra ++ "/" ++ file).
    destruct dirs as [|d dirs].
    - cbn [app PyStr.join]. now rewrite !append_assoc.
    - rewrite !(join_app "/" (d :: dirs)) by discriminate.
      cbn [PyStr.join]. now rewrite !append_assoc. }
  split; [exact Hstart|].
  unfold Reports.save_results.
  assert (Posixpath.join (getcwd w) ("../" ++ sibling ++ "/" ++ file)
          = "/" ++ PyStr.join "/" (dirs ++ [name; ".."] ++ [sibling; file])%list)
    as ->.
  { unfold Posixpath.join. rewrite Hcwd.
    change ("../" ++ sibling ++ "/" ++ file)
      with (String "." ("./" ++ sibling ++ "/" ++ file)).
    rewrite (startswith_other_head "." "/") by discriminate.
    change (PyStr.truthy ("/" ++ PyStr.join "/" (dirs ++ [name])%list)) with true.
    cbn [negb orb].
    assert (PyStr.endswith ("/" ++ PyStr.join "/" (dirs ++ [name])%list) "/" = false)
      as ->.
    { apply is_name_spec in Hname as (Hn & _ & _ & _ & Hs).
      destruct (PyStr.endswith _ "/") eqn:E; [|reflexivity].
      assert (PyStr.endswith name "/" = true) as He.
      { destruct dirs as [|d dirs].
        - cbn [app PyStr.join] in E.
          now rewrite (endswith_app "/" name "/" Hn eq_refl) in E.
        - rewrite (join_app "/" (d :: dirs) [name]) in E by discriminate.
          cbn [PyStr.join] in E.
          rewrite <- !append_assoc in E.
          now rewrite (endswith_app _ name "/" Hn eq_refl) in E. }
      apply endswith_last_char in He. congruence. }
    replace (dirs ++ [name; ".."] ++ [sibling; file])%list
      with ((dirs ++ [name]) ++ [".."; sibling; file])%list
      by (now rewrite <- app_assoc).
    rewrite (join_app "/" (dirs ++ [name])%list) by (try discriminate; now destruct dirs).
    cbn [PyStr.join]. now rewrite !append_assoc. }
  rewrite (normpath_up dirs [sibling; file] name);
    [|apply Forall_app; auto | discriminate].
  unfold Posixpath.abspath.
  assert (PyStr.startswith
            ("/" ++ PyStr.join "/" (dirs ++ [sibling; file])%list) "/" = true)
    as -> by (apply startswith_spec; eexists; reflexivity).
  rewrite normpath_names;
    [|now destruct dirs | apply Forall_app; auto].
  rewrite Hstart. cbn [negb].
  destruct (write_json _ _ _ _) as [[u|e] w']; reflexivity.
Qed.

End Saving.

(** With the working directory [/srv/crawl], the results go to
    [/srv/crawl-private/r.json]. *)
Lemma X23_witness_sibling_directory :
  @Reports.save_results Fixtures.address_proxy Fixtures.sim_runtime
    (fun _ => "/srv/crawl") (fun _ _ _ w => (Ok tt, (w + 1)%Q))
    Fixtures.example_crawler "../crawl-private/r.json" 2 0%Q
  = (Ok tt, (0 + 1)%Q).
Proof.
  apply (proj2 (@X23_save_results_checks_a_string_prefix
                  Fixtures.address_proxy Fixtures.sim_runtime
                  (fun _ => "/srv/crawl") (fun _ _ _ w => (Ok tt, (w + 1)%Q))
                  Fixtures.example_crawler 2 0%Q
                  ["srv"] "crawl" "crawl-private" "r.json"
                  ltac:(repeat constructor) eq_refl eq_refl)).
Defined.

(** ** Sessions *)

Section SessionFacts.

Context `{Crawler.Transport}.

Variable requests_Session : Sessions.Session.
Variable session_close : Sessions.Session -> World -> World.
Variable random_choice : list string -> World -> Result string * World.
Variable random_random : World -> Q * World.

Lemma dict_get_set {V} (d : list (string * V)) (key : string) (value : V) :
  Sessions.dict_get (Sessions.dict_set d key value) key = Some value.
Proof.
  induction d as [|[k v] d IH]; cbn.
  - now rewrite String.eqb_refl.
  - destruct (String.eqb k key) eqn:E; cbn; now rewrite E.
Qed.

Lemma dict_set_keys {V} (d : list (string * V)) (key : string) (value : V) :
  map fst d = [] \/ map fst d = [key] ->
  map fst (Sessions.dict_set d key value) = [key].
Proof.
  intros [Hd|Hd].
  - destruct d; [reflexivity | discriminate].
  - destruct d as [|[k v] [|e d]]; try discriminate.
    cbn in Hd. injection Hd as ->. cbn. now rewrite String.eqb_refl.
Qed.

Lemma dict_del_keys {V} (d : list (string * V)) (key : string) :
  map fst d = [] \/ map fst d = [key] ->
  map fst (Sessions.dict_del d key) = [].
Proof.
  intros [Hd|Hd].
  - destruct d; [reflexivity | discriminate].
  - destruct d as [|[k v] [|e d]]; try discriminate.
    cbn in Hd. injection Hd as ->. cbn. now rewrite String.eqb_refl.
Qed.

(** Updating other headers leaves a header alone. *)
Lemma header_update_other (d : list (string * string)) :
  forall (h : Sessions.Headers) (key : string),
    Forall (fun kv => PyStr.lower (fst kv) <> PyStr.lower key) d ->
    Sessions.header_get (Sessions.header_update h d) key
    = Sessions.header_get h key.
Proof.
  unfold Sessions.header_update, Sessions.header_get.
  induction d as [|[k v] d IH]; intros h key Hd; [reflexivity|].
  apply Forall_cons_1 in Hd as [Hk Hd]. cbn [fold_left fst snd].
  rewrite (IH _ _ Hd). unfold Sessions.header_set, Sessions.Headers.
  now apply lookup_insert_ne.
Qed.

(** The random headers do not include the user agent. *)
Lemma random_headers_spare_user_agent (w w' : World)
    (random_headers : list (string * string)) :
  Sessions.generate_random_headers random_choice random_random w
  = (Ok random_headers, w') ->
  Forall (fun kv => PyStr.lower (fst kv) <> PyStr.lower "User-Agent")
    random_headers.
Proof.
  unfold Sessions.generate_random_headers, Sessions.and_then, Sessions.ret.
  destruct (random_choice _ w) as [[accept|e] w1]; [|discriminate].
  destruct (random_choice _ w1) as [[accept_language|e] w2]; [|discriminate].
  destruct (random_choice _ w2) as [[dnt|e] w3]; [|discriminate].
  destruct (random_random w3) as [x w4].
  destruct (Qltb x (3 # 10));
    destruct (random_random w4) as [y w5];
    (destruct (Qltb y (2 # 10));
     [destruct (random_choice _ w5) as [[dest|e] w6]; [|discriminate];
      destruct (random_choice _ w6) as [[mode|e] w7]; [|discriminate];
      destruct (random_choice _ w7) as [[site|e] w8]; [|discriminate]|]);
    intros [= <- <-]; repeat constructor; cbn; discriminate.
Qed.

(** X21.  [_get_current_session] keeps one session.  When the manager
    holds at most the session of the current id, then afterwards it
    holds exactly the session of the id the crawler now has, which is one
    more than before when the request count is a positive multiple of the
    rotation interval and unchanged otherwise.  The session handed out is
    that one; it carries the [verify] and [timeout] of the configuration
    and, under [User-Agent], the crawler's user agent or the one the
    rotator returned: the randomised headers never replace it. *)
Theorem X21_one_session_with_the_chosen_user_agent
    (cl : Sessions.Client) (w : World) :
  keeps_at_most (Sessions.session_manager cl)
    (Sessions.session_name (Crawler._session_id (Sessions.crawler cl))) ->
  let c := Sessions.crawler cl in
  let config := Crawler.anti_detection_config c in
  let '(answer, cl', w') :=
    Sessions._get_current_session requests_Session session_close
      random_choice random_random cl w in
  let name' := Sessions.session_name (Crawler._session_id (Sessions.crawler cl')) in
  Crawler._session_id (Sessions.crawler cl')
  = (if rotation_due c then Crawler._session_id c + 1 else Crawler._session_id c)
  /\ map fst (Sessions._sessions (Sessions.session_manager cl')) = [name']
  /\ (forall name,
        answer = Ok name ->
        name = name'
        /\ exists session ua,
             Sessions.dict_get
               (Sessions._sessions (Sessions.session_manager cl')) name
             = Some session
             /\ Sessions.verify session = AntiDetection.verify_ssl config
             /\ Sessions.timeout session = Some (AntiDetection.cfg_timeout config)
             /\ Sessions.header_get (Sessions.headers session) "User-Agent"
                = Some ua
             /\ match Sessions.user_agent_rotator cl with
                | None => ua = Crawler.user_agent c
                | Some rotator =>
                    exists w1, fst (fst (UserAgents.get_next random_choice
                                           rotator w1)) = Ok ua
                end).
Proof.
  intros Hkeep. cbv zeta. unfold Sessions._get_current_session.
  fold (rotation_due (Sessions.crawler cl)).
  set (c := Sessions.crawler cl) in *.
  set (config := Crawler.anti_detection_config c).
  (* the rotation *)
  assert (exists cl1 w1,
            (if rotation_due c
             then
               let '(sm, w0) :=
                 Sessions.close_session session_close
                   (Sessions.session_manager cl)
                   (Sessions.session_name (Crawler._session_id c)) w in
               (Sessions.mkClient
                  (Sessions.with_session_id c (Crawler._session_id c + 1)) sm
                  (Sessions.user_agent_rotator cl), w0)
             else (cl, w)) = (cl1, w1)
            /\ Crawler._session_id (Sessions.crawler cl1)
               = (if rotation_due c then Crawler._session_id c + 1
                  else Crawler._session_id c)
            /\ keeps_at_most (Sessions.session_manager cl1)
                 (Sessions.session_name
                    (Crawler._session_id (Sessions.crawler cl1)))
            /\ Sessions.user_agent_rotator cl1 = Sessions.user_agent_rotator cl)
    as (cl1 & w1 & -> & Hid & Hkeep1 & Hrot).
  { destruct (rotation_due c).
    - unfold Sessions.close_session.
      destruct (Sessions.dict_get _ _) as [session|] eqn:Eg; eexists _, _;
        (split; [reflexivity|]); cbn; (split; [reflexivity|]);
        (split; [|reflexivity]); left.
      + now apply dict_del_keys.
      + destruct Hkeep as [Hk|Hk]; [exact Hk|].
        destruct (Sessions._sessions (Sessions.session_manager cl))
          as [|[k v] [|e d]]; try discriminate.
        cbn in Hk. injection Hk as ->. cbn in Eg.
        rewrite String.eqb_refl in Eg. discriminate.
    - exists cl, w. auto. }
  rewrite <- Hid.
  set (name := Sessions.session_name (Crawler._session_id (Sessions.crawler cl1))).
  (* the session *)
  assert (exists session0 sm1,
            Sessions.get_session requests_Session
              (Sessions.session_manager cl1) name = (session0, sm1)
            /\ (map fst (Sessions._sessions sm1) = [] \/
                map fst (Sessions._sessions sm1) = [name]))
    as (session0 & sm1 & -> & Hkeep2).
  { unfold Sessions.get_session.
    destruct (Sessions.dict_get _ _); eexists _, _;
      (split; [reflexivity|]); [exact Hkeep1|].
    right. cbn. now apply dict_set_keys. }
  unfold Sessions.store.
  cbn [Sessions.session_manager Sessions.crawler Sessions.user_agent_rotator
       Sessions._sessions Sessions.max_retries Sessions.sm_backoff_factor
       Sessions.sm_status_forcelist Sessions.headers Sessions.verify
       Sessions.timeout Sessions.retry_strategy].
  rewrite Hrot.
  assert (forall (d : list (string * Sessions.Session)) session,
            (map fst d = [] \/ map fst d = [name]) ->
            map fst (Sessions.dict_set d name session) = [name]
            /\ (map fst (Sessions.dict_set d name session) = [] \/
                map fst (Sessions.dict_set d name session) = [name]))
    as Hset.
  { intros d session Hd. rewrite (dict_set_keys d name session Hd). auto. }
  destruct (Hset (Sessions._sessions sm1)
              (Sessions.mkSession (Sessions.headers session0)
                 (AntiDetection.verify_ssl config)
                 (Some (AntiDetection.cfg_timeout config))
                 (Sessions.retry_strategy session0)) Hkeep2) as [K1 K1'].
  set (d1 := Sessions.dict_set (Sessions._sessions sm1) name _) in *.
  (* the user agent *)
  destruct (Sessions.user_agent_rotator cl) as [rotator|] eqn:Er.
  - destruct (UserAgents.get_next random_choice rotator w1)
      as [[[ua|e] rotator'] w2] eqn:Eua;
      cbn [Sessions.session_manager Sessions.crawler
           Sessions.user_agent_rotator Sessions._sessions];
      [|split; [reflexivity|]; split; [exact K1 | discriminate]].
    destruct (Hset d1
                (Sessions.mkSession
                   (Sessions.header_set (Sessions.headers session0)
                      "User-Agent" ua)
                   (AntiDetection.verify_ssl config)
                   (Some (AntiDetection.cfg_timeout config))
                   (Sessions.retry_strategy session0)) K1') as [K2 K2'].
    destruct (AntiDetection.enable_header_randomization config).
    + destruct (Sessions.generate_random_headers _ _ w2)
        as [[random_headers|e] w3] eqn:Eh;
        cbn [Sessions.session_manager Sessions.crawler
             Sessions.user_agent_rotator Sessions._sessions];
        [|split; [reflexivity|]; split; [exact K2 | discriminate]].
      split; [reflexivity|]. split; [now apply Hset|].
      intros name0 [= <-]. split; [reflexivity|].
      eexists _, ua. split; [apply dict_get_set|].
      cbn [Sessions.verify Sessions.timeout Sessions.headers].
      split; [reflexivity|]. split; [reflexivity|].
      split; [|exists w1; now rewrite Eua].
      rewrite header_update_other
        by (eapply random_headers_spare_user_agent; exact Eh).
      unfold Sessions.header_get, Sessions.header_set, Sessions.Headers.
      apply lookup_insert_eq.
    + split; [reflexivity|]. split; [exact K2|].
      intros name0 [= <-]. split; [reflexivity|].
      eexists _, ua. split; [apply dict_get_set|].
      cbn [Sessions.verify Sessions.timeout Sessions.headers].
      split; [reflexivity|]. split; [reflexivity|].
      split; [|exists w1; now rewrite Eua].
      unfold Sessions.header_get, Sessions.header_set, Sessions.Headers.
      apply lookup_insert_eq.
  - cbn [Sessions.session_manager Sessions.crawler
         Sessions.user_agent_rotator Sessions._sessions].
    destruct (Hset d1
                (Sessions.mkSession
                   (Sessions.header_set (Sessions.headers session0)
                      "User-Agent" (Crawler.user_agent c))
                   (AntiDetection.verify_ssl config)
                   (Some (AntiDetection.cfg_timeout config))
                   (Sessions.retry_strategy session0)) K1') as [K2 K2'].
    destruct (AntiDetection.enable_header_randomization config).
    + destruct (Sessions.generate_random_headers _ _ w1)
        as [[random_headers|e] w3] eqn:Eh;
        cbn [Sessions.session_manager Sessions.crawler
             Sessions.user_agent_rotator Sessions._sessions];
        [|split; [reflexivity|]; split; [exact K2 | discriminate]].
      split; [reflexivity|]. split; [now apply Hset|].
      intros name0 [= <-]. split; [reflexivity|].
      eexists _, _. split; [apply dict_get_set|].
      cbn [Sessions.verify Sessions.timeout Sessions.headers].
      split; [reflexivity|]. split; [reflexivity|].
      split; [|reflexivity].
      rewrite header_update_other
        by (eapply random_headers_spare_user_agent; exact Eh).
      unfold Sessions.header_get, Sessions.header_set, Sessions.Headers.
      apply lookup_insert_eq.
    + split; [reflexivity|]. split; [exact K2|].
      intros name0 [= <-]. split; [reflexivity|].
      eexists _, _. split; [apply dict_get_set|].
      cbn [Sessions.verify Sessions.timeout Sessions.headers].
      split; [reflexivity|]. split; [reflexivity|].
      split; [|reflexivity].
      unfold Sessions.header_get, Sessions.header_set, Sessions.Headers.
      apply lookup_insert_eq.
Qed.

End SessionFacts.

(** At the fiftieth request of a crawler with the default rotation
    interval, the manager goes from [session_0] to [session_1]. *)
Lemma X21_witness_rotation :
  let '(_, cl', _) :=
    @Sessions._get_current_session Fixtures.address_proxy Fixtures.sim_runtime
      (Sessions.mkSession ∅ true None None) (fun _ w => w)
      (fun l w => (Ok (List.hd "" l), w)) (fun w => ((1 # 4)%Q, w))
      (Sessions.mkClient
         (Crawler.with_request_count Fixtures.example_crawler 50)
         (Sessions.mkSessionManager 3 (3 # 10) [429; 500]
            [("session_0", Sessions.mkSession ∅ true None None)])
         None)
      0%Q in
  map fst (Sessions._sessions (Sessions.session_manager cl'))
  = [Sessions.session_name (Crawler._session_id (Sessions.crawler cl'))]
  /\ Crawler._session_id (Sessions.crawler cl') = 1.
Proof.
  pose proof (@X21_one_session_with_the_chosen_user_agent
                Fixtures.address_proxy Fixtures.sim_runtime
                (Sessions.mkSession ∅ true None None) (fun _ w => w)
                (fun l w => (Ok (List.hd "" l), w)) (fun w => ((1 # 4)%Q, w))
                (Sessions.mkClient
                   (Crawler.with_request_count Fixtures.example_crawler 50)
                   (Sessions.mkSessionManager 3 (3 # 10) [429; 500]
                      [("session_0", Sessions.mkSession ∅ true None None)])
                   None)
                0%Q (or_intror eq_refl)) as Hone.
  cbv zeta in Hone.
  destruct (Sessions._get_current_session _ _ _ _ _ _) as [[answer cl'] w'].
  destruct Hone as (Hid & Hkeys & _). split; [exact Hkeys | exact Hid].
Defined.

(** * The [try] block of [crawl_page] *)

(** ** What the parts hand to the block *)

Lemma extract_links_sound (find_hrefs : string -> Result (list string))
    (v : Utils.URLValidator) (html_content base_url : string) :
  NoDup (Utils.extract_links find_hrefs v html_content base_url)
  /\ forall l,
       l ∈ Utils.extract_links find_hrefs v html_content base_url ->
       Utils.is_valid_url v l = true /\ PyStr.contains l "#" = false.
Proof.
  unfold Utils.extract_links.
  set (links := match find_hrefs html_content with
                | Ok hrefs => Utils.links_loop v base_url hrefs []
                | Raise _ => []
                end).
  destruct (unique_loop_spec find_hrefs links ∅ []) as (U1 & U2 & _);
    [set_solver | constructor |].
  split; [exact U1|]. intros l Hl. apply U2 in Hl as [Hl|Hl]; [inversion Hl|].
  subst links. destruct (find_hrefs html_content) as [hrefs|e];
    [|inversion Hl].
  rewrite links_loop_spec in Hl. cbn [app] in Hl.
  apply list_elem_of_omap in Hl as (href & _ & Hlink).
  unfold link_of in Hlink.
  pose proof (normalized_url_fragment_free (PyStr.strip href) base_url) as Hf.
  destruct (Utils.normalize_url (PyStr.strip href) base_url) as [n|e];
    [|discriminate].
  destruct (PyStr.truthy _ && _ && Utils.is_valid_url v n) eqn:E;
    [|discriminate].
  injection Hlink as <-. apply andb_true_iff in E as [_ E]. auto.
Qed.

Section Rotators.

Context `{Runtime}.

(** An iterator in step with a non-empty pool always yields a proxy. *)
Lemma get_next_in_sync (r : AntiDetection.ProxyRotator) :
  rotator_in_sync r ->
  AntiDetection.proxies r <> [] ->
  exists proxy r',
    AntiDetection.get_next r = Ok (Some proxy, r')
    /\ AntiDetection.proxies r' = AntiDetection.proxies r
    /\ rotator_in_sync r'.
Proof.
  unfold rotator_in_sync, AntiDetection.get_next. intros Hsync Hne.
  destruct (AntiDetection.proxies r) as [|p0 ps] eqn:Eps; [congruence|].
  destruct Hsync as (it & Hit & Hperm). rewrite Hit.
  assert (length (p0 :: ps) = length it) as Hlen
    by (symmetry; now apply Permutation_length).
  rewrite Hlen.
  pose proof (get_next_loop_spec (AntiDetection._failed_proxies r) it [])
    as Hloop.
  rewrite app_nil_r in Hloop.
  destruct Hloop as [(pre & p & post & -> & Hpre & Hp & Heq)|[Hall Heq]];
    rewrite Heq; cbn [bind].
  - eexists _, _. split; [reflexivity|]. cbn. split; [reflexivity|].
    eexists. split; [reflexivity|]. rewrite <- Hperm. cbn [app].
    rewrite (Permutation_app_comm post (pre ++ [p])), <- app_assoc.
    reflexivity.
  - destruct it as [|x it']; [discriminate|].
    cbn [AntiDetection.next bind app].
    eexists _, _. split; [reflexivity|]. cbn. split; [reflexivity|].
    eexists. split; [reflexivity|]. rewrite <- Hperm.
    now rewrite Permutation_app_comm.
Qed.

(** [get_next] returns a proxy only from a non-empty pool, which it
    keeps. *)
Lemma get_next_some (r r' : AntiDetection.ProxyRotator) (found : option Proxy) :
  rotator_in_sync r ->
  AntiDetection.get_next r = Ok (found, r') ->
  rotator_in_sync r'
  /\ AntiDetection.proxies r' = AntiDetection.proxies r
  /\ (found <> None -> AntiDetection.proxies r <> []).
Proof.
  intros Hsync Hnext.
  destruct (AntiDetection.proxies r) as [|p ps] eqn:Ep.
  - unfold AntiDetection.get_next in Hnext. rewrite Ep in Hnext.
    injection Hnext as <- <-. rewrite Ep. auto.
  - destruct (get_next_in_sync r Hsync) as (proxy & r2 & Hn & Hp & Hs);
      [now rewrite Ep|].
    rewrite Hn in Hnext. injection Hnext as <- <-.
    rewrite Hp, Ep. split; [exact Hs|]. split; [reflexivity | discriminate].
Qed.

End Rotators.

Section TryBlock.

Context `{Runtime}.

Variable requests_Session : Sessions.Session.
Variable session_close : Sessions.Session -> World -> World.
Variable random_choice : list string -> World -> Result string * World.
Variable random_random : World -> Q * World.
Variable robots_get :
  Sessions.Session -> string -> World -> Result Crawler.Response * World.
Variable py_float : string -> option Q.
Variable proxy_truthy : Proxy -> bool.
Variable http_get :
  Sessions.Session -> string -> option Proxy -> Q -> bool -> World ->
  (Fetching.HttpResponse + Fetching.RequestError) * World.
Variable find_hrefs : string -> Result (list string).
Variable extract_title : string -> string.
Variable extract_meta_description : string -> string.

#[local] Open Scope list_scope.

(** ** The retry loop *)

(** A goal under the premise that no rotation can take place, in a case
    where one did. *)
Ltac no_rotation :=
  match goal with
  | Hd : _ \/ _ |- _ => destruct Hd as [Hd|Hd]; cbn in Hd; congruence
  end.

(** The requests the loop sends and the retries it counts. *)
Lemma request_loop_counts (session : Sessions.Session) (u : string)
    (config : AntiDetection.AntiDetectionConfig) (tries : nat) :
  forall st w,
    let '(outcome, st', w') :=
      Fetching.request_loop proxy_truthy http_get tries session u config st w in
    exists sent,
      Fetching.requests st' = Fetching.requests st ++ sent
      /\ (length sent <= tries)%nat
      /\ (tries <> 0%nat -> exists rest, sent = Fetching.current_proxy st :: rest)
      /\ Fetching.retry_count st <= Fetching.retry_count st'
         <= Fetching.retry_count st + Z.of_nat (length sent)
      /\ (outcome = Fetching.NoAnswer ->
          length sent = tries
          /\ Fetching.retry_count st'
             = Fetching.retry_count st + Z.of_nat tries)
      /\ (Fetching.truthy_proxy proxy_truthy (Fetching.current_proxy st) = false
          \/ Fetching.rotator st = None ->
          Fetching.retry_count st' = Fetching.retry_count st
          /\ Fetching.rotator st' = Fetching.rotator st
          /\ (length sent <= 1)%nat).
Proof.
  induction tries as [|tries IH]; intros st w.
  - cbn. exists []. rewrite app_nil_r.
    repeat split; try easy; try (cbn [length]; lia).
  - cbn [Fetching.request_loop].
    destruct (time_time w) as [request_start w1].
    destruct (http_get _ _ _ _ _ w1) as [[response|e] w2].
    { destruct (time_time w2) as [now w3]. exists [Fetching.current_proxy st].
      cbn. repeat split; try easy; try (cbn [length]; lia); eauto. }
    assert (exists sent,
              Fetching.requests st ++ [Fetching.current_proxy st]
              = Fetching.requests st ++ sent
              /\ (length sent <= S tries)%nat
              /\ (S tries <> 0%nat ->
                  exists rest, sent = Fetching.current_proxy st :: rest)
              /\ Fetching.retry_count st <= Fetching.retry_count st
                 <= Fetching.retry_count st + Z.of_nat (length sent)
              /\ (Fetching.Raised e = Fetching.NoAnswer ->
                  length sent = S tries
                  /\ Fetching.retry_count st
                     = Fetching.retry_count st + Z.of_nat (S tries))
              /\ (Fetching.truthy_proxy proxy_truthy (Fetching.current_proxy st)
                  = false \/ Fetching.rotator st = None ->
                  Fetching.retry_count st = Fetching.retry_count st
                  /\ Fetching.rotator st = Fetching.rotator st
                  /\ (length sent <= 1)%nat)) as Hraised.
    { exists [Fetching.current_proxy st]. cbn.
      repeat split; try easy; try (cbn [length]; lia); eauto. }
    destruct (Fetching.caught_for_retry e); [|exact Hraised].
    cbn [Fetching.current_proxy Fetching.rotator Fetching.retry_count
         Fetching.requests].
    destruct (Fetching.current_proxy st) as [proxy|] eqn:Ep; [|exact Hraised].
    destruct (Fetching.rotator st) as [r|] eqn:Er; [|exact Hraised].
    destruct (proxy_truthy proxy) eqn:Et; [|exact Hraised].
    destruct (AntiDetection.get_next _) as [[next_proxy r']|ex].
    2: { exists [Some proxy]. cbn. repeat split; try easy; try (cbn [length]; lia); eauto;
           no_rotation. }
    destruct next_proxy as [next_proxy|].
    2: { exists [Some proxy]. cbn. repeat split; try easy; try (cbn [length]; lia); eauto;
           no_rotation. }
    specialize (IH (Fetching.mkLoopState (Some next_proxy) (Some r')
                      (Fetching.retry_count st + 1)
                      (Fetching.requests st ++ [Some proxy])) w2).
    destruct (Fetching.request_loop _ _ tries _ _ _ _ w2) as [[outcome st'] w'].
    cbn [Fetching.current_proxy Fetching.rotator Fetching.retry_count
         Fetching.requests] in IH.
    destruct IH as (sent & I1 & I2 & I3 & I4 & I5 & _).
    exists (Some proxy :: sent). rewrite I1, <- app_assoc. cbn [app length].
    split; [reflexivity|]. split; [lia|]. split; [eauto|]. split; [lia|].
    split.
    + intros Ho. destruct (I5 Ho) as [I6 I7]. split; lia.
    + cbn [Fetching.truthy_proxy]. rewrite Et. intros [?|?]; discriminate.
Qed.

(** A rotator in step with its pool never leaves the loop without a
    proxy, and stays in step. *)
Lemma request_loop_in_step (session : Sessions.Session) (u : string)
    (config : AntiDetection.AntiDetectionConfig) (tries : nat) :
  forall st w,
    in_step st ->
    let '(outcome, st', w') :=
      Fetching.request_loop proxy_truthy http_get tries session u config st w in
    (forall r, Fetching.rotator st' = Some r -> rotator_in_sync r)
    /\ outcome <> Fetching.NoProxyLeft
    /\ (forall ex, outcome <> Fetching.RotatorRaised ex)
    /\ (Fetching.rotator st = None -> Fetching.rotator st' = None).
Proof.
  induction tries as [|tries IH]; intros st w Hstep.
  - cbn. split; [intros r Hr; now apply Hstep|]. repeat split; easy.
  - cbn [Fetching.request_loop].
    destruct (time_time w) as [request_start w1].
    destruct (http_get _ _ _ _ _ w1) as [[response|e] w2].
    { destruct (time_time w2) as [now w3]. cbn.
      split; [intros r Hr; now apply Hstep|]. repeat split; easy. }
    assert ((forall r, Fetching.rotator st = Some r -> rotator_in_sync r)
            /\ Fetching.Raised e <> Fetching.NoProxyLeft
            /\ (forall ex, Fetching.Raised e <> Fetching.RotatorRaised ex)
            /\ (Fetching.rotator st = None -> Fetching.rotator st = None))
      as Hraised.
    { split; [intros r Hr; now apply Hstep|]. repeat split; easy. }
    destruct (Fetching.caught_for_retry e); [|exact Hraised].
    cbn [Fetching.current_proxy Fetching.rotator Fetching.retry_count
         Fetching.requests].
    destruct (Fetching.current_proxy st) as [proxy|] eqn:Ep; [|exact Hraised].
    destruct (Fetching.rotator st) as [r|] eqn:Er; [|exact Hraised].
    destruct (proxy_truthy proxy) eqn:Et; [|exact Hraised].
    destruct (Hstep r Er) as [Hsync Hpool].
    specialize (Hpool ltac:(rewrite Ep; discriminate)).
    destruct (get_next_in_sync (AntiDetection.mark_failed r proxy))
      as (next_proxy & r' & Hnext & Hp & Hs);
      [now apply rotator_in_sync_mark_failed | exact Hpool |].
    rewrite Hnext.
    specialize (IH (Fetching.mkLoopState (Some next_proxy) (Some r')
                      (Fetching.retry_count st + 1)
                      (Fetching.requests st ++ [Some proxy])) w2).
    destruct (Fetching.request_loop _ _ tries _ _ _ _ w2) as [[outcome st'] w'].
    destruct IH as (I1 & I2 & I3 & _).
    { intros r0 [= <-]. split; [exact Hs|]. intros _.
      rewrite Hp. exact Hpool. }
    split; [exact I1|]. split; [exact I2|]. split; [exact I3 | discriminate].
Qed.

(** ** What precedes the loop *)

(** While nothing was fetched, the gate answers [False] for no URL. *)
Lemma robots_gate_open (c : Crawler.WebCrawler)
    (robots_cache : Crawler.RobotsCache) (u : string) (w : World) :
  nothing_fetched robots_cache ->
  let '(answer, robots_cache', w') :=
    Crawler._can_crawl_url Sessions.Session robots_get py_float c
      robots_cache u w in
  nothing_fetched robots_cache' /\ answer <> Ok false.
Proof.
  intros Hcache. unfold Crawler._can_crawl_url.
  destruct (Crawler.respect_robots_txt c); cbn [negb]; [|easy].
  destruct (Urllib.urlparse u) as [parsed|e]; [|easy].
  unfold Crawler._get_robots_txt, Crawler.self_session.
  unfold Crawler.RobotsCache in *.
  destruct (robots_cache !! Urllib.netloc parsed) as [cached|] eqn:El.
  - pose proof (Hcache _ _ El) as ->. easy.
  - cbv beta iota zeta. split; [|easy].
    intros domain entry Hl. unfold Crawler.RobotsCache in Hl.
    destruct (decide (domain = Urllib.netloc parsed)) as [->|Hne].
    + rewrite lookup_insert_eq in Hl. congruence.
    + rewrite lookup_insert_ne in Hl by congruence. eauto.
Qed.

(** [_get_current_session] leaves the proxy rotator, the configuration
    and the URL validator of the crawler alone. *)
Lemma current_session_frame (cl : Sessions.Client) (w : World) :
  let '(name, cl', w') :=
    Sessions._get_current_session requests_Session session_close
      random_choice random_random cl w in
  Crawler.proxy_rotator (Sessions.crawler cl')
  = Crawler.proxy_rotator (Sessions.crawler cl)
  /\ Crawler.anti_detection_config (Sessions.crawler cl')
     = Crawler.anti_detection_config (Sessions.crawler cl)
  /\ Fetching.url_validator (Sessions.crawler cl')
     = Fetching.url_validator (Sessions.crawler cl).
Proof.
  unfold Sessions._get_current_session.
  set (c := Sessions.crawler cl).
  assert (exists cl1 w1,
            (if (0 <? Crawler._request_count c)
                && (Crawler._request_count c
                    mod AntiDetection.session_rotation_interval
                          (Crawler.anti_detection_config c) =? 0)
             then
               let '(sm, w0) :=
                 Sessions.close_session session_close
                   (Sessions.session_manager cl)
                   (Sessions.session_name (Crawler._session_id c)) w in
               (Sessions.mkClient
                  (Sessions.with_session_id c (Crawler._session_id c + 1)) sm
                  (Sessions.user_agent_rotator cl), w0)
             else (cl, w)) = (cl1, w1)
            /\ Crawler.proxy_rotator (Sessions.crawler cl1)
               = Crawler.proxy_rotator c
            /\ Crawler.anti_detection_config (Sessions.crawler cl1)
               = Crawler.anti_detection_config c
            /\ Fetching.url_validator (Sessions.crawler cl1)
               = Fetching.url_validator c)
    as (cl1 & w1 & -> & Hframe).
  { destruct (_ && _).
    - destruct (Sessions.close_session _ _ _ _) as [sm w0].
      eexists _, _. split; [reflexivity|]. cbn. auto.
    - exists cl, w. auto. }
  destruct (Sessions.get_session _ _ _) as [session sm].
  unfold Sessions.store.
  cbn [Sessions.session_manager Sessions.crawler Sessions.user_agent_rotator].
  destruct (Sessions.user_agent_rotator cl1) as [rotator|].
  - destruct (UserAgents.get_next _ _ _) as [[[ua|e] rotator'] w2];
      cbn [Sessions.crawler]; [|exact Hframe].
    destruct (AntiDetection.enable_header_randomization _); [|exact Hframe].
    destruct (Sessions.generate_random_headers _ _ _) as [[hs|e] w3];
      exact Hframe.
  - destruct (AntiDetection.enable_header_randomization _); [|exact Hframe].
    destruct (Sessions.generate_random_headers _ _ _) as [[hs|e] w3];
      exact Hframe.
Qed.

(** The proxy [_get_current_proxy] hands out comes from a rotator that
    is in step with its pool. *)
Lemma current_proxy_in_step (c c' : Crawler.WebCrawler) (proxy : option Proxy) :
  (forall r, Crawler.proxy_rotator c = Some r -> rotator_in_sync r) ->
  Crawler._get_current_proxy c = Ok (proxy, c') ->
  in_step (Fetching.mkLoopState proxy (Crawler.proxy_rotator c') 0 []).
Proof.
  intros Hsync. unfold Crawler._get_current_proxy, in_step.
  cbn [Fetching.rotator Fetching.current_proxy].
  destruct (Crawler.proxy_rotator c) as [r|] eqn:Er.
  2: { intros [= <- <-] r Hr. congruence. }
  destruct (AntiDetection.enable_proxy_rotation _).
  2: { intros [= <- <-] r0 Hr. rewrite Er in Hr. injection Hr as <-.
       split; [now apply Hsync | easy]. }
  destruct (AntiDetection.get_next r) as [[found r']|e] eqn:En;
    cbn [bind]; [|discriminate].
  intros [= <- <-] r0 Hr. cbn in Hr. injection Hr as <-.
  destruct (get_next_some r r' found (Hsync r eq_refl) En) as (Hs & Hp & Hne).
  split; [exact Hs|]. rewrite Hp. exact Hne.
Qed.

(** [_get_current_proxy] hands out no proxy without a rotator, and
    changes nothing but the rotator. *)
Lemma current_proxy_frame (c c' : Crawler.WebCrawler) (proxy : option Proxy) :
  Crawler._get_current_proxy c = Ok (proxy, c') ->
  (Crawler.proxy_rotator c = None ->
   proxy = None /\ Crawler.proxy_rotator c' = None)
  /\ Crawler.anti_detection_config c' = Crawler.anti_detection_config c
  /\ Fetching.url_validator c' = Fetching.url_validator c.
Proof.
  unfold Crawler._get_current_proxy.
  destruct (Crawler.proxy_rotator c) as [r|] eqn:Er.
  2: { intros [= <- <-]. auto. }
  destruct (AntiDetection.enable_proxy_rotation _).
  2: { intros [= <- <-]. split; [congruence | auto]. }
  destruct (AntiDetection.get_next r) as [[found r']|e]; cbn [bind];
    [|discriminate].
  intros [= <- <-]. split; [discriminate | auto].
Qed.

(** ** The block as a whole *)

(** The block ends before the loop with the initial [page_data] and an
    error, or runs the loop on what the session and proxy selection gave
    and records the outcome. *)
Lemma attempt_cases (f : Fetching.Fetcher) (u : string) (w : World) :
  let c0 := Sessions.crawler (Fetching.client f) in
  let gate :=
    Crawler._can_crawl_url Sessions.Session robots_get py_float c0
      (Fetching.robots_cache f) u w in
  let '(a, f', sent, w') :=
    Fetching.attempt requests_Session session_close random_choice
      random_random robots_get py_float proxy_truthy http_get find_hrefs
      extract_title extract_meta_description f u w in
  Fetching.robots_cache f' = snd (fst gate)
  /\ ((sent = []
       /\ Crawler.proxy_rotator (Sessions.crawler (Fetching.client f'))
          = Crawler.proxy_rotator c0
       /\ ((a = Crawler.Completed (Fetching.blank Crawler.BlockedByRobots)
            /\ fst (fst gate) = Ok false)
           \/ exists detail,
               a = Crawler.Completed
                     (Fetching.blank (Crawler.UnexpectedFailure detail))))
      \/ exists c1 proxy c session w1 outcome st w2 ua,
          Crawler.proxy_rotator c1 = Crawler.proxy_rotator c0
          /\ Fetching.url_validator c1 = Fetching.url_validator c0
          /\ Crawler._get_current_proxy c1 = Ok (proxy, c)
          /\ Fetching.request_loop proxy_truthy http_get
               (if Fetching.truthy_proxy proxy_truthy proxy
                then 3%nat else 1%nat)
               session u (Crawler.anti_detection_config c0)
               (Fetching.mkLoopState proxy (Crawler.proxy_rotator c) 0 []) w1
             = (outcome, st, w2)
          /\ a = Fetching.outcome_record find_hrefs extract_title
                   extract_meta_description c u ua
                   (if Fetching.truthy_proxy proxy_truthy proxy
                    then option_map proxy_str proxy else None)
                   (Fetching.retry_count st) outcome
          /\ sent = Fetching.requests st
          /\ Crawler.proxy_rotator (Sessions.crawler (Fetching.client f'))
             = Fetching.rotator st).
Proof.
  cbv zeta. unfold Fetching.attempt.
  destruct (Crawler._can_crawl_url _ _ _ _ _ _ _) as [[[[|]|e] cache] w0];
    cbn [fst snd Fetching.robots_cache Fetching.client];
    [|split; [reflexivity|]; left; eauto 6..].
  pose proof (current_session_frame (Fetching.client f) w0) as Hframe.
  destruct (Sessions._get_current_session _ _ _ _ _ _)
    as [[[name|e] cl] w1];
    cbn [fst snd Fetching.robots_cache Fetching.client];
    [|split; [reflexivity|]; left; destruct Hframe as (-> & _); eauto 6].
  destruct Hframe as (Hr & Hc & Hv).
  destruct (Crawler._get_current_proxy (Sessions.crawler cl))
    as [[proxy c]|e] eqn:Ep;
    cbn [fst snd Fetching.robots_cache Fetching.client];
    [|split; [reflexivity|]; left; rewrite Hr; eauto 6].
  destruct (Fetching.request_loop _ _ _ _ _ _ _ _) as [[outcome st] w2] eqn:El.
  cbn [fst snd Fetching.robots_cache Fetching.client Sessions.crawler].
  split; [reflexivity|]. right.
  exists (Sessions.crawler cl), proxy, c. eexists _, _, outcome, st, w2, _.
  split; [exact Hr|]. split; [exact Hv|]. split; [exact Ep|].
  split; [exact El|].
  split; [reflexivity|]. split; [reflexivity|]. reflexivity.
Qed.

(** X24.  Two of the errors of [crawl_page] cannot occur.  Take a crawler
    whose robots cache holds no parser and whose proxy rotator, if it has
    one, cycles over its pool (both hold for a new crawler).  Then the
    [try] block keeps both properties, so they hold at every page of a
    crawl, and the page data it leaves never carry the error "Blocked by
    robots.txt" nor "All proxies failed": the gate answers [True] for
    every URL, and [get_next], called after [mark_failed], clears the
    failed set rather than return [None] when every proxy has failed. *)
Theorem X24_no_page_is_blocked_or_out_of_proxies
    (f : Fetching.Fetcher) (u : string) (w : World) :
  nothing_fetched (Fetching.robots_cache f) ->
  (forall r,
     Crawler.proxy_rotator (Sessions.crawler (Fetching.client f)) = Some r ->
     rotator_in_sync r) ->
  let '(a, f', sent, w') :=
    Fetching.attempt requests_Session session_close random_choice
      random_random robots_get py_float proxy_truthy http_get find_hrefs
      extract_title extract_meta_description f u w in
  nothing_fetched (Fetching.robots_cache f')
  /\ (forall r,
        Crawler.proxy_rotator (Sessions.crawler (Fetching.client f')) = Some r ->
        rotator_in_sync r)
  /\ forall fetched,
       a = Crawler.Completed fetched ->
       Crawler.f_failure fetched <> Some Crawler.BlockedByRobots
       /\ Crawler.f_failure fetched <> Some Crawler.AllProxiesFailed.
Proof.
  intros Hcache Hsync.
  pose proof (attempt_cases f u w) as Hcases.
  pose proof (robots_gate_open (Sessions.crawler (Fetching.client f))
                (Fetching.robots_cache f) u w Hcache) as Hgate.
  cbv zeta in Hcases.
  destruct (Fetching.attempt _ _ _ _ _ _ _ _ _ _ _ _ _ _)
    as [[[a f'] sent] w'].
  destruct (Crawler._can_crawl_url _ _ _ _ _ _ _) as [[answer cache] w0].
  cbn [fst snd] in Hcases. destruct Hgate as [Hcache' Hopen].
  destruct Hcases as [-> Hcases]. split; [exact Hcache'|].
  destruct Hcases as [(_ & -> & Hblank)
                     |(c1 & proxy & c & session & w1 & outcome & st & w2 & ua
                       & Hr & _ & Hp & Hloop & -> & _ & ->)].
  - split; [exact Hsync|]. intros fetched Ha.
    destruct Hblank as [[_ Hno]|[detail ->]]; [contradiction|].
    injection Ha as <-. cbn. split; discriminate.
  - pose proof (request_loop_in_step session u
                  (Crawler.anti_detection_config
                     (Sessions.crawler (Fetching.client f)))
                  (if Fetching.truthy_proxy proxy_truthy proxy
                   then 3%nat else 1%nat)
                  (Fetching.mkLoopState proxy (Crawler.proxy_rotator c) 0 [])
                  w1) as Hstep.
    rewrite Hloop in Hstep.
    destruct Hstep as (Hs & Hleft & _).
    { apply (current_proxy_in_step c1); [|exact Hp].
      rewrite Hr. exact Hsync. }
    split; [exact Hs|]. intros fetched.
    unfold Fetching.outcome_record.
    destruct outcome as [response response_time| | |e|ex];
      [| |contradiction| |]; try (intros [= <-]; cbn; split; discriminate).
    + destruct (_ =? 200); [destruct (PyStr.contains_str _ _)|];
        intros [= <-]; cbn; split; discriminate.
    + destruct e; cbn [Fetching.failure_of]; intros [= <-]; cbn;
        split; discriminate.
Qed.

(** X25.  The requests of one [crawl_page] and its retry count.  The
    block sends at most three requests for the page, and at most one when
    the crawler has no proxy rotator, which it then still lacks.  In the
    page data, [retry_count] is between 0 and the number of requests
    sent; without [proxy_used] there was no retry and at most one
    request; [proxy_used] is the text of the proxy of the first request,
    whichever proxy answered in the end; and the error "Failed to get
    response after retries" means that three requests were sent and all
    three proxies marked as failed. *)
Theorem X25_requests_and_retries_of_a_page
    (f : Fetching.Fetcher) (u : string) (w : World) :
  let '(a, f', sent, w') :=
    Fetching.attempt requests_Session session_close random_choice
      random_random robots_get py_float proxy_truthy http_get find_hrefs
      extract_title extract_meta_description f u w in
  (length sent <= 3)%nat
  /\ (Crawler.proxy_rotator (Sessions.crawler (Fetching.client f)) = None ->
      (length sent <= 1)%nat
      /\ Crawler.proxy_rotator (Sessions.crawler (Fetching.client f')) = None)
  /\ forall fetched,
       a = Crawler.Completed fetched ->
       0 <= Crawler.f_retry_count fetched <= Z.of_nat (length sent)
       /\ (Crawler.f_proxy_used fetched = None ->
           Crawler.f_retry_count fetched = 0 /\ (length sent <= 1)%nat)
       /\ (forall shown,
             Crawler.f_proxy_used fetched = Some shown ->
             exists proxy rest,
               sent = Some proxy :: rest /\ shown = proxy_str proxy)
       /\ (Crawler.f_failure fetched = Some Crawler.NoResponse ->
           length sent = 3%nat /\ Crawler.f_retry_count fetched = 3).
Proof.
  pose proof (attempt_cases f u w) as Hcases. cbv zeta in Hcases.
  destruct (Fetching.attempt _ _ _ _ _ _ _ _ _ _ _ _ _ _)
    as [[[a f'] sent] w'].
  destruct Hcases as [_ Hcases].
  destruct Hcases as [(-> & -> & Hblank)
                     |(c1 & proxy & c & session & w1 & outcome & st & w2 & ua
                       & Hr & _ & Hp & Hloop & -> & -> & ->)].
  - cbn [length]. split; [lia|]. split; [intros ->; split; [lia|reflexivity]|].
    intros fetched Ha.
    assert (exists failure,
              fetched = Fetching.blank failure
              /\ failure <> Crawler.NoResponse) as (failure & -> & Hno).
    { destruct Hblank as [[-> _]|[detail ->]]; injection Ha as <-;
        eexists; (split; [reflexivity | discriminate]). }
    cbn. split; [lia|]. split; [split; [reflexivity | lia]|].
    split; [discriminate | congruence].
  - pose proof (request_loop_counts session u
                  (Crawler.anti_detection_config
                     (Sessions.crawler (Fetching.client f)))
                  (if Fetching.truthy_proxy proxy_truthy proxy
                   then 3%nat else 1%nat)
                  (Fetching.mkLoopState proxy (Crawler.proxy_rotator c) 0 [])
                  w1) as Hcount.
    rewrite Hloop in Hcount.
    cbn [Fetching.requests Fetching.retry_count Fetching.current_proxy
         Fetching.rotator app] in Hcount.
    destruct Hcount as (sent & -> & Hlen & Hfirst & Hretry & Hall & Hnone).
    set (tries := if Fetching.truthy_proxy proxy_truthy proxy
                  then 3%nat else 1%nat) in *.
    assert (tries <> 0%nat /\ (tries <= 3)%nat) as [Htries Hmost]
      by (subst tries; destruct (Fetching.truthy_proxy _ _); lia).
    destruct (Hfirst Htries) as [rest Hsent].
    destruct (current_proxy_frame c1 c proxy Hp) as (Hnorot & _).
    split; [lia|]. split.
    { intros Hf. rewrite <- Hr in Hf. destruct (Hnorot Hf) as [-> Hc].
      destruct Hnone as (_ & -> & Hone); [now left|]. auto. }
    intros fetched Ha.
    assert (Crawler.f_retry_count fetched = Fetching.retry_count st
            /\ Crawler.f_proxy_used fetched
               = (if Fetching.truthy_proxy proxy_truthy proxy
                  then option_map proxy_str proxy else None)
            /\ (Crawler.f_failure fetched = Some Crawler.NoResponse ->
                outcome = Fetching.NoAnswer)) as (-> & -> & Hfail).
    { revert Ha. unfold Fetching.outcome_record.
      destruct outcome as [response response_time| | |e|ex];
        try (intros [= <-]; cbn; repeat split; try reflexivity;
             discriminate).
      - destruct (_ =? 200); [destruct (PyStr.contains_str _ _)|];
          intros [= <-]; cbn; repeat split; try reflexivity; discriminate.
      - destruct e; cbn [Fetching.failure_of]; intros [= <-]; cbn;
          repeat split; try reflexivity; discriminate. }
    split; [lia|].
    destruct (Fetching.truthy_proxy proxy_truthy proxy) eqn:Et.
    + destruct proxy as [proxy|]; [|discriminate]. cbn [option_map].
      split; [discriminate|]. split.
      * intros shown [= <-]. eauto.
      * intros Hno. destruct (Hall (Hfail Hno)) as [H1 H2].
        subst tries. split; [exact H1 | lia].
    + destruct Hnone as (Hzero & _ & Hone); [now left|].
      split; [auto|]. split; [discriminate|].
      intros Hno. destruct (Hall (Hfail Hno)) as [_ H2].
      subst tries. lia.
Qed.

(** X26.  What the page data of [crawl_page] say about the response.
    There is no error exactly when the status code is 200 and the content
    type, in lower case, contains [text/html]; with an error, title, meta
    description and links are empty.  The links are distinct, pass
    [is_valid_url] of the crawler's validator and contain no [#].  Status
    code, content type, content length and response time are set
    together, and only after a request was sent; the error "HTTP n" names
    the status code, which is not 200, and the error "Non-HTML content"
    comes with status 200. *)
Theorem X26_page_data_match_the_response
    (f : Fetching.Fetcher) (u : string) (w : World) :
  let '(a, f', sent, w') :=
    Fetching.attempt requests_Session session_close random_choice
      random_random robots_get py_float proxy_truthy http_get find_hrefs
      extract_title extract_meta_description f u w in
  forall fetched,
    a = Crawler.Completed fetched ->
    (Crawler.f_failure fetched = None <->
     Crawler.f_status_code fetched = Some 200
     /\ exists header,
          Crawler.f_content_type fetched = Some header
          /\ PyStr.contains_str (PyStr.lower header) "text/html" = true)
    /\ (Crawler.f_failure fetched <> None ->
        Crawler.f_title fetched = ""
        /\ Crawler.f_meta_description fetched = ""
        /\ Crawler.f_links fetched = [])
    /\ NoDup (Crawler.f_links fetched)
    /\ (forall l,
          l ∈ Crawler.f_links fetched ->
          Utils.is_valid_url
            (Fetching.url_validator (Sessions.crawler (Fetching.client f))) l
          = true
          /\ PyStr.contains l "#" = false)
    /\ ((Crawler.f_status_code fetched = None <->
         Crawler.f_response_time fetched = None)
        /\ (Crawler.f_status_code fetched = None <->
            Crawler.f_content_type fetched = None)
        /\ (Crawler.f_status_code fetched = None <->
            Crawler.f_content_length fetched = None)
        /\ (Crawler.f_status_code fetched <> None -> sent <> []))
    /\ (forall code,
          Crawler.f_failure fetched = Some (Crawler.HttpStatus code) ->
          Crawler.f_status_code fetched = Some code /\ code <> 200)
    /\ (forall header,
          Crawler.f_failure fetched = Some (Crawler.NonHtmlContent header) ->
          Crawler.f_status_code fetched = Some 200).
Proof.
  pose proof (attempt_cases f u w) as Hcases. cbv zeta in Hcases.
  destruct (Fetching.attempt _ _ _ _ _ _ _ _ _ _ _ _ _ _)
    as [[[a f'] sent] w'].
  destruct Hcases as [_ Hcases]. intros fetched Ha.
  assert (forall failure,
            fetched
            = Crawler.mkFetched "" "" [] None (Some failure) None None None
                (Crawler.f_user_agent_used fetched)
                (Crawler.f_proxy_used fetched)
                (Crawler.f_retry_count fetched) ->
            (forall code, failure <> Crawler.HttpStatus code) ->
            (forall header, failure <> Crawler.NonHtmlContent header) ->
            (Crawler.f_failure fetched = None <->
             Crawler.f_status_code fetched = Some 200
             /\ exists header,
                  Crawler.f_content_type fetched = Some header
                  /\ PyStr.contains_str (PyStr.lower header) "text/html"
                     = true)
            /\ (Crawler.f_failure fetched <> None ->
                Crawler.f_title fetched = ""
                /\ Crawler.f_meta_description fetched = ""
                /\ Crawler.f_links fetched = [])
            /\ NoDup (Crawler.f_links fetched)
            /\ (forall l,
                  l ∈ Crawler.f_links fetched ->
                  Utils.is_valid_url
                    (Fetching.url_validator
                       (Sessions.crawler (Fetching.client f))) l
                  = true
                  /\ PyStr.contains l "#" = false)
            /\ ((Crawler.f_status_code fetched = None <->
                 Crawler.f_response_time fetched = None)
                /\ (Crawler.f_status_code fetched = None <->
                    Crawler.f_content_type fetched = None)
                /\ (Crawler.f_status_code fetched = None <->
                    Crawler.f_content_length fetched = None)
                /\ (Crawler.f_status_code fetched <> None -> sent <> []))
            /\ (forall code,
                  Crawler.f_failure fetched = Some (Crawler.HttpStatus code) ->
                  Crawler.f_status_code fetched = Some code /\ code <> 200)
            /\ (forall header,
                  Crawler.f_failure fetched
                  = Some (Crawler.NonHtmlContent header) ->
                  Crawler.f_status_code fetched = Some 200)) as Hfailed.
  { intros failure -> Hcode Hhtml. cbn.
    split; [split; [discriminate | intros [? _]; discriminate]|].
    split; [auto|]. split; [constructor|].
    split; [intros l Hl; inversion Hl|].
    split; [repeat split; congruence|].
    split; [intros code [= ->]; now destruct (Hcode code)|].
    intros header [= ->]. now destruct (Hhtml header). }
  destruct Hcases as [(-> & _ & Hblank)
                     |(c1 & proxy & c & session & w1 & outcome & st & w2 & ua
                       & _ & Hv & Hp & Hloop & -> & -> & _)].
  - destruct Hblank as [[-> _]|[detail ->]]; injection Ha as <-;
      eapply Hfailed; try reflexivity; discriminate.
  - destruct (current_proxy_frame c1 c proxy Hp) as (_ & _ & Hv').
    rewrite <- Hv, <- Hv'. rewrite <- Hv, <- Hv' in Hfailed.
    pose proof (request_loop_counts session u
                  (Crawler.anti_detection_config
                     (Sessions.crawler (Fetching.client f)))
                  (if Fetching.truthy_proxy proxy_truthy proxy
                   then 3%nat else 1%nat)
                  (Fetching.mkLoopState proxy (Crawler.proxy_rotator c) 0 [])
                  w1) as Hcount.
    rewrite Hloop in Hcount.
    cbn [Fetching.requests Fetching.current_proxy app] in Hcount.
    destruct Hcount as (sent & Hsent & _ & Hfirst & _).
    assert (Fetching.requests st <> []) as Hsome.
    { rewrite Hsent. destruct Hfirst as [rest ->]; [|discriminate].
      destruct (Fetching.truthy_proxy _ _); discriminate. }
    revert Ha. unfold Fetching.outcome_record.
    destruct outcome as [response response_time| | |e|ex];
      try (intros [= <-]; eapply Hfailed; try reflexivity; discriminate).
    + destruct (Fetching.status_code response =? 200) eqn:Ecode;
        [apply Z.eqb_eq in Ecode; rewrite Ecode;
         destruct (PyStr.contains_str _ _) eqn:Ehtml|
         apply Z.eqb_neq in Ecode];
        intros [= <-]; cbn.
      * destruct (extract_links_sound find_hrefs (Fetching.url_validator c)
                    (Fetching.text response) u) as [Hnodup Hlinks].
        split; [split; [eauto | reflexivity]|].
        split; [congruence|]. split; [exact Hnodup|].
        split; [exact Hlinks|].
        split; [repeat split; congruence|].
        split; discriminate.
      * split; [split; [discriminate|]|].
        { intros (_ & header & [= <-] & Hh). congruence. }
        split; [auto|]. split; [constructor|].
        split; [intros l Hl; inversion Hl|].
        split; [repeat split; congruence|].
        split; [discriminate | reflexivity].
      * split; [split; [discriminate|]|].
        { intros ([= E] & _). congruence. }
        split; [auto|]. split; [constructor|].
        split; [intros l Hl; inversion Hl|].
        split; [repeat split; congruence|].
        split; [intros code [= <-]; auto | discriminate].
    + destruct e; cbn [Fetching.failure_of]; intros [= <-];
        eapply Hfailed; try reflexivity; discriminate.
Qed.

End TryBlock.

(** Both proxies of the pool are marked as failed and the network refuses
    every connection: the block goes through the pool again, and the page
    is neither blocked nor out of proxies. *)
Lemma X24_witness_refused_connections :
  let '(a, f', sent, w') :=
    @Fetching.attempt Fixtures.address_proxy Fixtures.sim_runtime
      (Sessions.mkSession ∅ true None None) (fun _ w => w)
      (fun l w => (Ok (List.hd "" l), w)) (fun w => ((1 # 4)%Q, w))
      (fun _ _ w => (Ok (Crawler.mkResponse 200 Fixtures.robots_private), w))
      (fun _ => None) (fun _ => true) Fixtures.refusing_network
      (fun _ => Ok []) (fun _ => "") (fun _ => "")
      Fixtures.proxied_fetcher Fixtures.url_a 0%Q in
  nothing_fetched (Fetching.robots_cache f')
  /\ (forall r,
        Crawler.proxy_rotator (Sessions.crawler (Fetching.client f')) = Some r ->
        rotator_in_sync r)
  /\ forall fetched,
       a = Crawler.Completed fetched ->
       Crawler.f_failure fetched <> Some Crawler.BlockedByRobots
       /\ Crawler.f_failure fetched <> Some Crawler.AllProxiesFailed.
Proof.
  apply (@X24_no_page_is_blocked_or_out_of_proxies Fixtures.address_proxy
           Fixtures.sim_runtime
           (Sessions.mkSession ∅ true None None) (fun _ w => w)
           (fun l w => (Ok (List.hd "" l), w)) (fun w => ((1 # 4)%Q, w))
           (fun _ _ w => (Ok (Crawler.mkResponse 200 Fixtures.robots_private), w))
           (fun _ => None) (fun _ => true) Fixtures.refusing_network
           (fun _ => Ok []) (fun _ => "") (fun _ => "")
           Fixtures.proxied_fetcher Fixtures.url_a 0%Q).
  - intros domain entry Hl. cbn in Hl. unfold Crawler.RobotsCache in Hl.
    rewrite lookup_empty in Hl. discriminate.
  - intros r [= <-]. cbn. eexists. split; reflexivity.
Defined.
